(** * Q5-sentinel: the risk-priority engine, embedded and verified

    A shallow embedding of the scoring and ranking core of the repository
    (motor/src): the five subscore calculators, the coupling stage of
    [RiskPriorityCalculator.calculate_rpi], the tie-breaker key, the
    deduplicator, the primary sort and the funnel re-ranker of
    [VulnerabilityPrioritizer], [ProcessingConfig.validate], and, around
    them, [pareto_cut], the two sentences of the report,
    [VulnerabilityData.categorize_rpi] and [validate_vulnerability_data].

    Conventions of the embedding.
    - A Python [float] is an exact rational ([Q]); floats that are not
      finite (read from a text such as [inf] or [nan], or reached by
      overflow) and rounding error are outside the model.  Every constant
      of the source is the decimal it is written as.  An integer is
      unbounded, and [float] rejects one beyond the range of a float.
    - A record ([Dict]) is an association list from field names to Python
      values; the values are the JSON scalars and arrays of strings.
    - What the interpreter, the math library and the clock supply
      ([float] and [int] on text, [repr], [math.log10], [math.sqrt],
      [datetime.utcnow], [id]) is a parameter of the development
      ([PyRuntime]); theorems hold for every runtime, examples are
      evaluated on the instance [model_runtime].
    - A text is a string of bytes (UTF-8).  On a text with characters
      beyond ASCII, [strip] and [isdigit] are those of the interpreter;
      the case of letters and the digits of the two patterns ([_CVE_RE],
      the digits of a CWE) are read on the ASCII characters only.
    - An exception that the source lets escape is a [None] result.
    - Logging, progress bars, the network and the process pool are not
      modelled, except for what they decide: the order in which the pool
      completes its tasks is an argument of [process_vulnerabilities]. *)

From Stdlib Require Import ZArith QArith Qround Lqa Lia Bool List String Ascii.
From Stdlib Require Import DecimalString Permutation Sorted.
Import ListNotations.

Set Implicit Arguments.
Open Scope Q_scope.
Open Scope string_scope.

(* ================================================================== *)
(** * Python values *)

Module Py.

Inductive value : Type :=
| VNone
| VBool (b : bool)
| VInt (z : Z)
| VFloat (q : Q)
| VStr (s : string)
| VList (l : list string).

(** What the interpreter and its environment supply. *)
Class PyRuntime : Type := {
  (** [float(s)] on a [str]; [None] is [ValueError]. *)
  float_of_string : string -> option Q;
  (** [int(s)] on a [str]; [None] is [ValueError]. *)
  int_of_string : string -> option Z;
  (** [str(x)] of a float and of a list. *)
  repr_float : Q -> string;
  repr_list : list string -> string;
  math_log10 : Q -> Q;
  math_sqrt : Q -> Q;
  (** [datetime.utcnow() - d] in days for the date that
      [q5_calculator._parse_date] reads from a text; [None] when no
      format of [_parse_date] accepts the text. *)
  days_since : string -> option Q;
  (** [str(id(v))] of the record at a position of the input list. *)
  id_str : nat -> string;
  (** [s.strip()] and [s.isdigit()] on a text that has characters beyond
      ASCII: the white space and the digits of the Unicode tables of the
      interpreter. *)
  strip_beyond_ascii : string -> string;
  isdigit_beyond_ascii : string -> bool
}.

(** ** Numbers *)

Definition Qltb (a b : Q) : bool := negb (Qle_bool b a).

(** [min(a, b)] and [max(a, b)]: the first argument unless the second is
    strictly smaller (larger). *)
Definition min (a b : Q) : Q := if Qltb b a then b else a.
Definition max (a b : Q) : Q := if Qltb a b then b else a.

Definition abs (a : Q) : Q := if Qltb a 0 then - a else a.

(** [int(x)] of a float: truncation toward zero. *)
Definition int_of_float (q : Q) : Z :=
  if Qle_bool 0 q then Qfloor q else Qceiling q.

(** [round(x, 2)], half to even. *)
Definition round2 (q : Q) : Q :=
  let x := q * 100 in
  let f := Qfloor x in
  let r := x - inject_Z f in
  let n := if Qltb r 0.5 then f
           else if Qltb 0.5 r then (f + 1)%Z
           else if Z.even f then f else (f + 1)%Z in
  inject_Z n / 100.

(** ** Strings *)

Definition is_upper (c : ascii) : bool :=
  (65 <=? nat_of_ascii c)%nat && (nat_of_ascii c <=? 90)%nat.
Definition is_lower (c : ascii) : bool :=
  (97 <=? nat_of_ascii c)%nat && (nat_of_ascii c <=? 122)%nat.
Definition is_digit (c : ascii) : bool :=
  (48 <=? nat_of_ascii c)%nat && (nat_of_ascii c <=? 57)%nat.
Definition is_space (c : ascii) : bool :=
  let n := nat_of_ascii c in
  (n =? 32)%nat || ((9 <=? n)%nat && (n <=? 13)%nat)
  || ((28 <=? n)%nat && (n <=? 31)%nat).

(** The text has no character beyond ASCII. *)
Fixpoint is_ascii (s : string) : bool :=
  match s with
  | EmptyString => true
  | String c t => (nat_of_ascii c <? 128)%nat && is_ascii t
  end.

Definition lower_char (c : ascii) : ascii :=
  if is_upper c then ascii_of_nat (nat_of_ascii c + 32) else c.
Definition upper_char (c : ascii) : ascii :=
  if is_lower c then ascii_of_nat (nat_of_ascii c - 32) else c.

Fixpoint map_string (f : ascii -> ascii) (s : string) : string :=
  match s with
  | EmptyString => EmptyString
  | String c t => String (f c) (map_string f t)
  end.

(** [s.lower()], [s.upper()] on the ASCII letters. *)
Definition lower : string -> string := map_string lower_char.
Definition upper : string -> string := map_string upper_char.

Fixpoint lstrip (s : string) : string :=
  match s with
  | String c t => if is_space c then lstrip t else s
  | EmptyString => EmptyString
  end.

Fixpoint rev_string (acc s : string) : string :=
  match s with
  | EmptyString => acc
  | String c t => rev_string (String c acc) t
  end.

(** [s.strip()] on a text of ASCII characters. *)
Definition strip_ascii (s : string) : string :=
  rev_string "" (lstrip (rev_string "" (lstrip s))).

(** [needle in hay] on two strings. *)
Fixpoint contains (needle hay : string) : bool :=
  if prefix needle hay then true
  else match hay with
       | EmptyString => false
       | String _ t => contains needle t
       end.

(** [any(x in hay for x in needles)] *)
Definition any_in (needles : list string) (hay : string) : bool :=
  existsb (fun x => contains x hay) needles.

(** [s in (a, b, ...)] for a string [s]. *)
Definition str_in (s : string) (l : list string) : bool :=
  existsb (String.eqb s) l.

Fixpoint all_digits (s : string) : bool :=
  match s with
  | EmptyString => true
  | String c t => is_digit c && all_digits t
  end.

(** [s.isdigit()] on a text of ASCII characters. *)
Definition isdigit_ascii (s : string) : bool :=
  match s with EmptyString => false | _ => all_digits s end.

Fixpoint count_char (c : ascii) (s : string) : nat :=
  match s with
  | EmptyString => O
  | String d t => (if Ascii.eqb c d then 1 else 0) + count_char c t
  end.

(** [len(s.split(c))] for a one-character separator. *)
Definition split_len (c : ascii) (s : string) : nat := S (count_char c s).

Fixpoint join (sep : string) (l : list string) : string :=
  match l with
  | [] => ""
  | [x] => x
  | x :: t => x ++ sep ++ join sep t
  end.

(** ** Conversions *)

Definition str_of_Z (z : Z) : string := NilZero.string_of_int (Z.to_int z).

(** The first integer that [float] rejects with [OverflowError]: the
    one halfway between the largest float, 2^1024 - 2^971, and 2^1024,
    which rounds to the latter. *)
Definition float_int_limit : Z := 2 ^ 1024 - 2 ^ 970.

Definition int_overflows (z : Z) : bool := (float_int_limit <=? Z.abs z)%Z.

(** [float(v)] raises [OverflowError]. *)
Definition float_overflows (v : value) : bool :=
  match v with VInt z => int_overflows z | _ => false end.

Section WithRuntime.
Context {rt : PyRuntime}.

(** [str(v)] *)
Definition str (v : value) : string :=
  match v with
  | VNone => "None"
  | VBool true => "True"
  | VBool false => "False"
  | VInt z => str_of_Z z
  | VFloat q => repr_float q
  | VStr s => s
  | VList l => repr_list l
  end.

(** [s.strip()] and [s.isdigit()] *)
Definition strip (s : string) : string :=
  if is_ascii s then strip_ascii s else strip_beyond_ascii s.
Definition isdigit (s : string) : bool :=
  if is_ascii s then isdigit_ascii s else isdigit_beyond_ascii s.

(** [float(v)]; [None] is [TypeError], [ValueError] or, on an integer
    beyond the range of a float, [OverflowError] ([float_overflows]
    tells the last one apart).  A text that [float] reads as an
    infinity or as "not a number" ([inf], [nan], a number of some
    hundred digits) is outside the model, as every float that is not
    finite. *)
Definition float (v : value) : option Q :=
  match v with
  | VNone => None
  | VBool b => Some (if b then 1 else 0)
  | VInt z => if int_overflows z then None else Some (inject_Z z)
  | VFloat q => Some q
  | VStr s => float_of_string s
  | VList _ => None
  end.

End WithRuntime.

(** [bool(v)] *)
Definition truthy (v : value) : bool :=
  match v with
  | VNone => false
  | VBool b => b
  | VInt z => negb (z =? 0)%Z
  | VFloat q => negb (Qeq_bool q 0)
  | VStr s => negb (String.eqb s "")
  | VList l => match l with [] => false | _ => true end
  end.

(** [a or b] *)
Definition or_ (a b : value) : value := if truthy a then a else b.

(** [v is True] *)
Definition is_True (v : value) : bool :=
  match v with VBool true => true | _ => false end.

Definition is_None (v : value) : bool :=
  match v with VNone => true | _ => false end.

(** The number a value denotes in a comparison: [bool] is a subtype of
    [int]. *)
Definition num_of (v : value) : option Q :=
  match v with
  | VBool b => Some (if b then 1 else 0)
  | VInt z => Some (inject_Z z)
  | VFloat q => Some q
  | _ => None
  end.

Fixpoint list_eqb (l1 l2 : list string) : bool :=
  match l1, l2 with
  | [], [] => true
  | x :: xs, y :: ys => String.eqb x y && list_eqb xs ys
  | _, _ => false
  end.

Fixpoint list_ltb (l1 l2 : list string) : bool :=
  match l1, l2 with
  | [], [] => false
  | [], _ :: _ => true
  | _ :: _, [] => false
  | x :: xs, y :: ys => if String.eqb x y then list_ltb xs ys else String.ltb x y
  end.

(** [a == b] *)
Definition eqb (a b : value) : bool :=
  match num_of a, num_of b with
  | Some x, Some y => Qeq_bool x y
  | None, None =>
      match a, b with
      | VNone, VNone => true
      | VStr s, VStr t => String.eqb s t
      | VList l, VList m => list_eqb l m
      | _, _ => false
      end
  | _, _ => false
  end.

(** [a < b]; [None] is the [TypeError] of two types without an order. *)
Definition ltb (a b : value) : option bool :=
  match num_of a, num_of b with
  | Some x, Some y => Some (Qltb x y)
  | None, None =>
      match a, b with
      | VStr s, VStr t => Some (String.ltb s t)
      | VList l, VList m => Some (list_ltb l m)
      | _, _ => None
      end
  | _, _ => None
  end.

(** [v in (a, b, ...)]: membership by [==]. *)
Definition in_ (v : value) (l : list value) : bool := existsb (eqb v) l.

(** ** Tuples: lexicographic comparison *)

Fixpoint tuple_eqb (s t : list value) : bool :=
  match s, t with
  | [], [] => true
  | x :: xs, y :: ys => eqb x y && tuple_eqb xs ys
  | _, _ => false
  end.

(** [s < t]: the first position where the two differ decides. *)
Fixpoint tuple_ltb (s t : list value) : option bool :=
  match s, t with
  | [], [] => Some false
  | [], _ :: _ => Some true
  | _ :: _, [] => Some false
  | x :: xs, y :: ys => if eqb x y then tuple_ltb xs ys else ltb x y
  end.

(** ** [sorted]: a stable sort that only asks [<] *)

Section Sorted.
Variable A : Type.
Variable lt : A -> A -> option bool.

Fixpoint insert (x : A) (l : list A) : option (list A) :=
  match l with
  | [] => Some [x]
  | y :: ys =>
      match lt y x with
      | None => None
      | Some true =>
          match insert x ys with
          | Some r => Some (y :: r)
          | None => None
          end
      | Some false => Some (x :: l)
      end
  end.

(** The result is the one every stable comparison sort returns when no
    comparison raises; when one does, the first of this insertion order
    is reported. *)
Fixpoint sorted (l : list A) : option (list A) :=
  match l with
  | [] => Some []
  | x :: xs =>
      match sorted xs with
      | Some r => insert x r
      | None => None
      end
  end.

End Sorted.

(** ** Records: [Dict[str, Any]] *)

Definition record : Type := list (string * value).

Fixpoint lookup (k : string) (r : record) : option value :=
  match r with
  | [] => None
  | (k', v) :: t => if String.eqb k k' then Some v else lookup k t
  end.

(** [r.get(k, d)] and [r.get(k)] *)
Definition get_default (r : record) (k : string) (d : value) : value :=
  match lookup k r with Some v => v | None => d end.
Definition get (r : record) (k : string) : value := get_default r k VNone.

(** [r[k] = v]: the key keeps its position, a new key goes last. *)
Fixpoint set (k : string) (v : value) (r : record) : record :=
  match r with
  | [] => [(k, v)]
  | (k', v') :: t =>
      if String.eqb k k' then (k, v) :: t else (k', v') :: set k v t
  end.

(** A dictionary whose keys are strings, asked for an arbitrary value:
    [v in d] is [TypeError] on an unhashable [v]. *)
Definition hashable (v : value) : bool :=
  match v with VList _ => false | _ => true end.

Fixpoint assoc {B : Type} (k : string) (d : list (string * B)) : option B :=
  match d with
  | [] => None
  | (k', b) :: t => if String.eqb k k' then Some b else assoc k t
  end.

Definition find_value {B : Type} (v : value) (d : list (string * B))
  : option B :=
  match v with
  | VStr s => assoc s d
  | _ => None
  end.

End Py.

(* ================================================================== *)
(** * q1_calculator.py: external signals and Q1 exploitability *)

Module q1_calculator.

(** ** CVE normalisation: [_CVE_RE = (CVE-\d{4}-\d{4,7})], ignoring case

    The digits are those of ASCII: on a text that writes a digit in
    another script the pattern of the source matches where this one
    does not. *)

Fixpoint leading_digits (n : nat) (s : string) : string :=
  match n, s with
  | S n', String c t =>
      if Py.is_digit c then String c (leading_digits n' t) else ""
  | _, _ => ""
  end.

Definition drop (n : nat) (s : string) : string :=
  substring n (String.length s - n) s.

(** The match of [_CVE_RE] that starts at the head of [s], if any. *)
Definition match_cve_here (s : string) : option string :=
  if String.eqb (Py.lower (substring 0 4 s)) "cve-" then
    let year := leading_digits 4 (drop 4 s) in
    if ((String.length year =? 4)%nat
        && String.eqb (substring 8 1 s) "-")%bool then
      let num := leading_digits 7 (drop 9 s) in
      if (4 <=? String.length num)%nat
      then Some (substring 0 9 s ++ num)
      else None
    else None
  else None.

(** [_CVE_RE.search(s)]: the leftmost match. *)
Fixpoint search_cve (s : string) : option string :=
  match match_cve_here s with
  | Some m => Some m
  | None =>
      match s with
      | EmptyString => None
      | String _ t => search_cve t
      end
  end.

Section WithRuntime.
Context {rt : Py.PyRuntime}.

Definition extract_cve_id (value : Py.value) : string :=
  match value with
  | Py.VNone => ""
  | _ =>
      let s := match value with
               | Py.VList l => Py.join "," l
               | _ => Py.str value
               end in
      match search_cve s with
      | Some m => Py.upper m
      | None => ""
      end
  end.

(** ** [ExternalDataFetcher] *)

(** An entry of [kev_data], as [fetch_kev_catalog] builds it. *)
Record kev_entry : Type := {
  date_added : Py.value;
  known_ransomware : bool
}.

(** An entry of [epss_data], as [fetch_epss_scores] builds it. *)
Record epss_entry : Type := {
  epss : Q;
  percentile : Q
}.

(** What [_nvd_references] extracts from the NVD answer for a CVE. *)
Record nvd_refs : Type := {
  has_exploit_ref : bool;
  has_exploitdb : bool;
  has_metasploit : bool;
  has_packetstorm : bool;
  has_github : bool;
  has_nuclei : bool
}.

(** The fetcher after the prefetch of a batch: the two tables, and the NVD
    answers that [check_poc_availability] reads (the network and the file
    cache behind [_nvd_references] are not modelled).  [poc_cache] only
    memoises [check_poc_availability], whose result depends on nothing
    that changes during scoring, so it is not a field. *)
Record ExternalDataFetcher : Type := {
  kev_data : list (string * kev_entry);
  epss_data : list (string * epss_entry);
  _nvd_references : string -> nvd_refs
}.

(** The fields of the dictionary of [check_poc_availability] that the
    calculators read. *)
Record poc_info : Type := {
  has_poc : bool;
  poc_maturity : Q;
  weaponized : bool
}.

Definition poc_default : poc_info :=
  {| has_poc := false; poc_maturity := 0; weaponized := false |}.

Definition check_poc_availability (self : ExternalDataFetcher)
  (cve_id : Py.value) : poc_info :=
  let cve := extract_cve_id cve_id in
  if String.eqb cve "" then poc_default
  else
    let nvd := _nvd_references self cve in
    let out := poc_default in
    let out :=
      if has_exploit_ref nvd
      then {| has_poc := true;
              poc_maturity := Py.max (poc_maturity out) 70;
              weaponized := weaponized out |}
      else out in
    let out :=
      if has_exploitdb nvd
      then {| has_poc := true;
              poc_maturity := Py.max (poc_maturity out) 90;
              weaponized := true |}
      else out in
    let out :=
      if has_metasploit nvd
      then {| has_poc := true;
              poc_maturity := Py.max (poc_maturity out) 100;
              weaponized := true |}
      else out in
    let out :=
      if has_nuclei nvd
      then {| has_poc := true;
              poc_maturity := Py.max (poc_maturity out) 55;
              weaponized := weaponized out |}
      else out in
    (* out['last_seen'] stays None: the recency adjustment never runs *)
    match Py.assoc cve (kev_data self) with
    | Some k =>
        if known_ransomware k
        then {| has_poc := has_poc out;
                poc_maturity := Py.min 100 (Py.max (poc_maturity out) 95);
                weaponized := weaponized out |}
        else out
    | None => out
    end.

(** ** Q1 *)

Definition dev_markers : list string :=
  ["test/"; "tests/"; "spec/"; "mock/"; "dev-dependencies";
   "devdependencies"; "example/"; "sample/"; "-test"].

Definition runtime_markers : list string :=
  ["boot-inf/lib"; "web-inf/lib"; "/lib/"; ".jar"; ".war"; "node_modules";
   "vendor/"; "site-packages"; "requirements.txt"].

Definition platform_markers : list string :=
  ["spring"; "tomcat"; "nginx"; "apache"; "postgres"; "mysql"; "redis";
   "elastic"; "solr"].

Definition env_fit (vuln_data : Py.record) : Q :=
  let file_path :=
    Py.lower (Py.str (Py.get_default vuln_data "file_path" (Py.VStr ""))) in
  let is_dev := Py.any_in dev_markers file_path in
  let is_runtime := negb is_dev && Py.any_in runtime_markers file_path in
  let env_fit := if is_runtime then 80 else 30 in
  let domain_text :=
    Py.lower
      (Py.join " "
         [Py.str (Py.get_default vuln_data "component_name" (Py.VStr ""));
          Py.str (Py.get_default vuln_data "service" (Py.VStr ""))]) in
  let domain_bonus := if Py.any_in platform_markers domain_text then 10 else 0 in
  Py.min 100 (env_fit + domain_bonus).

(** [re.findall(r'\d+', s)]: the maximal runs of digits, left to right;
    the digits are those of ASCII. *)
Fixpoint findall_digits (cur : string) (s : string) : list string :=
  match s with
  | EmptyString => if String.eqb cur "" then [] else [cur]
  | String c t =>
      if Py.is_digit c then findall_digits (cur ++ String c "") t
      else if String.eqb cur "" then findall_digits "" t
      else cur :: findall_digits "" t
  end.

Definition _class_weight (ids : list string) : Q :=
  let critical := ["78"; "77"; "94"; "502"; "74"; "89"; "564"; "918"; "287";
                   "306"; "862"; "863"; "22"; "23"; "35"; "611"; "827"] in
  let medium := ["79"; "80"; "352"] in
  let low := ["200"; "209"; "532"; "400"; "770"] in
  if existsb (fun i => Py.str_in i critical) ids then 90
  else if existsb (fun i => Py.str_in i medium) ids then 60
  else if existsb (fun i => Py.str_in i low) ids then 40
  else 50.

Definition class_weight (vuln_data : Py.record) : Q :=
  let cwe := Py.str (Py.get_default vuln_data "cwe" (Py.VStr "")) in
  _class_weight (findall_digits "" cwe).

(** The normalised CVE of a record, as Q1 computes it. *)
Definition cve_of (vuln_data : Py.record) : string :=
  extract_cve_id (Py.get vuln_data "vulnerability_ids").

(** [external_fetcher.epss_data.get(cve, {})] read at ['epss'] and at
    ['percentile'], default 0. *)
Definition epss_score_of (f : ExternalDataFetcher) (cve : string) : Q :=
  match Py.assoc cve (epss_data f) with Some e => epss e | None => 0 end.
Definition epss_percentile_of (f : ExternalDataFetcher) (cve : string) : Q :=
  match Py.assoc cve (epss_data f) with Some e => percentile e | None => 0 end.

Definition calculate_q1_exploitability (vuln_data : Py.record)
  (external_fetcher : ExternalDataFetcher) : Q :=
  let cve := cve_of vuln_data in
  let poc := check_poc_availability external_fetcher (Py.VStr cve) in
  let poc_maturity := poc_maturity poc in
  let q1 := 0.5 * poc_maturity + 0.3 * env_fit vuln_data
            + 0.2 * class_weight vuln_data in
  let epss_score := epss_score_of external_fetcher cve in
  let epss_percentile := epss_percentile_of external_fetcher cve in
  let q1 :=
    if Py.Qltb 0 epss_score
    then q1 + (20.0 * epss_score + 0.1 * epss_percentile)
    else q1 in
  Py.min 100 q1.

End WithRuntime.
End q1_calculator.

(* ================================================================== *)
(** * q2_calculator.py: the classifier and Q2 exposure *)

Module q2_calculator.
Section WithRuntime.
Context {rt : Py.PyRuntime}.

(** ** [VulnerabilityClassifier]

    [q3_calculator.py] and [q4_calculator.py] repeat this class with the
    same [DOMAIN_PATTERNS] and the same [classify_domain]; the calculator
    of [calculators.py] passes the one of this module to Q2, Q3 and Q4.
    Every pattern is a literal text, so [re.search] is containment. *)

Definition DOMAIN_PATTERNS : list (string * list string) :=
  [("web_api", ["spring"; "struts"; "tomcat"; "jetty"; "express"; "fastapi";
                "django"; "flask"; "rails"; "asp.net"; "nginx"; "apache"]);
   ("backend", ["java"; "python"; "node"; "dotnet"; "golang"; "rust";
                "spring-security"; "auth"; "jwt"; "oauth"]);
   ("database", ["mysql"; "postgres"; "oracle"; "mongodb"; "redis";
                 "elastic"; "jdbc"; "odbc"; "hibernate"; "sqlalchemy"]);
   ("search_index", ["solr"; "elastic"; "lucene"; "sphinx"; "algolia"]);
   ("messaging", ["kafka"; "rabbitmq"; "activemq"; "redis"; "zeromq";
                  "nats"]);
   ("infrastructure", ["docker"; "kubernetes"; "terraform"; "ansible";
                       "aws"; "azure"]);
   ("frontend", ["react"; "vue"; "angular"; "jquery"; "bootstrap";
                 "webpack"; "babel"; "postcss"; "sass"; "less"]);
   ("build_tools", ["maven"; "gradle"; "npm"; "yarn"; "webpack"; "rollup";
                    "vite"]);
   ("big_data", ["hadoop"; "spark"; "hive"; "presto"; "flink"; "storm"])].

(** [str(vuln_data.get(k, ''))] *)
Definition text (vuln_data : Py.record) (k : string) : string :=
  Py.str (Py.get_default vuln_data k (Py.VStr "")).

Fixpoint first_domain (component file_path service : string)
  (table : list (string * list string)) : option string :=
  match table with
  | [] => None
  | (domain, patterns) :: rest =>
      if existsb (fun pattern =>
                    Py.contains pattern component
                    || Py.contains pattern file_path
                    || Py.contains pattern service) patterns
      then Some domain
      else first_domain component file_path service rest
  end.

Definition classify_domain (vuln_data : Py.record) : string :=
  let component := Py.lower (text vuln_data "component_name") in
  let file_path := Py.lower (text vuln_data "file_path") in
  let service := Py.lower (text vuln_data "service") in
  let test := Py.lower (text vuln_data "test") in
  match first_domain component file_path service DOMAIN_PATTERNS with
  | Some domain => domain
  | None =>
      if Py.contains "dependency" test then
        if Py.contains "frontend" (Py.lower test) then "frontend"
        else "backend"
      else if Py.contains "sast" test then "backend"
      else if Py.contains "infrastructure" test || Py.contains "prowler" test
      then "infrastructure"
      else "general"
  end.

Definition is_runtime_dependency (vuln_data : Py.record) : bool :=
  let file_path := Py.lower (text vuln_data "file_path") in
  let runtime_indicators :=
    ["boot-inf/lib"; "web-inf/lib"; "/lib/"; ".jar"; ".war"; "node_modules";
     "vendor/"; "site-packages"; "requirements.txt"] in
  let dev_indicators :=
    ["test/"; "tests/"; "spec/"; "mock/"; "dev-dependencies";
     "devdependencies"; "test-"; "-test"; "example/"; "sample/"] in
  if Py.any_in dev_indicators file_path then false
  else if Py.any_in runtime_indicators file_path then true
  else true.

(** ** Q2 *)

Definition safe_bool (val : Py.value) : bool :=
  Py.is_True val || String.eqb (Py.lower (Py.str val)) "true".

(** [str(v).lower() not in ['nan', 'none', '']] *)
Definition not_blank (v : Py.value) : bool :=
  negb (Py.str_in (Py.lower (Py.str v)) ["nan"; "none"; ""]).

(** [url[:50]] inside the log message: a slice, which only a text and a
    list have. *)
Definition sliceable (v : Py.value) : bool :=
  match v with Py.VStr _ | Py.VList _ => true | _ => false end.

Definition endpoint_count (endpoints_str : string) : nat :=
  if Py.contains "," endpoints_str then Py.split_len "," endpoints_str
  else if Py.contains ";" endpoints_str then Py.split_len ";" endpoints_str
  else if Py.contains (String "010" "") endpoints_str
       then Py.split_len "010" endpoints_str
  else if (0 <? String.length endpoints_str)%nat then 1%nat else 0%nat.

Definition critical_domains : list (string * Q) :=
  [("web_api", 1.3); ("database", 1.2); ("infrastructure", 1.2);
   ("search_index", 1.15); ("messaging", 1.1); ("backend", 1.05);
   ("frontend", 0.9); ("build_tools", 0.7)].

Definition Qnat (n : nat) : Q := inject_Z (Z.of_nat n).

(** [None] is the [TypeError] of [url[:50]] on a number or a boolean. *)
Definition calculate_q2_exposure (vuln_data : Py.record) : option Q :=
  let exposure_score := 20 in
  let reachability_score := 30 in
  let is_dynamic := safe_bool (Py.get vuln_data "dynamic_finding") in
  let is_static := safe_bool (Py.get vuln_data "static_finding") in
  let exposure_score :=
    if is_dynamic then 75 else if is_static then 35 else exposure_score in
  let is_verified := safe_bool (Py.get vuln_data "verified") in
  let exposure_score :=
    if is_verified then
      if is_dynamic then Py.min 100 (exposure_score * 1.2)
      else Py.min 100 (exposure_score * 1.15)
    else exposure_score in
  let url := Py.get vuln_data "url" in
  let in_url_block := Py.truthy url && not_blank url in
  if in_url_block && negb (sliceable url) then None else
  let exposure_score :=
    if in_url_block then
      let exposure_score := Py.max exposure_score 85 in
      let url_lower := Py.lower (Py.str url) in
      let exposure_score :=
        if Py.any_in ["https://"; "http://"; "ws://"; "wss://"] url_lower
        then Py.max exposure_score 90 else exposure_score in
      if Py.any_in [".com"; ".org"; ".net"; ".io"; "public"; "external"]
           url_lower
      then 95
      else if Py.any_in ["localhost"; "127.0.0.1"; "internal"; "private"]
                url_lower
      then Py.min exposure_score 60
      else exposure_score
    else exposure_score in
  let endpoints := Py.get vuln_data "endpoints" in
  let exposure_score :=
    if Py.truthy endpoints && not_blank endpoints then
      let endpoints_str := Py.str endpoints in
      let endpoint_count := endpoint_count endpoints_str in
      if (0 <? endpoint_count)%nat then
        let exposure_score :=
          Py.max exposure_score (50 + Py.min 40 (Qnat endpoint_count * 5)) in
        let exposure_score :=
          if Py.any_in ["/api/"; "/rest/"; "/graphql"; "/ws"]
               (Py.lower endpoints_str)
          then Py.max exposure_score 70 else exposure_score in
        if Py.any_in ["/admin"; "/manage"; "/config"] (Py.lower endpoints_str)
        then Py.max exposure_score 60 else exposure_score
      else exposure_score
    else exposure_score in
  let context :=
    Py.lower (Py.join " " [text vuln_data "product"; text vuln_data "service";
                           text vuln_data "url"; text vuln_data "title";
                           text vuln_data "engagement"]) in
  let prod_indicators := ["prod"; "production"; "prd"; "live"; "release"] in
  let dev_indicators :=
    ["dev"; "development"; "test"; "testing"; "stage"; "staging"; "stg";
     "homolog"; "hml"; "qa"; "uat"; "sandbox"; "demo"] in
  let is_prod := Py.any_in prod_indicators context in
  let is_dev := Py.any_in dev_indicators context in
  let '(exposure_score, reachability_score) :=
    if is_prod && negb is_dev then
      (Py.min 100 (exposure_score * 1.3),
       Py.min 100 (reachability_score * 1.3))
    else if is_dev && negb is_prod then
      (Py.max 10 (exposure_score * 0.7),
       Py.max 10 (reachability_score * 0.7))
    else (exposure_score, reachability_score) in
  let reachability_score :=
    if is_runtime_dependency vuln_data
    then Py.max reachability_score 70
    else Py.min reachability_score 40 in
  let domain := classify_domain vuln_data in
  let domain_multiplier :=
    match Py.assoc domain critical_domains with
    | Some m => m
    | None => 1.0
    end in
  let reachability_score :=
    Py.min 100 (reachability_score * domain_multiplier) in
  let service := Py.lower (text vuln_data "service") in
  let exposure_score :=
    if negb (String.eqb service "") && negb (String.eqb service "nan") then
      let public_services :=
        ["auth"; "login"; "gateway"; "api"; "edge"; "public"; "portal";
         "www"; "web"; "frontend"; "customer"] in
      if Py.any_in public_services service
      then Py.max exposure_score 60 else exposure_score
    else exposure_score in
  let q2_score := 0.6 * exposure_score + 0.4 * reachability_score in
  Some (Py.min 100 (Py.max 0 q2_score)).

End WithRuntime.
End q2_calculator.

(* ================================================================== *)
(** * q3_calculator.py: Q3 impact *)

Module q3_calculator.
Section WithRuntime.
Context {rt : Py.PyRuntime}.

Definition safe_float (val : Py.value) (default : Q) : Q :=
  if Py.is_None val || Py.str_in (Py.lower (Py.str val)) ["nan"; "none"; ""]
  then default
  else match Py.float val with
       | Some x => x
       | None => default
       end.

Definition severity_map : list (string * Q) :=
  [("critical", 90); ("s4", 90); ("high", 70); ("s3", 70); ("medium", 50);
   ("s2", 50); ("low", 30); ("s1", 30); ("informational", 10); ("info", 10);
   ("s0", 10)].

(** Step 1: the base impact from CVSS v3, else from the severity text. *)
Definition base_impact (vuln_data : Py.record) : Q :=
  let cvss_score := safe_float (Py.get vuln_data "cvssv3_score") 0 in
  if Py.Qltb 0 cvss_score then cvss_score * 10
  else
    let severity := Py.lower (q2_calculator.text vuln_data "severity") in
    let severity :=
      if String.eqb severity ""
      then Py.lower (q2_calculator.text vuln_data "numerical_severity")
      else severity in
    match Py.assoc severity severity_map with
    | Some b => b
    | None => 50
    end.

(** Step 2: the factor applied for [nb_occurences] occurrences. *)
Definition occurrence_multiplier (nb_occurences : Q) : Q :=
  if Py.Qltb 1 nb_occurences then
    if Qle_bool 500 nb_occurences then 2.5
    else if Qle_bool 100 nb_occurences then 2.0
    else if Qle_bool 50 nb_occurences then 1.6
    else if Qle_bool 20 nb_occurences then 1.4
    else if Qle_bool 10 nb_occurences then 1.3
    else if Qle_bool 5 nb_occurences then 1.2
    else 1.0 + Py.math_log10 nb_occurences * 0.2
  else 1.

(** Step 3: the factor of the asset criticality; 1 when the field is
    absent or does not parse. *)
Definition criticality_multiplier (vuln_data : Py.record) : Q :=
  let criticality := Py.get vuln_data "criticality" in
  if Py.truthy criticality && negb (String.eqb (Py.str criticality) "NaN")
  then
    let crit_str := Py.strip (Py.str criticality) in
    let crit_str :=
      if prefix "0" crit_str then q1_calculator.drop 1 crit_str
      else crit_str in
    match Py.int_of_string crit_str with
    | Some crit_value =>
        if (9 <=? crit_value)%Z then 1.4
        else if (8 <=? crit_value)%Z then 1.3
        else if (7 <=? crit_value)%Z then 1.2
        else if (6 <=? crit_value)%Z then 1.1
        else if (crit_value <=? 3)%Z then 0.8
        else 1
    | None => 1
    end
  else 1.

Definition domain_multipliers : list (string * Q) :=
  [("database", 1.4); ("infrastructure", 1.3); ("search_index", 1.2);
   ("backend", 1.15); ("web_api", 1.1); ("messaging", 1.05);
   ("frontend", 0.9); ("build_tools", 0.7)].

(** Step 4: the factor of the component's domain. *)
Definition domain_multiplier (vuln_data : Py.record) : Q :=
  match Py.assoc (q2_calculator.classify_domain vuln_data) domain_multipliers
  with
  | Some m => m
  | None => 1.0
  end.

Definition high_sensitivity_keywords : list string :=
  ["auth"; "authentication"; "authorization"; "crypto"; "cryptograph";
   "encrypt"; "password"; "passwd"; "credential"; "token"; "jwt"; "oauth";
   "saml"; "session"; "cookie"; "payment"; "credit"; "card"; "billing";
   "personal"; "pii"; "gdpr"; "sensitive"].

(** Step 5: the factor of the sensitive keywords. *)
Definition sensitivity_multiplier (vuln_data : Py.record) : Q :=
  let component := Py.lower (q2_calculator.text vuln_data "component_name") in
  let title := Py.lower (q2_calculator.text vuln_data "title") in
  let description := Py.lower (q2_calculator.text vuln_data "description") in
  let search_text := component ++ " " ++ title ++ " " ++ description in
  let sensitivity_count :=
    List.length
      (filter (fun keyword => Py.contains keyword search_text)
         high_sensitivity_keywords) in
  if (3 <=? sensitivity_count)%nat then 1.3
  else if (1 <=? sensitivity_count)%nat then 1.15
  else 1.

(** [d.get(k) is True or str(d.get(k, '')).lower() == 'true'] *)
Definition flag (vuln_data : Py.record) (k : string) : bool :=
  Py.is_True (Py.get vuln_data k)
  || String.eqb (Py.lower (q2_calculator.text vuln_data k)) "true".

(** Step 7: the factor of a verified finding. *)
Definition verified_multiplier (vuln_data : Py.record) : Q :=
  if flag vuln_data "verified" then 1.05 else 1.

Definition calculate_q3_impact (vuln_data : Py.record) : Q :=
  let base_impact := base_impact vuln_data in
  let nb_occurences := safe_float (Py.get vuln_data "nb_occurences") 1 in
  let base_impact := base_impact * occurrence_multiplier nb_occurences in
  let base_impact := base_impact * criticality_multiplier vuln_data in
  let base_impact := base_impact * domain_multiplier vuln_data in
  let base_impact := base_impact * sensitivity_multiplier vuln_data in
  let base_impact := base_impact * verified_multiplier vuln_data in
  Py.min 100 (Py.max 0 base_impact).

End WithRuntime.
End q3_calculator.

(* ================================================================== *)
(** * q4_calculator.py: Q4 fixability *)

Module q4_calculator.
Section WithRuntime.
Context {rt : Py.PyRuntime}.

(** [None]: the [OverflowError] of [float(effort)] on an integer beyond
    the range of a float, which [except (ValueError, TypeError)] does not
    catch. *)
Definition calculate_q4_fixability (vuln_data : Py.record) : option Q :=
  let mitigation := q2_calculator.text vuln_data "mitigation" in
  let fix_friction :=
    if Py.contains "upgrade to version" (Py.lower mitigation)
       || Py.contains "update" (Py.lower mitigation)
    then 0 else 30 in
  let effort := Py.get_default vuln_data "effort_for_fixing" (Py.VStr "") in
  if Py.truthy effort && negb (String.eqb (Py.str effort) "NaN")
     && Py.float_overflows effort
  then None
  else
  let fix_friction :=
    if Py.truthy effort && negb (String.eqb (Py.str effort) "NaN") then
      match Py.float effort with
      | Some effort_val => fix_friction + effort_val * 10
      | None =>
          let effort_str := Py.upper (Py.str effort) in
          if Py.contains "HIGH" effort_str || Py.contains "COMPLEX" effort_str
          then fix_friction + 40
          else if Py.contains "MEDIUM" effort_str
                  || Py.contains "MODERATE" effort_str
          then fix_friction + 20
          else if Py.contains "LOW" effort_str
                  || Py.contains "SIMPLE" effort_str
          then fix_friction + 10
          else fix_friction
      end
    else fix_friction in
  let has_jira := Py.get_default vuln_data "has_jira_issue" (Py.VBool false) in
  let fix_friction :=
    if Py.truthy has_jira && negb (String.eqb (Py.str has_jira) "NaN") then
      if Py.eqb has_jira (Py.VBool true)
         || String.eqb (Py.lower (Py.str has_jira)) "true"
      then fix_friction - 20
      else fix_friction
    else fix_friction in
  let domain := q2_calculator.classify_domain vuln_data in
  let fix_friction :=
    if Py.str_in domain ["database"; "infrastructure"]
    then fix_friction + 20 else fix_friction in
  Some (Py.max 0 (Py.min 100 (100 - fix_friction))).

End WithRuntime.
End q4_calculator.

(* ================================================================== *)
(** * q5_calculator.py: Q5 urgency *)

Module q5_calculator.
Import q1_calculator.

Inductive tier : Type := none | low | med | high | critical.

Definition tier_in_none_low (t : tier) : bool :=
  match t with none | low => true | _ => false end.

Section WithRuntime.
Context {rt : Py.PyRuntime}.

Definition _safe_bool (val : Py.value) : bool :=
  if Py.is_True val || String.eqb (Py.lower (Py.str val)) "true"
  then true else false.

Definition _safe_float (val : Py.value) (default : option Q) : option Q :=
  if Py.is_None val || Py.str_in (Py.lower (Py.str val)) ["nan"; "none"; ""]
  then default
  else match Py.float val with
       | Some x => Some x
       | None => default
       end.

(** [x or 0.0] on an optional float *)
Definition or_zero (x : option Q) : Q :=
  match x with Some q => q | None => 0 end.

(** [_parse_date(s)], then the age of the parsed date in days. *)
Definition _parse_date_age (s : Py.value) : option Q :=
  if negb (Py.truthy s) || Py.str_in (Py.lower (Py.str s)) ["nan"; "none"; ""]
  then None
  else Py.days_since (Py.str s).

Definition _exposure_factor (vuln : Py.record) : Q :=
  match _safe_float (Py.get vuln "q2_exposure") None with
  | Some q2 =>
      if Qle_bool 60 q2 then 1.00
      else if Qle_bool 40 q2 then 0.90
      else if Qle_bool 20 q2 then 0.85
      else 0.70
  | None =>
      let url := Py.lower (q2_calculator.text vuln "url") in
      let dynamic := _safe_bool (Py.get vuln "dynamic_finding") in
      let runtime := _safe_bool (Py.get vuln "is_runtime") in
      let ctx :=
        Py.lower (Py.join " " [q2_calculator.text vuln "environment";
                               q2_calculator.text vuln "service"; url]) in
      let is_prod := Py.any_in ["prod"; "production"; "prd"; "live"] ctx in
      let publicish :=
        Py.any_in ["http://"; "https://"; ".com"; ".org"; ".net"; ".io";
                   "public"; "external"] url in
      let score :=
        ((if publicish then 40 else 0) + (if dynamic then 30 else 0)
         + (if runtime then 20 else 0) + (if is_prod then 20 else 0))%Z in
      if (70 <=? score)%Z then 1.00
      else if (40 <=? score)%Z then 0.90
      else if (20 <=? score)%Z then 0.85
      else 0.70
  end.

(** The dictionary that [_threat_block] returns. *)
Record threat_block : Type := {
  score : Q;
  tb_tier : tier;
  tb_has_poc : bool;
  tb_has_kev : bool;
  tb_epss_score : Q;
  tb_epss_percentile : Q
}.

Definition _threat_block (vuln : Py.record)
  (external_fetcher : ExternalDataFetcher) : threat_block :=
  let cve := Py.strip (q2_calculator.text vuln "vulnerability_ids") in
  let has_cve := negb (String.eqb cve "") in
  let '(epss_score, epss_percentile) :=
    match (if has_cve then Py.assoc cve (epss_data external_fetcher)
           else None) with
    | Some e =>
        (or_zero (_safe_float (Py.VFloat (epss e)) (Some 0.0)),
         or_zero (_safe_float (Py.VFloat (percentile e)) (Some 0.0)))
    | None =>
        (or_zero (_safe_float (Py.get vuln "epss_score") (Some 0.0)),
         or_zero (_safe_float (Py.get vuln "epss_percentile") (Some 0.0)))
    end in
  let has_poc :=
    if has_cve
    then has_poc (check_poc_availability external_fetcher (Py.VStr cve))
    else _safe_bool (Py.get vuln "has_poc") in
  let k := if has_cve then Py.assoc cve (kev_data external_fetcher)
           else None in
  let kev := match k with Some _ => true | None => false end in
  let known_ransom :=
    match k with Some k => known_ransomware k | None => false end in
  let kev_recent :=
    match k with
    | Some k =>
        match _parse_date_age (date_added k) with
        | Some age => Qle_bool age 60
        | None => false
        end
    | None => false
    end in
  let threat := 100.0 * (0.65 * epss_score + 0.35 * (epss_percentile / 100.0)) in
  let threat := if has_poc then threat + 8.0 else threat in
  let threat :=
    if kev then
      let threat := Py.max threat 90.0 in
      if kev_recent then threat + 5.0 else threat
    else threat in
  let threat := if known_ransom then 100.0 else threat in
  let threat := Py.max 0.0 (Py.min 100.0 threat) in
  let tier :=
    if kev || known_ransom then critical
    else if Qle_bool 80 threat then high
    else if Qle_bool 50 threat || has_poc then med
    else if Qle_bool 20 threat then low
    else none in
  {| score := threat; tb_tier := tier; tb_has_poc := has_poc;
     tb_has_kev := kev; tb_epss_score := epss_score;
     tb_epss_percentile := epss_percentile |}.

Definition _age_urgency (vuln : Py.record) (tier : tier) : Q :=
  match _safe_float (Py.get vuln "sla_age") None with
  | None => 0.0
  | Some days =>
      let base :=
        if Py.Qltb (365 * 2) days then 20
        else if Py.Qltb 365 days then 18
        else if Py.Qltb 180 days then 16
        else if Py.Qltb 90 days then 12
        else if Py.Qltb 30 days then 8
        else if Py.Qltb 7 days then 4
        else 0 in
      let caps :=
        match tier with
        | none => 10 | low => 20 | med => 25 | high => 30 | critical => 35
        end%Z in
      let mult :=
        match tier with
        | none => 0.5 | low => 0.7 | med => 0.9 | high => 1.0 | critical => 1.1
        end in
      let capped := Z.min caps (Py.int_of_float (base * mult)) in
      let capped :=
        if Qle_bool 730 days && tier_in_none_low tier
        then Z.max 0 (capped - 8) else capped in
      inject_Z capped
  end.

Definition _sla_component (vuln : Py.record) : Q :=
  if _safe_bool (Py.get vuln "violates_sla") then 100.0
  else
    match _safe_float (Py.get vuln "sla_days_remaining") None with
    | None => 25.0
    | Some sla_days =>
        if Py.Qltb sla_days 0 then 100.0
        else if Qle_bool sla_days 3 then 95.0
        else if Qle_bool sla_days 7 then 90.0
        else if Qle_bool sla_days 14 then 80.0
        else if Qle_bool sla_days 30 then 70.0
        else if Qle_bool sla_days 60 then 50.0
        else if Qle_bool sla_days 90 then 30.0
        else 20.0
    end.

Definition _exploit_factor_from_q1 (q1 : option Q) (tier : tier)
  (has_poc has_kev : bool) : Q :=
  match q1 with
  | None => 1.0
  | Some q1 =>
      if (negb has_poc && negb has_kev) && tier_in_none_low tier then
        if Py.Qltb q1 25 then 0.75
        else if Py.Qltb q1 50 then 0.90
        else 1.00
      else if Qle_bool 85 q1 then 1.07
      else if Qle_bool 70 q1 then 1.04
      else if Py.Qltb q1 30 then 0.95
      else 1.00
  end.

Definition _impact_factor_from_q3 (q3 : option Q) (has_kev sla_urgent : bool)
  : Q :=
  match q3 with
  | None => 1.0
  | Some q3 =>
      if has_kev || sla_urgent then 1.0
      else if Py.Qltb q3 30 then 0.80
      else if Py.Qltb q3 50 then 0.92
      else if Py.Qltb q3 70 then 1.00
      else if Qle_bool 85 q3 then 1.06
      else 1.02
  end.

Definition _fixability_nudge_from_q4 (q4 : option Q) : Q :=
  match q4 with
  | None => 1.0
  | Some q4 =>
      if Qle_bool 80 q4 then 1.03
      else if Qle_bool q4 20 then 0.97
      else 1.00
  end.

Definition calculate_q5_urgency (vuln_data : Py.record)
  (external_fetcher : ExternalDataFetcher) : Q :=
  let sla_u := _sla_component vuln_data in
  let sla_urgent :=
    _safe_bool (Py.get vuln_data "violates_sla")
    || match _safe_float (Py.get vuln_data "sla_days_remaining") (Some 1) with
       | Some d => Py.Qltb d 0
       | None => false
       end in
  let tb := _threat_block vuln_data external_fetcher in
  let threat := score tb in
  let tier := tb_tier tb in
  let has_poc := tb_has_poc tb in
  let has_kev := tb_has_kev tb in
  let exp_factor := _exposure_factor vuln_data in
  let threat := threat * exp_factor in
  let threat := Py.min 100.0 threat in
  let age_u := _age_urgency vuln_data tier in
  let q1 := _safe_float (Py.get vuln_data "q1_exploitability") None in
  let q3 := _safe_float (Py.get vuln_data "q3_impact") None in
  let q4 := _safe_float (Py.get vuln_data "q4_fixability") None in
  let threat := threat * _exploit_factor_from_q1 q1 tier has_poc has_kev in
  let threat := threat * _impact_factor_from_q3 q3 has_kev sla_urgent in
  let threat := Py.min 100.0 (Py.max 0.0 threat) in
  let '(w_sla, w_thr, w_age) :=
    if tier_in_none_low tier then (0.65, 0.25, 0.10)
    else match tier with
         | critical => (0.45, 0.40, 0.15)
         | _ => (0.50, 0.35, 0.15)
         end in
  let q5 := w_sla * sla_u + w_thr * threat + w_age * age_u in
  let verified := _safe_bool (Py.get vuln_data "verified") in
  let dynamic := _safe_bool (Py.get vuln_data "dynamic_finding") in
  let q5 := if verified then q5 * 1.04 else q5 in
  let q5 := if dynamic then q5 * 1.03 else q5 in
  let q5 :=
    match _safe_float (Py.get vuln_data "scanner_confidence") None with
    | Some conf =>
        let conf01 := if Qle_bool conf 1 then conf else conf / 100.0 in
        if Py.Qltb conf01 0.5 && negb has_kev && tier_in_none_low tier
        then q5 * 0.85 else q5
    | None => q5
    end in
  let q5 := q5 * _fixability_nudge_from_q4 q4 in
  let q5 :=
    if _safe_bool (Py.get vuln_data "risk_accepted") then q5 * 0.30 else q5 in
  let q5 :=
    if _safe_bool (Py.get vuln_data "is_mitigated") then q5 * 0.50 else q5 in
  let q5 :=
    if _safe_bool (Py.get vuln_data "false_p") then q5 * 0.20 else q5 in
  let q5 := if sla_urgent then Py.max q5 100.0 else q5 in
  Py.min 100.0 (Py.max 0.0 q5).

End WithRuntime.
End q5_calculator.

(* ================================================================== *)
(** * models.py *)

Module models.

(** [ProcessingConfig]: the class that the module binds last.  It declares
    no funnel or MCDM attribute; those are set by assignment ([main]) or
    by [VulnerabilityPrioritizer._ensure_config_defaults], so each is
    optional here ([None]: the object has no such attribute). *)
Record ProcessingConfig : Type := {
  num_processes : Z;
  enable_progress_bars : bool;
  export_csv : bool;
  top_n_report : Z;
  weights : list (string * Q);
  funnel_enabled : option bool;
  top_k_for_funnel : option Z;
  funnel_threshold : option Z;
  funnel_equal_epsilon : option Q;
  mcdm_use_topsis : option bool;
  mcdm_weights : option (list (string * Q))
}.

(** [ProcessingConfig()] *)
Definition default_config : ProcessingConfig :=
  {| num_processes := 4;
     enable_progress_bars := true;
     export_csv := true;
     top_n_report := 20;
     weights := [("q1", 0.30); ("q2", 0.20); ("q3", 0.25); ("q4", 0.10);
                 ("q5", 0.15)];
     funnel_enabled := None;
     top_k_for_funnel := None;
     funnel_threshold := None;
     funnel_equal_epsilon := None;
     mcdm_use_topsis := None;
     mcdm_weights := None |}.

(** [sum(d.values())] *)
Fixpoint sum_values (d : list (string * Q)) : Q :=
  match d with
  | [] => 0
  | (_, x) :: t => x + sum_values t
  end.

Inductive outcome (A : Type) : Type :=
| Returns (a : A)
| Raises (exc : string).
Arguments Returns {A} a.
Arguments Raises {A} exc.

Definition validate (self : ProcessingConfig) : outcome bool :=
  let total_weight := sum_values (weights self) in
  if Py.Qltb 0.01 (Py.abs (total_weight - 1.0))
  then Raises "ValueError"
  else Returns true.

(** The attributes of [VulnerabilityMetrics] that the engine writes or
    reads. *)
Record VulnerabilityMetrics : Type := {
  q1_exploitability : Q;
  q2_exposure : Q;
  q3_impact : Q;
  q4_fixability : Q;
  q5_urgency : Q;
  rpi_score : Q;
  domain : string;
  is_runtime : bool;
  has_kev : bool;
  has_poc : bool;
  epss_score : Q;
  epss_percentile : Q
}.

(** [ProcessingConfig().thresholds]: the limits of the categories. *)
Definition default_thresholds : list (string * Q) :=
  [("critical_rpi", 80.0); ("high_rpi", 60.0); ("medium_rpi", 40.0);
   ("low_rpi", 20.0)].

(** [VulnerabilityData] *)
Module VulnerabilityData.

Record t : Type := {
  raw_data : Py.record;
  metrics : option VulnerabilityMetrics;
  tie_breaker_key : option (list Py.value);
  processed : bool;
  priority_rank : Z;
  rpi_category : string
}.

(** The property [rpi_score]. *)
Definition rpi_score (self : t) : Q :=
  match metrics self with
  | Some m => models.rpi_score m
  | None => 0.0
  end.

(** [categorize_rpi(config)]; the method reads one attribute of the
    configuration, the dictionary [thresholds], which is the argument
    here.  [None] is the [KeyError] of a limit that the dictionary
    lacks. *)
Definition categorize_rpi (self : t) (thresholds : list (string * Q))
  : option string :=
  match Py.assoc "critical_rpi" thresholds with
  | None => None
  | Some critical_rpi =>
  if Qle_bool critical_rpi (rpi_score self) then Some "critical"
  else
  match Py.assoc "high_rpi" thresholds with
  | None => None
  | Some high_rpi =>
  if Qle_bool high_rpi (rpi_score self) then Some "high"
  else
  match Py.assoc "medium_rpi" thresholds with
  | None => None
  | Some medium_rpi =>
  if Qle_bool medium_rpi (rpi_score self) then Some "medium"
  else
  match Py.assoc "low_rpi" thresholds with
  | None => None
  | Some low_rpi =>
  if Qle_bool low_rpi (rpi_score self) then Some "low"
  else Some "minimal"
  end
  end
  end
  end.

End VulnerabilityData.

End models.

(* ================================================================== *)
(** * calculators.py *)

Module calculators.
Import models.

Section WithRuntime.
Context {rt : Py.PyRuntime}.

(** ** [RiskPriorityCalculator] *)

Record RiskPriorityCalculator : Type := {
  external_fetcher : q1_calculator.ExternalDataFetcher;
  config : ProcessingConfig
}.

(** [cve_id in d] for a table keyed by text: [None] is the [TypeError] of
    an unhashable [cve_id]. *)
Definition table_find {B : Type} (cve_id : Py.value)
  (d : list (string * B)) : option (option B) :=
  if Py.hashable cve_id then Some (Py.find_value cve_id d) else None.

(** Gate of exploitability. *)
Definition g_exploit (has_kev has_poc : bool) (epss : Q) : Q :=
  if has_kev then 1.20
  else if has_poc then 1.15
  else if Qle_bool 0.50 epss then 1.10
  else if Qle_bool 0.20 epss then 1.05
  else 1.00.

(** Gate of surface. *)
Definition g_surface (q2_base : Q) : Q :=
  if Qle_bool 80 q2_base then 1.15
  else if Qle_bool 60 q2_base then 1.08
  else 0.95.

Definition _env_factor (vuln_data : Py.record) : Q :=
  let txt :=
    Py.lower (Py.join " " (map (q2_calculator.text vuln_data)
                             ["product"; "service"; "url"; "title"])) in
  let prod_like := Py.any_in ["prod"; "production"; "prd"] txt in
  let dev_like :=
    Py.any_in ["dev"; "test"; "stage"; "stg"; "homolog"; "hml"; "qa"] txt in
  if prod_like && negb dev_like then 1.10
  else if dev_like && negb prod_like then 0.85
  else 1.00.

(** Step 6: validations and confidence. *)
Definition validation_boost (vuln_data : Py.record) : Q :=
  let validation_boost := 1.0 in
  let validation_boost :=
    if q3_calculator.flag vuln_data "verified"
    then validation_boost * 1.15 else validation_boost in
  let validation_boost :=
    if q3_calculator.flag vuln_data "dynamic_finding"
    then validation_boost * 1.10 else validation_boost in
  let scanner_conf := Py.get vuln_data "scanner_confidence" in
  if negb (Py.in_ scanner_conf [Py.VNone; Py.VStr "NaN"; Py.VStr ""]) then
    match Py.float scanner_conf with
    | Some conf_value =>
        if Py.Qltb conf_value 0.5 then validation_boost * 0.7
        else validation_boost
    | None => validation_boost
    end
  else validation_boost.

(** Step 7: the occurrence tiers applied to the coupled Q3. *)
Definition occurrence_boost (vuln_data : Py.record) (q3_coupled : Q) : Q :=
  let nb_occurences := Py.get vuln_data "nb_occurences" in
  if negb (Py.in_ nb_occurences [Py.VNone; Py.VStr "NaN"; Py.VStr ""]) then
    match Py.float nb_occurences with
    | Some occ =>
        if Py.Qltb 100 occ then Py.min 100.0 (q3_coupled * 1.5)
        else if Py.Qltb 50 occ then Py.min 100.0 (q3_coupled * 1.3)
        else if Py.Qltb 10 occ then Py.min 100.0 (q3_coupled * 1.15)
        else q3_coupled
    | None => q3_coupled
    end
  else q3_coupled.

(** Steps 9 and 10: the penalties, then the SLA override. *)
Definition penalties_and_override (vuln_data : Py.record) (rpi : Q) : Q :=
  let rpi :=
    if q3_calculator.flag vuln_data "risk_accepted" then rpi * 0.05 else rpi in
  let rpi :=
    if q3_calculator.flag vuln_data "is_mitigated" then rpi * 0.10 else rpi in
  let rpi :=
    if q3_calculator.flag vuln_data "false_p" then rpi * 0.20 else rpi in
  if q3_calculator.flag vuln_data "violates_sla" then Py.max rpi 85.0
  else rpi.

(** [calculate_rpi]: the record as the method leaves it, and the metrics.
    [None]: an exception escapes (the [TypeError] of Q2 on a [url] that
    cannot be sliced, the [OverflowError] of Q4 on an effort beyond the
    range of a float, the [TypeError] of a table lookup on an unhashable
    [vulnerability_ids], or the [KeyError] of a missing weight). *)
Definition calculate_rpi (self : RiskPriorityCalculator)
  (vuln_data : Py.record) : option (Py.record * VulnerabilityMetrics) :=
  let fetcher := external_fetcher self in
  let q1 := q1_calculator.calculate_q1_exploitability vuln_data fetcher in
  match q2_calculator.calculate_q2_exposure vuln_data with
  | None => None
  | Some q2 =>
  let q3 := q3_calculator.calculate_q3_impact vuln_data in
  match q4_calculator.calculate_q4_fixability vuln_data with
  | None => None
  | Some q4 =>
  let vuln_data := Py.set "q1_exploitability" (Py.VFloat q1) vuln_data in
  let vuln_data := Py.set "q2_exposure" (Py.VFloat q2) vuln_data in
  let vuln_data := Py.set "q3_impact" (Py.VFloat q3) vuln_data in
  let vuln_data := Py.set "q4_fixability" (Py.VFloat q4) vuln_data in
  let is_runtime := q2_calculator.is_runtime_dependency vuln_data in
  let vuln_data := Py.set "is_runtime" (Py.VBool is_runtime) vuln_data in
  let q5 := q5_calculator.calculate_q5_urgency vuln_data fetcher in
  let domain := q2_calculator.classify_domain vuln_data in
  let is_runtime := q2_calculator.is_runtime_dependency vuln_data in
  let cve_id := Py.get_default vuln_data "vulnerability_ids" (Py.VStr "") in
  match table_find cve_id (q1_calculator.kev_data fetcher),
        table_find cve_id (q1_calculator.epss_data fetcher) with
  | Some kev, Some epss_entry =>
  let has_kev := match kev with Some _ => true | None => false end in
  let has_poc :=
    q1_calculator.has_poc
      (q1_calculator.check_poc_availability fetcher cve_id) in
  let epss_score :=
    match epss_entry with Some e => q1_calculator.epss e | None => 0.0 end in
  let epss_percentile :=
    match epss_entry with
    | Some e => q1_calculator.percentile e
    | None => 0.0
    end in
  let epss := epss_score in
  let g_exploit := g_exploit has_kev has_poc epss in
  let q2_base := q2 in
  let g_surface := g_surface q2_base in
  let f_env := _env_factor vuln_data in
  let q1_coupled := Py.min 100.0 (q1 * g_surface) in
  let q2_coupled := Py.min 100.0 (q2 * f_env) in
  let q3_coupled := Py.min 100.0 (q3 * g_exploit) in
  let q4_coupled := q4 in
  let q5_coupled :=
    Py.min 100.0
      (q5 * (0.7 + 0.3 * g_exploit) * (0.8 + 0.2 * g_surface) * f_env) in
  let validation_boost := validation_boost vuln_data in
  let q3_coupled := occurrence_boost vuln_data q3_coupled in
  let w := weights (config self) in
  match Py.assoc "q1" w, Py.assoc "q2" w, Py.assoc "q3" w, Py.assoc "q4" w,
        Py.assoc "q5" w with
  | Some w1, Some w2, Some w3, Some w4, Some w5 =>
      let rpi :=
        (w1 * q1_coupled + w2 * q2_coupled + w3 * q3_coupled
         + w4 * q4_coupled + w5 * q5_coupled) * validation_boost in
      let rpi := penalties_and_override vuln_data rpi in
      Some (vuln_data,
            {| q1_exploitability := q1_coupled;
               q2_exposure := q2_coupled;
               q3_impact := q3_coupled;
               q4_fixability := q4_coupled;
               q5_urgency := q5_coupled;
               rpi_score := Py.max 0.0 (Py.min 100.0 rpi);
               domain := domain;
               is_runtime := is_runtime;
               has_kev := has_kev;
               has_poc := has_poc;
               epss_score := epss_score;
               epss_percentile := epss_percentile |})
  | _, _, _, _, _ => None
  end
  | _, _ => None
  end
  end
  end.

(** ** [TieBreaker] *)

(** The texts [nan], [none] and the empty one give the default; a text
    that [float] still reads as "not a number" (the same with white
    space or a sign) is outside the model. *)
Definition safe_value (val : Py.value) (default : Py.value) (negate : bool)
  : Py.value :=
  if Py.is_None val || Py.str_in (Py.lower (Py.str val)) ["nan"; "none"; ""]
  then default
  else match Py.float val with
       | Some num_val => Py.VFloat (if negate then - num_val else num_val)
       | None => default
       end.

Definition safe_bool (val : Py.value) : Z :=
  if Py.is_True val || String.eqb (Py.lower (Py.str val)) "true"
  then 1%Z else 0%Z.

(** The identifier that closes the key:
    [vuln_data.get('unique_id_from_tool', vuln_data.get('id', ''))]. *)
Definition unique_id (vuln_data : Py.record) : Py.value :=
  Py.get_default vuln_data "unique_id_from_tool"
    (Py.get_default vuln_data "id" (Py.VStr "")).

Definition get_tie_breaker_key (vuln_data : Py.record)
  (metrics : VulnerabilityMetrics) : list Py.value :=
  let violates_sla := safe_bool (Py.get vuln_data "violates_sla") in
  let sla_days :=
    safe_value (Py.get vuln_data "sla_days_remaining") (Py.VInt 999999) false in
  let sla_deadline :=
    Py.get_default vuln_data "sla_deadline" (Py.VStr "9999-12-31") in
  let verified := safe_bool (Py.get vuln_data "verified") in
  let dynamic := safe_bool (Py.get vuln_data "dynamic_finding") in
  let false_p := safe_bool (Py.get vuln_data "false_p") in
  let is_mitigated := safe_bool (Py.get vuln_data "is_mitigated") in
  let risk_accepted := safe_bool (Py.get vuln_data "risk_accepted") in
  let confidence :=
    safe_value (Py.get vuln_data "scanner_confidence") (Py.VFloat 0.5) true in
  let has_kev := if has_kev metrics then 1%Z else 0%Z in
  let epss_percentile :=
    safe_value (Py.VFloat (epss_percentile metrics)) (Py.VInt 0) true in
  let endpoints := Py.get_default vuln_data "endpoints" (Py.VStr "") in
  let endpoints_count :=
    if Py.truthy endpoints && negb (String.eqb (Py.str endpoints) "NaN")
    then Z.of_nat (Py.split_len "," (Py.str endpoints)) else 0%Z in
  let has_url :=
    if Py.truthy (Py.get vuln_data "url")
       && negb (String.eqb (Py.str (Py.get vuln_data "url")) "NaN")
    then 1%Z else 0%Z in
  let cvss := safe_value (Py.get vuln_data "cvssv3_score") (Py.VInt 0) true in
  let occurences :=
    safe_value (Py.get vuln_data "nb_occurences") (Py.VInt 1) true in
  let is_runtime := if is_runtime metrics then 1%Z else 0%Z in
  let effort :=
    safe_value (Py.get vuln_data "effort_for_fixing") (Py.VInt 999999) false in
  let has_jira := safe_bool (Py.get vuln_data "has_jira_issue") in
  let unique_id := unique_id vuln_data in
  [Py.VInt (- violates_sla);
   sla_days;
   sla_deadline;
   Py.VInt (- verified);
   Py.VInt (- dynamic);
   Py.VInt false_p;
   Py.VInt is_mitigated;
   Py.VInt risk_accepted;
   confidence;
   Py.VInt (- has_kev);
   epss_percentile;
   occurences;
   Py.VInt (- endpoints_count);
   Py.VInt (- has_url);
   cvss;
   Py.VInt (- is_runtime);
   effort;
   Py.VInt (- has_jira);
   unique_id].

End WithRuntime.
End calculators.

(* ================================================================== *)
(** * prioritizer.py *)

Module prioritizer.
Import models.

Definition DEFAULT_MCDM_WEIGHTS : list (string * Q) :=
  [("q1", 0.22); ("q2", 0.18); ("q3", 0.26); ("q5", 0.14); ("epss", 0.08);
   ("occ", 0.06); ("conf", 0.04); ("effort", 0.02)].

(** A record of the batch once the pipeline has annotated it: the fields
    of the dictionary, and the four keys that the pipeline itself writes
    ([None]: the key is absent). *)
Record item : Type := {
  fields : Py.record;
  rpi_metrics : option VulnerabilityMetrics;
  rpi_score : option Q;
  domain : option string;
  tie_breaker_key : option (list Py.value)
}.

(** [float(v.get("rpi_score", 0.0))] *)
Definition score_of (v : item) : Q :=
  match rpi_score v with Some s => s | None => 0.0 end.

(** ** Lists as Python indexes them *)

(** [l[:k]] and [l[k:]]; a negative [k] counts from the end. *)
Definition slice_bound {A : Type} (l : list A) (k : Z) : nat :=
  if (k <? 0)%Z then Z.to_nat (Z.max 0 (Z.of_nat (List.length l) + k))
  else Z.to_nat k.
Definition slice_to {A : Type} (l : list A) (k : Z) : list A :=
  firstn (slice_bound l k) l.
Definition slice_from {A : Type} (l : list A) (k : Z) : list A :=
  skipn (slice_bound l k) l.

(** [l[i] = x] for an index in range. *)
Fixpoint update {A : Type} (i : nat) (x : A) (l : list A) : list A :=
  match l, i with
  | [], _ => []
  | _ :: t, O => x :: t
  | y :: t, S i' => y :: update i' x t
  end.

(** [max(vals)] and [min(vals)] of a list of floats. *)
Definition list_max (vals : list Q) : Q :=
  match vals with [] => 0 | x :: t => fold_left Py.max t x end.
Definition list_min (vals : list Q) : Q :=
  match vals with [] => 0 | x :: t => fold_left Py.min t x end.

Section WithRuntime.
Context {rt : Py.PyRuntime}.

Record VulnerabilityPrioritizer : Type := {
  config : ProcessingConfig;
  (** the fetcher once the KEV catalogue and the EPSS scores of the batch
      have been loaded *)
  external_fetcher : q1_calculator.ExternalDataFetcher
}.

Definition _ensure_config_defaults (cfg : ProcessingConfig)
  : ProcessingConfig :=
  {| num_processes := num_processes cfg;
     enable_progress_bars := enable_progress_bars cfg;
     export_csv := export_csv cfg;
     top_n_report := top_n_report cfg;
     weights := weights cfg;
     funnel_enabled :=
       match funnel_enabled cfg with None => Some true | a => a end;
     top_k_for_funnel :=
       match top_k_for_funnel cfg with None => Some 1000%Z | a => a end;
     funnel_threshold :=
       match funnel_threshold cfg with None => Some 50%Z | a => a end;
     funnel_equal_epsilon :=
       match funnel_equal_epsilon cfg with None => Some 0.0001 | a => a end;
     mcdm_use_topsis :=
       match mcdm_use_topsis cfg with None => Some true | a => a end;
     mcdm_weights :=
       match mcdm_weights cfg with
       | None => Some DEFAULT_MCDM_WEIGHTS
       | a => a
       end |}.

(** [VulnerabilityPrioritizer(config)]; the fetcher starts empty in the
    source and is filled by the prefetch, whose result is [fetched]. *)
Definition __init__ (config : option ProcessingConfig)
  (fetched : q1_calculator.ExternalDataFetcher)
  : outcome VulnerabilityPrioritizer :=
  let config := match config with Some c => c | None => default_config end in
  Returns {| config := _ensure_config_defaults config;
             external_fetcher := fetched |}.

(** ** Small helpers *)

Definition _safe_bool (val : Py.value) : bool :=
  if Py.is_True val then true
  else
    let s := Py.lower (Py.strip (Py.str val)) in
    String.eqb s "true" || String.eqb s "1" || String.eqb s "yes".

(** A text that [float] reads as an infinity or as "not a number" is
    returned as such by the source; it is outside the model. *)
Definition _safe_float (val : Py.value) (default : Q) : Q :=
  match val with
  | Py.VNone => default
  | _ => match Py.float val with Some x => x | None => default end
  end.

(** [None]: the [ValueError] of [float(s)] on a text that [isdigit]
    accepts and [float] does not (a superscript digit); the call that
    follows [s.isdigit()] is outside the [try]. *)
Definition _parse_effort (val : Py.value) : option Q :=
  match val with
  | Py.VNone => Some 5.0
  | _ =>
      let s := Py.lower (Py.strip (Py.str val)) in
      if Py.isdigit s then
        match Py.float_of_string s with
        | Some x => Some (Py.max 0.0 x)
        | None => None
        end
      else if Py.str_in s ["low"; "baixo"] then Some 1.0
      else if Py.str_in s ["medium"; "médio"; "medio"] then Some 5.0
      else if Py.str_in s ["high"; "alto"] then Some 10.0
      else match Py.float_of_string s with
           | Some x => Some (Py.max 0.0 x)
           | None => Some 5.0
           end
  end.

(** ** Funnel helpers *)

Definition _cohort_bucket (vuln : item) : Z :=
  match rpi_metrics vuln with
  | None => 5
  | Some metrics =>
      if _safe_bool (Py.get (fields vuln) "violates_sla") then 0
      else if has_kev metrics then 1
      else if has_poc metrics then 2
      else if Qle_bool 90.0 (epss_percentile metrics) then 3
      else if Qle_bool 80.0 (q2_exposure metrics)
              && Qle_bool 80.0 (q3_impact metrics) then 4
      else 5
  end%Z.

Definition norm (val lo hi : Q) : Q :=
  if Qle_bool hi lo then 0.5 else (val - lo) / (hi - lo).

Definition sum_squares (l : list Q) : Q :=
  fold_left (fun acc x => acc + x * x) l 0.

(** [None]: [_parse_effort] raises.  Floats that are not finite, which
    the source can read from a text or reach by overflow, are outside
    the model. *)
Definition _local_topsis_score (cfg : ProcessingConfig) (vuln : item)
  : option Q :=
  match (if negb (match mcdm_use_topsis cfg with Some b => b | None => true end)
         then None else rpi_metrics vuln) with
  | None => Some 0.0
  | Some metrics =>
      let q1 := q1_exploitability metrics in
      let q2 := q2_exposure metrics in
      let q3 := q3_impact metrics in
      let q5 := q5_urgency metrics in
      let epss_p := epss_percentile metrics in
      let occ := _safe_float (Py.get (fields vuln) "nb_occurences") 0.0 in
      let conf := _safe_float (Py.get (fields vuln) "scanner_confidence") 0.0 in
      let conf := if Py.Qltb 1.0 conf then conf / 100.0 else conf in
      match _parse_effort (Py.get (fields vuln) "effort_for_fixing") with
      | None => None
      | Some eff =>
      let w := match mcdm_weights cfg with
               | Some w => w
               | None => DEFAULT_MCDM_WEIGHTS
               end in
      let cap_occ := 1.0 + (if Py.Qltb occ 1000000 then occ else 1000000) in
      let eff_cap := Py.max 1.0 eff in
      let v :=
        [("q1", norm q1 0.0 100.0);
         ("q2", norm q2 0.0 100.0);
         ("q3", norm q3 0.0 100.0);
         ("q5", norm q5 0.0 100.0);
         ("epss", norm epss_p 0.0 100.0);
         ("occ", norm (Py.min occ cap_occ) 0.0 cap_occ);
         ("conf", norm conf 0.0 1.0);
         ("effort", 1.0 - norm (Py.min eff eff_cap) 0.0 eff_cap)] in
      let wv := fun kx : string * Q =>
        (match Py.assoc (fst kx) w with Some x => x | None => 0.0 end)
        * snd kx in
      let weighted := map wv v in
      let d_plus :=
        Py.math_sqrt (sum_squares (map (fun x => 1.0 - x) weighted)) in
      let d_minus :=
        Py.math_sqrt (sum_squares (map (fun x => 0.0 - x) weighted)) in
      if Qeq_bool (d_plus + d_minus) 0 then Some 0.0
      else Some (d_minus / (d_plus + d_minus))
      end
  end.

(** The loop of [_reorder_equal_group] that builds the tuples
    [(b, t, tie, v)]; [None]: a TOPSIS score raises. *)
Fixpoint reorder_tuples (cfg : ProcessingConfig) (block : list item)
  : option (list (Z * Q * list Py.value * item)) :=
  match block with
  | [] => Some []
  | v :: rest =>
      let b := _cohort_bucket v in
      match _local_topsis_score cfg v with
      | None => None
      | Some t =>
          let tie := match tie_breaker_key v with Some t => t | None => [] end in
          match reorder_tuples cfg rest with
          | None => None
          | Some tuples => Some ((b, t, tie, v) :: tuples)
          end
      end
  end.

(** The sort key [(x[0], -x[1], x[2])] of a tuple, and its order. *)
Definition reorder_key (x : Z * Q * list Py.value * item)
  : Z * Q * list Py.value :=
  let '(b, t, tie, _) := x in (b, - t, tie).

Definition reorder_key_ltb (a b : Z * Q * list Py.value) : option bool :=
  let '(b1, t1, tie1) := a in
  let '(b2, t2, tie2) := b in
  if negb (b1 =? b2)%Z then Some (b1 <? b2)%Z
  else if negb (Qeq_bool t1 t2) then Some (Py.Qltb t1 t2)
  else Py.tuple_ltb tie1 tie2.

(** [None]: a TOPSIS score or a comparison of the sort raises. *)
Definition _reorder_equal_group (cfg : ProcessingConfig) (block : list item)
  : option (list item) :=
  match reorder_tuples cfg block with
  | None => None
  | Some tuples =>
      match Py.sorted
              (fun x y => reorder_key_ltb (reorder_key x) (reorder_key y))
              tuples with
      | None => None
      | Some tuples => Some (map snd tuples)
      end
  end.

(** [groups.setdefault(key, []).append(idx)] *)
Fixpoint group_add (key : Q) (idx : nat) (groups : list (Q * list nat))
  : list (Q * list nat) :=
  match groups with
  | [] => [(key, [idx])]
  | (k, idxs) :: rest =>
      if Qeq_bool key k then (k, (idxs ++ [idx])%list) :: rest
      else (k, idxs) :: group_add key idx rest
  end.

(** The loop over [enumerate(head)], from index [start]. *)
Fixpoint build_groups (start : nat) (head : list item)
  (groups : list (Q * list nat)) : list (Q * list nat) :=
  match head with
  | [] => groups
  | v :: t =>
      build_groups (S start) t (group_add (Py.round2 (score_of v)) start groups)
  end.

(** [max(vals) - min(vals)] over the scores at [idxs]. *)
Definition spread (head : list item) (idxs : list nat) : Q :=
  let vals :=
    map (fun i => match nth_error head i with
                  | Some v => score_of v
                  | None => 0.0
                  end) idxs in
  list_max vals - list_min vals.

Definition qualifies (thr : Z) (eps : Q) (head : list item)
  (idxs : list nat) : bool :=
  (thr <=? Z.of_nat (List.length idxs))%Z && Qle_bool (spread head idxs) eps.

(** The loop that keeps the largest qualifying group, the first one among
    equals. *)
Definition pick_candidate (thr : Z) (eps : Q) (head : list item)
  (groups : list (Q * list nat)) : option (list nat) :=
  fold_left
    (fun candidate g =>
       let idxs := snd g in
       if qualifies thr eps head idxs then
         match candidate with
         | None => Some idxs
         | Some c =>
             if (List.length c <? List.length idxs)%nat then Some idxs
             else candidate
         end
       else candidate)
    groups None.

(** [for new_pos, old_idx in enumerate(idxs): head[old_idx] =
    re_sorted[new_pos]] *)
Fixpoint splice (head : list item) (idxs : list nat) (re_sorted : list item)
  : list item :=
  match idxs, re_sorted with
  | old_idx :: idxs', x :: re_sorted' =>
      splice (update old_idx x head) idxs' re_sorted'
  | _, _ => head
  end.

Definition funnel_top_k (cfg : ProcessingConfig) (prioritized : list item)
  : Z :=
  Z.min (Z.of_nat (List.length prioritized))
    (match top_k_for_funnel cfg with Some k => k | None => 1000 end).

Definition funnel_eps (cfg : ProcessingConfig) : Q :=
  match funnel_equal_epsilon cfg with Some e => e | None => 0.0001 end.

Definition funnel_thr (cfg : ProcessingConfig) : Z :=
  match funnel_threshold cfg with Some t => t | None => 50%Z end.

(** The group that the funnel re-ranks, as positions of the head. *)
Definition funnel_candidate (cfg : ProcessingConfig)
  (prioritized : list item) : option (list nat) :=
  let head := slice_to prioritized (funnel_top_k cfg prioritized) in
  match pick_candidate (funnel_thr cfg) (funnel_eps cfg) head
          (build_groups 0 head []) with
  | Some ((_ :: _) as idxs) => Some idxs
  | _ => None
  end.

(** [None]: the local re-ranking raises. *)
Definition _apply_funneling_if_needed (cfg : ProcessingConfig)
  (prioritized : list item) : option (list item) :=
  if negb (match funnel_enabled cfg with Some b => b | None => true end)
  then Some prioritized
  else
    match prioritized with
    | [] => Some prioritized
    | _ =>
        let top_k := funnel_top_k cfg prioritized in
        let head := slice_to prioritized top_k in
        match funnel_candidate cfg prioritized with
        | None => Some prioritized
        | Some candidate_idx_list =>
            let block :=
              flat_map (fun i => match nth_error head i with
                                 | Some v => [v]
                                 | None => []
                                 end) candidate_idx_list in
            match _reorder_equal_group cfg block with
            | None => None
            | Some re_sorted =>
                Some (splice head candidate_idx_list re_sorted
                      ++ slice_from prioritized top_k)%list
            end
        end
    end.

(** ** Deduplication *)

(** A dictionary keyed by arbitrary hashable values: keys are compared
    with [==], insertion order is kept. *)
Fixpoint dict_get {B : Type} (k : Py.value) (d : list (Py.value * B))
  : option B :=
  match d with
  | [] => None
  | (k', b) :: t => if Py.eqb k k' then Some b else dict_get k t
  end.

Fixpoint dict_set {B : Type} (k : Py.value) (b : B)
  (d : list (Py.value * B)) : list (Py.value * B) :=
  match d with
  | [] => [(k, b)]
  | (k', b') :: t =>
      if Py.eqb k k' then (k', b) :: t else (k', b') :: dict_set k b t
  end.

(** The identity that the loop derives for the record at position [pos]
    of the input; the last resort is [str(id(vuln))]. *)
Definition identifier_of (pos : nat) (vuln : Py.record) : Py.value :=
  let cve_id :=
    Py.or_ (Py.get_default vuln "vulnerability_ids" (Py.VStr ""))
      (Py.VStr "") in
  let hash_code :=
    Py.or_ (Py.get_default vuln "hash_code" (Py.VStr "")) (Py.VStr "") in
  let unique_id :=
    Py.or_ (Py.get_default vuln "unique_id_from_tool" (Py.VStr ""))
      (Py.VStr "") in
  let identifier :=
    Py.or_ (Py.or_ (Py.or_ cve_id hash_code) unique_id)
      (Py.VStr (Py.str (Py.get_default vuln "id" (Py.VStr "")))) in
  if negb (Py.truthy identifier) then Py.VStr (Py.id_str pos)
  else identifier.

(** The first loop, from position [pos]; [None] is the [TypeError] of an
    unhashable identifier used as a key. *)
Fixpoint dedup_loop (pos : nat) (vuln_list : list Py.record)
  (unique_map : list (Py.value * Py.record)) (counts : list (Py.value * Z))
  : option (list (Py.value * Py.record) * list (Py.value * Z)) :=
  match vuln_list with
  | [] => Some (unique_map, counts)
  | vuln :: rest =>
      let identifier := identifier_of pos vuln in
      if negb (Py.hashable identifier) then None
      else
        let counts :=
          dict_set identifier
            (match dict_get identifier counts with
             | Some c => c
             | None => 0
             end + 1)%Z counts in
        let unique_map :=
          match dict_get identifier unique_map with
          | Some _ => unique_map
          | None => (unique_map ++ [(identifier, vuln)])%list
          end in
        dedup_loop (S pos) rest unique_map counts
  end.

Definition _deduplicate_vulnerabilities (vuln_list : list Py.record)
  : option (list Py.record) :=
  match dedup_loop 0 vuln_list [] [] with
  | None => None
  | Some (unique_map, counts) =>
      Some (map (fun kv : Py.value * Py.record =>
                   let nb_occ :=
                     match dict_get (fst kv) counts with
                     | Some c => c
                     | None => 1%Z
                     end in
                   Py.set "nb_occurences" (Py.VInt nb_occ) (snd kv))
              unique_map)
  end.

(** ** The pipeline *)

(** [process_vulnerability_worker]: the annotated record, or [None] when
    the record is rejected or the calculation raises. *)
Definition process_vulnerability_worker (self : VulnerabilityPrioritizer)
  (vuln_data : Py.record) : option (Py.record * VulnerabilityMetrics) :=
  if negb (Py.truthy (Py.get vuln_data "title"))
     && negb (Py.truthy (Py.get vuln_data "vulnerability_ids"))
     && negb (Py.truthy (Py.get vuln_data "component_name"))
  then None
  else
    calculators.calculate_rpi
      {| calculators.external_fetcher := external_fetcher self;
         calculators.config := config self |} vuln_data.

(** The body of the loop over [as_completed]: the key is added to a
    record that was scored. *)
Definition annotate (res : Py.record * VulnerabilityMetrics) : item :=
  let '(vuln, metrics) := res in
  {| fields := vuln;
     rpi_metrics := Some metrics;
     rpi_score := Some (models.rpi_score metrics);
     domain := Some (models.domain metrics);
     tie_breaker_key := Some (calculators.get_tie_breaker_key vuln metrics) |}.

(** The key [(-x['rpi_score'], x['tie_breaker_key'])] of the primary sort
    and its order. *)
Definition sort_key (x : item) : Q * list Py.value :=
  (- score_of x, match tie_breaker_key x with Some t => t | None => [] end).

Definition sort_key_ltb (a b : Q * list Py.value) : option bool :=
  if negb (Qeq_bool (fst a) (fst b)) then Some (Py.Qltb (fst a) (fst b))
  else Py.tuple_ltb (snd a) (snd b).

Definition sort_key_eqb (a b : Q * list Py.value) : bool :=
  Qeq_bool (fst a) (fst b) && Py.tuple_eqb (snd a) (snd b).

Definition primary_sort (results : list item) : option (list item) :=
  Py.sorted (fun x y => sort_key_ltb (sort_key x) (sort_key y)) results.

(** [process_vulnerabilities].  [completion] is the order in which the
    futures of the worker pool complete: the positions of the unique
    records, each once.  [None]: an exception escapes (deduplication, the
    pool on an empty batch, a comparison of a sort, the slice of the top
    title in the closing report). *)
Definition process_vulnerabilities (self : VulnerabilityPrioritizer)
  (completion : list nat) (vuln_list : list Py.record)
  : option (list item) :=
  match _deduplicate_vulnerabilities vuln_list with
  | None => None
  | Some [] => None (* ProcessPoolExecutor(max_workers=0) *)
  | Some unique_vulns =>
      let futures := map (process_vulnerability_worker self) unique_vulns in
      let results :=
        flat_map (fun i => match nth_error futures i with
                           | Some (Some res) => [annotate res]
                           | _ => []
                           end) completion in
      match results with
      | [] => Some []
      | _ =>
          match primary_sort results with
          | None => None
          | Some sorted_results =>
              match _apply_funneling_if_needed (config self) sorted_results
              with
              | None => None
              | Some sorted_results =>
                  match sorted_results with
                  | top_vuln :: _ =>
                      if q2_calculator.sliceable
                           (Py.get_default (fields top_vuln) "title"
                              (Py.VStr "N/A"))
                      then Some sorted_results
                      else None
                  | [] => None (* sorted_results[0] *)
                  end
              end
          end
      end
  end.

(** ** The wording of the report *)

(** [_generate_priority_reason]; [None] is the [TypeError] of
    [sla_days_remaining < 7] on a value that is not a number. *)
Definition _generate_priority_reason (vuln : item)
  (metrics : VulnerabilityMetrics) : option string :=
  let reasons := [] in
  let reasons :=
    if has_kev metrics then (reasons ++ ["exploração ativa confirmada"])%list
    else if has_poc metrics then (reasons ++ ["PoC público disponível"])%list
    else reasons in
  let reasons :=
    if Py.Qltb 70 (q2_exposure metrics)
    then (reasons ++ ["alta exposição"])%list else reasons in
  let reasons :=
    if Py.Qltb 80 (q3_impact metrics)
    then (reasons ++ ["impacto crítico"])%list else reasons in
  let after_sla :=
    if Py.truthy (Py.get (fields vuln) "violates_sla")
    then Some (reasons ++ ["SLA violado"])%list
    else
      match Py.ltb (Py.get_default (fields vuln) "sla_days_remaining"
                      (Py.VInt 999)) (Py.VInt 7) with
      | None => None
      | Some true => Some (reasons ++ ["próximo do SLA"])%list
      | Some false => Some reasons
      end in
  match after_sla with
  | None => None
  | Some reasons =>
      let reasons :=
        match reasons with
        | [] => ["risco elevado identificado"]
        | _ => reasons
        end in
      Some (Py.join ", " reasons)
  end.

(** [_estimate_risk_increase]; [None] is the [TypeError] of
    [sla_days < 30] on a value that is not a number. *)
Definition _estimate_risk_increase (vuln : item)
  (metrics : VulnerabilityMetrics) : option string :=
  let risk_factors := [] in
  let risk_factors :=
    if has_kev metrics || Py.Qltb 0.3 (epss_score metrics)
    then (risk_factors ++ ["Probabilidade de exploração aumenta 40%"])%list
    else risk_factors in
  let sla_days :=
    Py.get_default (fields vuln) "sla_days_remaining" (Py.VInt 999) in
  match Py.ltb sla_days (Py.VInt 30) with
  | None => None
  | Some soon =>
      let risk_factors :=
        if soon then
          (* [max(0, sla_days)] *)
          let days :=
            match Py.ltb (Py.VInt 0) sla_days with
            | Some true => sla_days
            | _ => Py.VInt 0
            end in
          (risk_factors
           ++ [("Violação de SLA em " ++ Py.str days ++ " dias")%string])%list
        else risk_factors in
      let risk_factors :=
        if Py.Qltb 70 (q3_impact metrics)
        then (risk_factors
              ++ ["Janela de ataque crítica permanece aberta"])%list
        else risk_factors in
      let risk_factors :=
        match risk_factors with
        | [] => ["Risco moderado de exploração oportunista"]
        | _ => risk_factors
        end in
      Some (Py.join "; " risk_factors)
  end.

End WithRuntime.

(** ** [pareto_cut] *)

(** [sum(scores)] *)
Definition sum_floats (scores : list Q) : Q := fold_left Qplus scores 0.

(** The loop over [scores]: [cum] and [k] when it ends. *)
Fixpoint pareto_loop (target_share total : Q) (scores : list Q) (cum : Q)
  (k : nat) : Q * nat :=
  match scores with
  | [] => (cum, k)
  | s :: rest =>
      let cum := cum + s in
      let k := S k in
      if Qle_bool target_share (cum / total) then (cum, k)
      else pareto_loop target_share total rest cum k
  end.

(** [pareto_cut(prioritized, target_share)]: [(k, cum / total,
    k / len(scores))].  [None] is the [ZeroDivisionError] of a total of
    zero, raised by the first test of the loop. *)
Definition pareto_cut (prioritized : list item) (target_share : Q)
  : option (nat * Q * Q) :=
  let scores :=
    flat_map (fun v => match rpi_metrics v with
                       | Some _ => [score_of v]
                       | None => []
                       end) prioritized in
  match scores with
  | [] => Some (O, 0.0, 0.0)
  | _ =>
      let total := sum_floats scores in
      if Qeq_bool total 0 then None
      else
        let '(cum, k) := pareto_loop target_share total scores 0.0 0 in
        Some (k, cum / total,
              inject_Z (Z.of_nat k)
              / inject_Z (Z.of_nat (List.length scores)))
  end.

End prioritizer.

(* ================================================================== *)
(** * utils.py *)

Module utils.

(** [validate_vulnerability_data] on a record, which is a [dict]. *)
Definition validate_vulnerability_data (vuln_data : Py.record) : bool :=
  let required_fields := ["title"; "vulnerability_ids"; "component_name"] in
  let has_required :=
    existsb (fun field => Py.truthy (Py.get vuln_data field))
      required_fields in
  let is_dict := true in
  is_dict && has_required.

End utils.

(* ================================================================== *)
(** * A runtime to evaluate examples on

    Decimal texts for [float] and [int], a decimal rendering of floats,
    [log10] and [sqrt] by bisection to a fixed precision, a fixed day for
    [utcnow].  The theorems below do not depend on it. *)

Module ModelRuntime.

Fixpoint digits_value (acc : Z) (s : string) : Z :=
  match s with
  | EmptyString => acc
  | String c t => digits_value (acc * 10 + Z.of_nat (nat_of_ascii c - 48)) t
  end.

Definition all_leading_digits (s : string) : string :=
  q1_calculator.leading_digits (String.length s) s.

(** digits, optionally a point and digits; at least one digit *)
Definition parse_unsigned (s : string) : option Q :=
  let ip := all_leading_digits s in
  let rest := q1_calculator.drop (String.length ip) s in
  let fp := if prefix "." rest
            then all_leading_digits (q1_calculator.drop 1 rest) else "" in
  let consumed :=
    (String.length ip
     + (if prefix "." rest then 1 + String.length fp else 0))%nat in
  if ((consumed =? String.length s)%nat
      && (0 <? String.length ip + String.length fp)%nat)%bool
  then Some (Qred (inject_Z (digits_value 0 (ip ++ fp))
                   / inject_Z (10 ^ Z.of_nat (String.length fp))))
  else None.

Definition parse_float (s : string) : option Q :=
  let s := Py.strip_ascii s in
  if prefix "-" s
  then match parse_unsigned (q1_calculator.drop 1 s) with
       | Some q => Some (- q)
       | None => None
       end
  else if prefix "+" s then parse_unsigned (q1_calculator.drop 1 s)
  else parse_unsigned s.

Definition parse_int (s : string) : option Z :=
  let s := Py.strip_ascii s in
  let body := if prefix "-" s || prefix "+" s
              then q1_calculator.drop 1 s else s in
  if Py.isdigit_ascii body
  then Some (if prefix "-" s then - digits_value 0 body
             else digits_value 0 body)%Z
  else None.

Fixpoint zeros (n : nat) : string :=
  match n with O => "" | S n' => String "0" (zeros n') end.

Fixpoint lstrip_zeros (s : string) : string :=
  match s with
  | String c t => if Ascii.eqb c "0" then lstrip_zeros t else s
  | EmptyString => EmptyString
  end.

(** sign, integer part, point, up to twelve decimals without trailing
    zeros *)
Definition render_float (q : Q) : string :=
  let a := Py.abs q in
  let ip := Qfloor a in
  let fd := Qfloor ((a - inject_Z ip) * inject_Z (10 ^ 12)) in
  let ds := Py.str_of_Z fd in
  let ds := zeros (12 - String.length ds) ++ ds in
  let ds := Py.rev_string "" (lstrip_zeros (Py.rev_string "" ds)) in
  (if Py.Qltb q 0 then "-" else "") ++ Py.str_of_Z ip ++ "."
  ++ (if String.eqb ds "" then "0" else ds).

Definition render_list (l : list string) : string :=
  "[" ++ Py.join ", " (map (fun s => "'" ++ s ++ "'") l) ++ "]".

Definition trunc15 (q : Q) : Q :=
  Qred (inject_Z (Qfloor (q * inject_Z (10 ^ 15))) / inject_Z (10 ^ 15)).

Fixpoint scale_down (fuel : nat) (y : Q) (e : Z) : Q * Z :=
  match fuel with
  | O => (y, e)
  | S f => if Qle_bool 10 y then scale_down f (Qred (y / 10)) (e + 1)%Z
           else (y, e)
  end.

Fixpoint scale_up (fuel : nat) (y : Q) (e : Z) : Q * Z :=
  match fuel with
  | O => (y, e)
  | S f => if Py.Qltb y 1 then scale_up f (Qred (y * 10)) (e - 1)%Z
           else (y, e)
  end.

(** the binary digits of [log10 y] for [1 <= y < 10], by squaring *)
Fixpoint frac_bits (n : nat) (y w : Q) : Q :=
  match n with
  | O => 0
  | S n' =>
      let y2 := trunc15 (y * y) in
      if Qle_bool 10 y2
      then w + frac_bits n' (trunc15 (y2 / 10)) (w / 2)
      else frac_bits n' y2 (w / 2)
  end.

Definition log10 (x : Q) : Q :=
  if Qle_bool x 0 then 0
  else
    let '(y, e) := scale_down 400 (Qred x) 0 in
    let '(y, e) := scale_up 400 y e in
    Qred (inject_Z e + frac_bits 40 y (1 # 2)).

Definition sqrt (x : Q) : Q :=
  if Qle_bool x 0 then 0
  else Qred (inject_Z (Z.sqrt (Qfloor (x * inject_Z (10 ^ 24))))
             / inject_Z (10 ^ 12)).

(** days from the civil date, for a text that starts [YYYY-MM-DD] *)
Definition days_from_civil (y m d : Z) : Z :=
  let y := (if m <=? 2 then y - 1 else y)%Z in
  let era := (y / 400)%Z in
  let yoe := (y - era * 400)%Z in
  let mp := ((m + 9) mod 12)%Z in
  let doy := ((153 * mp + 2) / 5 + d - 1)%Z in
  let doe := (yoe * 365 + yoe / 4 - yoe / 100 + doy)%Z in
  (era * 146097 + doe - 719468)%Z.

(** the day on which the examples run: 2025-09-01 *)
Definition today : Z := days_from_civil 2025 9 1.

Definition days_since (s : string) : option Q :=
  let y := substring 0 4 s in
  let m := substring 5 2 s in
  let d := substring 8 2 s in
  if ((String.length s =? 10)%nat || (String.length s =? 19)%nat)
     && Py.isdigit_ascii y && Py.isdigit_ascii m && Py.isdigit_ascii d
     && String.eqb (substring 4 1 s) "-" && String.eqb (substring 7 1 s) "-"
  then Some (inject_Z (today - days_from_civil (digits_value 0 y)
                                 (digits_value 0 m) (digits_value 0 d)))
  else None.

Definition id_str (pos : nat) : string :=
  Py.str_of_Z (140000000000000 + 64 * Z.of_nat pos).

(** The number of bytes of the white-space character at the head of a
    text in UTF-8, 0 if there is none: the white space of ASCII, U+0085,
    U+00A0, U+1680, U+2000 to U+200A, U+2028, U+2029, U+202F, U+205F and
    U+3000. *)
Definition space_width (s : string) : nat :=
  match s with
  | String c (String d (String e _)) =>
      let '(c, d, e) := (nat_of_ascii c, nat_of_ascii d, nat_of_ascii e) in
      if Py.is_space (ascii_of_nat c) then 1
      else if (c =? 194) && ((d =? 133) || (d =? 160)) then 2
      else if (c =? 225) && (d =? 154) && (e =? 128) then 3
      else if (c =? 226) && (d =? 128)
              && (((128 <=? e) && (e <=? 138)) || (e =? 168) || (e =? 169)
                  || (e =? 175)) then 3
      else if (c =? 226) && (d =? 129) && (e =? 159) then 3
      else if (c =? 227) && (d =? 128) && (e =? 128) then 3
      else 0
  | String c (String d _) =>
      let '(c, d) := (nat_of_ascii c, nat_of_ascii d) in
      if Py.is_space (ascii_of_nat c) then 1
      else if (c =? 194) && ((d =? 133) || (d =? 160)) then 2
      else 0
  | String c _ => if Py.is_space c then 1 else 0
  | EmptyString => 0
  end%nat.

(** The same at the end of a text, on its bytes in reverse. *)
Definition space_width_rev (r : string) : nat :=
  match r with
  | String e (String d (String c _)) =>
      let '(c, d, e) := (nat_of_ascii c, nat_of_ascii d, nat_of_ascii e) in
      if Py.is_space (ascii_of_nat e) then 1
      else if (d =? 194) && ((e =? 133) || (e =? 160)) then 2
      else if (c =? 225) && (d =? 154) && (e =? 128) then 3
      else if (c =? 226) && (d =? 128)
              && (((128 <=? e) && (e <=? 138)) || (e =? 168) || (e =? 169)
                  || (e =? 175)) then 3
      else if (c =? 226) && (d =? 129) && (e =? 159) then 3
      else if (c =? 227) && (d =? 128) && (e =? 128) then 3
      else 0
  | String e (String d _) =>
      let '(d, e) := (nat_of_ascii d, nat_of_ascii e) in
      if Py.is_space (ascii_of_nat e) then 1
      else if (d =? 194) && ((e =? 133) || (e =? 160)) then 2
      else 0
  | String e _ => if Py.is_space e then 1 else 0
  | EmptyString => 0
  end%nat.

Fixpoint strip_head (width : string -> nat) (fuel : nat) (s : string)
  : string :=
  match fuel with
  | O => s
  | S fuel' =>
      match width s with
      | O => s
      | w => strip_head width fuel' (q1_calculator.drop w s)
      end
  end.

Definition strip_unicode (s : string) : string :=
  let s := strip_head space_width (String.length s) s in
  Py.rev_string ""
    (strip_head space_width_rev (String.length s) (Py.rev_string "" s)).

(** A text of digits of ASCII and of Latin-1 (the superscripts one, two
    and three) in UTF-8; the digits of the other blocks are not read. *)
Fixpoint all_digits_latin1 (s : string) : bool :=
  match s with
  | EmptyString => true
  | String c t =>
      if Py.is_digit c then all_digits_latin1 t
      else
        match t with
        | String d t' =>
            (nat_of_ascii c =? 194)%nat
            && ((nat_of_ascii d =? 178)%nat || (nat_of_ascii d =? 179)%nat
                || (nat_of_ascii d =? 185)%nat)
            && all_digits_latin1 t'
        | EmptyString => false
        end
  end.

Definition isdigit_latin1 (s : string) : bool :=
  match s with EmptyString => false | _ => all_digits_latin1 s end.

Definition model_runtime : Py.PyRuntime :=
  {| Py.float_of_string := parse_float;
     Py.int_of_string := parse_int;
     Py.repr_float := render_float;
     Py.repr_list := render_list;
     Py.math_log10 := log10;
     Py.math_sqrt := sqrt;
     Py.days_since := days_since;
     Py.id_str := id_str;
     Py.strip_beyond_ascii := strip_unicode;
     Py.isdigit_beyond_ascii := isdigit_latin1 |}.

End ModelRuntime.

(* ================================================================== *)
(** * Statements

    The notions in which the properties below are stated: the coupling
    formulas, the groups of the funnel and the outcome of deduplication
    as the specification words them, and the readings of a record that
    the statements share. *)


(** The EPSS percentiles of the table are not negative (the provider
    documents the range 0..100). *)
Definition epss_percentiles_nonneg (f : q1_calculator.ExternalDataFetcher)
  : Prop :=
  forall cve e,
    Py.assoc cve (q1_calculator.epss_data f) = Some e ->
    0 <= q1_calculator.percentile e.

Section ReadOccurrences.
Context {rt : Py.PyRuntime}.







End ReadOccurrences.

Module CouplingSpec.

(** The statement of the coupling stage, in the words of the
    specification. *)






End CouplingSpec.

Module FunnelSpec.
Import prioritizer.

(** The positions, counted from [start], of the records of [head] whose
    RPI rounded to two decimals is [key]. *)
Fixpoint positions_with (key : Q) (start : nat) (head : list item)
  : list nat :=
  match head with
  | [] => []
  | v :: t =>
      if Qeq_bool key (Py.round2 (score_of v))
      then start :: positions_with key (S start) t
      else positions_with key (S start) t
  end.

(** The head that the funnel inspects. *)
Definition head_of (cfg : models.ProcessingConfig) (prioritized : list item)
  : list item :=
  slice_to prioritized (funnel_top_k cfg prioritized).

(** No group of equal rounded RPI within the head has at least
    [funnel_threshold] members and a spread of at most the epsilon. *)
Definition no_qualifying_group (cfg : models.ProcessingConfig)
  (prioritized : list item) : Prop :=
  forall key : Q,
    let head := head_of cfg prioritized in
    let idxs := positions_with key 0 head in
    idxs <> [] ->
    qualifies (funnel_thr cfg) (funnel_eps cfg) head idxs = false.

End FunnelSpec.

(** The group of a key in the dictionary of the funnel, and the
    dictionaries whose keys are pairwise different. *)
Fixpoint group_of (key : Q) (groups : list (Q * list nat)) : list nat :=
  match groups with
  | [] => []
  | (k, idxs) :: rest => if Qeq_bool key k then idxs else group_of key rest
  end.

Fixpoint keys_distinct (groups : list (Q * list nat)) : Prop :=
  match groups with
  | [] => True
  | (k, _) :: rest =>
      (forall k' l, In (k', l) rest -> Qeq_bool k k' = false)
      /\ keys_distinct rest
  end.

Module DedupSpec.
Import prioritizer.

Section WithRuntime.
Context {rt : Py.PyRuntime}.

(** The identities of the records of a list, the first at position
    [pos]. *)
Fixpoint identifiers (pos : nat) (l : list Py.record) : list Py.value :=
  match l with
  | [] => []
  | r :: t => identifier_of pos r :: identifiers (S pos) t
  end.

(** How many records of a batch carry the identity [k]. *)
Definition occurrences (k : Py.value) (ids : list Py.value) : Z :=
  Z.of_nat (List.length (filter (Py.eqb k) ids)).

(** The first record of every identity not yet [seen], in input order. *)
Fixpoint first_occurrences (pos : nat) (l : list Py.record)
  (seen : list Py.value) : list (Py.value * Py.record) :=
  match l with
  | [] => []
  | r :: t =>
      let k := identifier_of pos r in
      if existsb (Py.eqb k) seen then first_occurrences (S pos) t seen
      else (k, r) :: first_occurrences (S pos) t (seen ++ [k])%list
  end.

(** One record per identity: the first one, with [nb_occurences] set to
    the number of records of that identity. *)
Definition deduplicated (l : list Py.record) : list Py.record :=
  map (fun kv : Py.value * Py.record =>
         Py.set "nb_occurences"
           (Py.VInt (occurrences (fst kv) (identifiers 0 l))) (snd kv))
    (first_occurrences 0 l []).

End WithRuntime.
End DedupSpec.

(** The count of an identity in the dictionary of the deduplicator. *)
Definition dict_count (k : Py.value) (d : list (Py.value * Z)) : Z :=
  match prioritizer.dict_get k d with Some c => c | None => 0%Z end.

(** ** The notions of the further properties *)

(** The total of the [nb_occurences] counts of a list of records. *)
Fixpoint nb_occurences_total (l : list Py.record) : Z :=
  match l with
  | [] => 0
  | r :: t =>
      (match Py.get r "nb_occurences" with
       | Py.VInt c => c
       | _ => 0
       end + nb_occurences_total t)%Z
  end.

(** The total, over the kept records, of the number of records of
    their identity. *)
Fixpoint total_occurrences (kept : list (Py.value * Py.record))
  (ids : list Py.value) : Z :=
  match kept with
  | [] => 0
  | kv :: t =>
      (DedupSpec.occurrences (fst kv) ids + total_occurrences t ids)%Z
  end.

(** [head] with the records whose rounded RPI is [key] replaced, in
    order, by the records of [xs]. *)
Fixpoint refill (key : Q) (head : list prioritizer.item)
  (xs : list prioritizer.item) : list prioritizer.item :=
  match head, xs with
  | v :: t, x :: xs' =>
      if Qeq_bool key (Py.round2 (prioritizer.score_of v))
      then x :: refill key t xs'
      else v :: refill key t xs
  | _, _ => head
  end.

(** The weight of a subscore in a configuration; 0 when absent. *)
Definition weight_of (cfg : models.ProcessingConfig) (k : string) : Q :=
  match Py.assoc k (models.weights cfg) with Some w => w | None => 0 end.

(** The rank of a category, [minimal] lowest. *)
Definition category_rank (c : string) : nat :=
  if String.eqb c "critical" then 4
  else if String.eqb c "high" then 3
  else if String.eqb c "medium" then 2
  else if String.eqb c "low" then 1
  else 0.

(** A record with the metrics that [calculate_rpi] returned. *)
Definition with_metrics (r : Py.record) (m : models.VulnerabilityMetrics)
  : models.VulnerabilityData.t :=
  {| models.VulnerabilityData.raw_data := r;
     models.VulnerabilityData.metrics := Some m;
     models.VulnerabilityData.tie_breaker_key := None;
     models.VulnerabilityData.processed := true;
     models.VulnerabilityData.priority_rank := 0;
     models.VulnerabilityData.rpi_category := "unknown" |}.

(** The scores that [pareto_cut] adds up: those of the records that
    carry metrics, in order. *)
Definition pareto_scores (prioritized : list prioritizer.item) : list Q :=
  flat_map (fun v => match prioritizer.rpi_metrics v with
                     | Some _ => [prioritizer.score_of v]
                     | None => []
                     end) prioritized.

(** The share of the total that the first [j] scores hold. *)
Definition prefix_share (scores : list Q) (j : nat) : Q :=
  prioritizer.sum_floats (firstn j scores) / prioritizer.sum_floats scores.

Section Readings.
Context {rt : Py.PyRuntime}.

(** The text in which [extract_cve_id] searches: [str(value)], the
    elements joined by commas for a list. *)
Definition cve_text (value : Py.value) : string :=
  match value with
  | Py.VList l => Py.join "," l
  | _ => Py.str value
  end.

(** The record is past its SLA for Q5: the flag [violates_sla] is set,
    or [sla_days_remaining] reads as a negative number. *)
Definition sla_urgent (vuln_data : Py.record) : bool :=
  q5_calculator._safe_bool (Py.get vuln_data "violates_sla")
  || match q5_calculator._safe_float
             (Py.get vuln_data "sla_days_remaining") (Some 1) with
     | Some d => Py.Qltb d 0
     | None => false
     end.

(** The [url] of the record enters the URL block of Q2 and cannot be
    sliced: it is a number or a boolean. *)
Definition unsliceable_url (vuln_data : Py.record) : bool :=
  Py.truthy (Py.get vuln_data "url")
  && q2_calculator.not_blank (Py.get vuln_data "url")
  && negb (q2_calculator.sliceable (Py.get vuln_data "url")).

(** The TOPSIS score of a record where [_local_topsis_score] returns,
    and the key of the local sort of the funnel for the record. *)
Definition topsis_of (cfg : models.ProcessingConfig)
  (v : prioritizer.item) : Q :=
  match prioritizer._local_topsis_score cfg v with
  | Some t => t
  | None => 0
  end.

(** The tuple that [_reorder_equal_group] builds for a record. *)
Definition reorder_tuple_of (cfg : models.ProcessingConfig)
  (v : prioritizer.item) : Z * Q * list Py.value * prioritizer.item :=
  (prioritizer._cohort_bucket v, topsis_of cfg v,
   match prioritizer.tie_breaker_key v with Some t => t | None => [] end,
   v).

Definition reorder_key_of (cfg : models.ProcessingConfig)
  (v : prioritizer.item) : Z * Q * list Py.value :=
  (prioritizer._cohort_bucket v, - topsis_of cfg v,
   match prioritizer.tie_breaker_key v with Some t => t | None => [] end).


(** The records that the loop over the completed futures collects. *)
Definition collected (self : prioritizer.VulnerabilityPrioritizer)
  (completion : list nat) (unique_vulns : list Py.record)
  : list prioritizer.item :=
  flat_map (fun i =>
              match nth_error
                      (map (prioritizer.process_vulnerability_worker self)
                         unique_vulns) i with
              | Some (Some res) => [prioritizer.annotate res]
              | _ => []
              end) completion.

End Readings.

(* ================================================================== *)
(** * Example batches *)

Module Examples.

(** A fetcher without signals: empty KEV and EPSS tables, no NVD
    reference. *)
Definition no_signals : q1_calculator.ExternalDataFetcher :=
  {| q1_calculator.kev_data := [];
     q1_calculator.epss_data := [];
     q1_calculator._nvd_references :=
       fun _ => {| q1_calculator.has_exploit_ref := false;
                   q1_calculator.has_exploitdb := false;
                   q1_calculator.has_metasploit := false;
                   q1_calculator.has_packetstorm := false;
                   q1_calculator.has_github := false;
                   q1_calculator.has_nuclei := false |} |}.

(** A fetcher whose EPSS table gives CVE-2022-1111 the score 0 and the
    percentile 99. *)
Definition epss_zero_score : q1_calculator.ExternalDataFetcher :=
  {| q1_calculator.kev_data := [];
     q1_calculator.epss_data :=
       [("CVE-2022-1111",
         {| q1_calculator.epss := 0; q1_calculator.percentile := 99 |})];
     q1_calculator._nvd_references :=
       q1_calculator._nvd_references no_signals |}.

Definition with_config (cfg : models.ProcessingConfig)
  (f : q1_calculator.ExternalDataFetcher) : prioritizer.VulnerabilityPrioritizer :=
  {| prioritizer.config := prioritizer._ensure_config_defaults cfg;
     prioritizer.external_fetcher := f |}.

Definition default_calculator : calculators.RiskPriorityCalculator :=
  {| calculators.external_fetcher := epss_zero_score;
     calculators.config := models.default_config |}.




(** A record past its SLA whose risk was accepted. *)
Definition accepted_past_sla : Py.record :=
  [("title", Py.VStr "Expired certificate");
   ("vulnerability_ids", Py.VStr "CVE-2022-1111");
   ("violates_sla", Py.VBool true);
   ("risk_accepted", Py.VBool true)].

(** The scenario of the specification: CVSS 9.8, 150 occurrences, a
    database component, SLA not violated. *)
Definition scenario_A : Py.record :=
  [("title", Py.VStr "SQL injection in driver");
   ("vulnerability_ids", Py.VStr "CVE-2021-12345");
   ("component_name", Py.VStr "mysql");
   ("cvssv3_score", Py.VFloat 9.8);
   ("nb_occurences", Py.VInt 150);
   ("violates_sla", Py.VBool false)].

(** A record whose identifier is a JSON array, the form that
    [extract_cve_id] accepts. *)
Definition list_identifier : Py.record :=
  [("title", Py.VStr "Log4Shell");
   ("vulnerability_ids", Py.VList ["CVE-2021-44228"])].

(** Two findings that differ by their CVE only and carry no identifier
    of a tool. *)
Definition tls_1 : Py.record :=
  [("title", Py.VStr "Outdated TLS configuration");
   ("vulnerability_ids", Py.VStr "CVE-2023-0001")].
Definition tls_2 : Py.record :=
  [("title", Py.VStr "Outdated TLS configuration");
   ("vulnerability_ids", Py.VStr "CVE-2023-0002")].

(** The same finding with an effort of "superscript two", a text that
    [isdigit] accepts and [float] rejects. *)
Definition tls_superscript : Py.record :=
  [("title", Py.VStr "Outdated TLS configuration");
   ("vulnerability_ids", Py.VStr "CVE-2023-0002");
   ("effort_for_fixing", Py.VStr "²")].

(** Findings that differ by the identifier of the tool only: a number
    and a text. *)
Definition tool_id_1 : Py.record :=
  [("title", Py.VStr "Outdated TLS configuration");
   ("unique_id_from_tool", Py.VInt 1)].
Definition tool_id_a : Py.record :=
  [("title", Py.VStr "Outdated TLS configuration");
   ("unique_id_from_tool", Py.VStr "a")].

(** Weights that sum to 2.5. *)
Definition bad_weights : models.ProcessingConfig :=
  {| models.num_processes := 4;
     models.enable_progress_bars := true;
     models.export_csv := true;
     models.top_n_report := 20;
     models.weights := [("q1", 0.5); ("q2", 0.5); ("q3", 0.5); ("q4", 0.5);
                        ("q5", 0.5)];
     models.funnel_enabled := None;
     models.top_k_for_funnel := None;
     models.funnel_threshold := None;
     models.funnel_equal_epsilon := None;
     models.mcdm_use_topsis := None;
     models.mcdm_weights := None |}.

(** A configuration whose funnel triggers on two equal scores. *)
Definition funnel_of_two : models.ProcessingConfig :=
  {| models.num_processes := 4;
     models.enable_progress_bars := true;
     models.export_csv := true;
     models.top_n_report := 20;
     models.weights := models.weights models.default_config;
     models.funnel_enabled := Some true;
     models.top_k_for_funnel := Some 1000%Z;
     models.funnel_threshold := Some 2%Z;
     models.funnel_equal_epsilon := Some 0.0001;
     models.mcdm_use_topsis := Some true;
     models.mcdm_weights := Some prioritizer.DEFAULT_MCDM_WEIGHTS |}.

Definition past_sla (cve : string) (confidence cvss : Q) : Py.record :=
  [("title", Py.VStr "Expired certificate");
   ("vulnerability_ids", Py.VStr cve);
   ("violates_sla", Py.VBool true);
   ("scanner_confidence", Py.VFloat confidence);
   ("cvssv3_score", Py.VFloat cvss)].

Definition verbose_errors : Py.record :=
  [("title", Py.VStr "Verbose error page");
   ("vulnerability_ids", Py.VStr "CVE-2022-0003")].

(** A finding reported twice and another one in between. *)
Definition three_findings : list Py.record := [tls_1; tls_2; tls_1].

(** A record whose risk was accepted and that is within its SLA. *)
Definition accepted_risk : Py.record :=
  [("title", Py.VStr "Expired certificate");
   ("vulnerability_ids", Py.VStr "CVE-2022-1111");
   ("risk_accepted", Py.VBool true)].

(** A record whose effort is the integer 10^309, beyond the range of a
    float. *)
Definition huge_effort : Py.record :=
  [("title", Py.VStr "Expired certificate");
   ("vulnerability_ids", Py.VStr "CVE-2022-1111");
   ("effort_for_fixing", Py.VInt (10 ^ 309))].

(** Records due in two days and in forty-five days. *)
Definition due_in (days : Z) : Py.record :=
  [("title", Py.VStr "Weak cipher suite");
   ("sla_days_remaining", Py.VInt days)].

(** A record of [VulnerabilityData] with a given RPI. *)
Definition data_with_score (s : Q) : models.VulnerabilityData.t :=
  with_metrics []
    (models.Build_VulnerabilityMetrics 0 0 0 0 0 s "" false false false 0 0).

Section OnModelRuntime.
#[local] Existing Instance ModelRuntime.model_runtime.

(** [accepted_past_sla] as [calculate_rpi] scores it. *)
Definition accepted_past_sla_scored
  : option (Py.record * models.VulnerabilityMetrics) :=
  Eval vm_compute in
    calculators.calculate_rpi default_calculator accepted_past_sla.


(** A record as the default pipeline without signals annotates it. *)
Definition unscored : prioritizer.item :=
  {| prioritizer.fields := [];
     prioritizer.rpi_metrics := None;
     prioritizer.rpi_score := None;
     prioritizer.domain := None;
     prioritizer.tie_breaker_key := None |}.

Definition scored (r : Py.record) : prioritizer.item :=
  match prioritizer.process_vulnerability_worker
          (with_config models.default_config no_signals) r with
  | Some res => prioritizer.annotate res
  | None => unscored
  end.

Definition metrics_of (r : Py.record) : models.VulnerabilityMetrics :=
  match prioritizer.rpi_metrics (scored r) with
  | Some m => m
  | None =>
      models.Build_VulnerabilityMetrics 0 0 0 0 0 0 "" false false false 0 0
  end.

(** Three scored records in the order of the primary sort: two past
    their SLA with the RPI 85, one at 35.33. *)
Definition sorted_three : list prioritizer.item :=
  Eval vm_compute in
    match prioritizer.primary_sort
            (map scored
               [past_sla "CVE-2022-0001" 0.9 3.0;
                past_sla "CVE-2022-0002" 0.6 9.8;
                verbose_errors]) with
    | Some l => l
    | None => []
    end.

(** What the funnel of two makes of them: the first two swapped. *)
Definition funneled_three : list prioritizer.item :=
  Eval vm_compute in
    match prioritizer._apply_funneling_if_needed funnel_of_two sorted_three
    with
    | Some l => l
    | None => []
    end.

(** The three records before the primary sort. *)
Definition three_scored : list prioritizer.item :=
  map scored
    [past_sla "CVE-2022-0001" 0.9 3.0;
     past_sla "CVE-2022-0002" 0.6 9.8;
     verbose_errors].

(** What the default pipeline without signals returns on two findings
    that the pool completes in input order. *)
Definition pipeline_two : list prioritizer.item :=
  Eval vm_compute in
    match prioritizer.process_vulnerabilities
            (with_config models.default_config no_signals) [0%nat; 1%nat]
            [tls_1; tls_2] with
    | Some l => l
    | None => []
    end.

End OnModelRuntime.
End Examples.

(* ================================================================== *)
(** * Properties *)

(** ** Arithmetic of [min] and [max] *)

Lemma Qle_bool_false (a b : Q) : Qle_bool a b = false -> b < a.
Proof.
  intros H. apply Qnot_le_lt. intros L.
  apply Qle_bool_iff in L. congruence.
Qed.

Lemma Qltb_true (a b : Q) : Py.Qltb a b = true -> a < b.
Proof.
  unfold Py.Qltb. intros H. apply negb_true_iff in H.
  now apply Qle_bool_false.
Qed.

Lemma Qltb_false (a b : Q) : Py.Qltb a b = false -> b <= a.
Proof.
  unfold Py.Qltb. intros H. apply negb_false_iff in H.
  now apply Qle_bool_iff.
Qed.

(** Case analysis on the comparisons of a goal, then linear arithmetic. *)
Ltac qcases :=
  repeat match goal with
    | |- context [Py.Qltb ?a ?b] =>
        let E := fresh "E" in
        destruct (Py.Qltb a b) eqn:E;
        [apply Qltb_true in E | apply Qltb_false in E]
    | |- context [Qle_bool ?a ?b] =>
        let E := fresh "E" in
        destruct (Qle_bool a b) eqn:E;
        [apply Qle_bool_iff in E | apply Qle_bool_false in E]
    end.

Lemma min_le_l (a b : Q) : Py.min a b <= a.
Proof. unfold Py.min. qcases; lra. Qed.

Lemma min_le_r (a b : Q) : Py.min a b <= b.
Proof. unfold Py.min. qcases; lra. Qed.

Lemma min_glb (a b c : Q) : c <= a -> c <= b -> c <= Py.min a b.
Proof. intros. unfold Py.min. qcases; lra. Qed.

Lemma max_ge_l (a b : Q) : a <= Py.max a b.
Proof. unfold Py.max. qcases; lra. Qed.

Lemma max_ge_r (a b : Q) : b <= Py.max a b.
Proof. unfold Py.max. qcases; lra. Qed.

Lemma max_lub (a b c : Q) : a <= c -> b <= c -> Py.max a b <= c.
Proof. intros. unfold Py.max. qcases; lra. Qed.

(** [min(100, max(0, x))] and [max(0, min(100, x))] land in [0, 100]. *)
Lemma clamp_min_max (x : Q) : 0 <= Py.min 100 (Py.max 0 x) <= 100.
Proof.
  split; [apply min_glb; [lra | apply max_ge_l] | apply min_le_l].
Qed.

Lemma clamp_max_min (x : Q) : 0 <= Py.max 0 (Py.min 100 x) <= 100.
Proof.
  split; [apply max_ge_l | apply max_lub; [lra | apply min_le_l]].
Qed.

(** ** Records *)

Lemma lookup_set_other (k k' : string) (v : Py.value) (r : Py.record) :
  k <> k' -> Py.lookup k (Py.set k' v r) = Py.lookup k r.
Proof.
  intros N. induction r as [|[k0 v0] t IH]; simpl.
  - destruct (String.eqb_spec k k'); congruence.
  - destruct (String.eqb_spec k' k0) as [->|]; simpl.
    + destruct (String.eqb_spec k k0); congruence.
    + destruct (String.eqb_spec k k0); auto.
Qed.

Lemma lookup_set_same (k : string) (v : Py.value) (r : Py.record) :
  Py.lookup k (Py.set k v r) = Some v.
Proof.
  induction r as [|[k0 v0] t IH]; simpl.
  - now rewrite String.eqb_refl.
  - destruct (String.eqb_spec k k0) as [->|N]; simpl.
    + now rewrite String.eqb_refl.
    + destruct (String.eqb_spec k k0); congruence.
Qed.

Lemma get_default_set_other (k k' : string) (v d : Py.value) (r : Py.record) :
  k <> k' -> Py.get_default (Py.set k' v r) k d = Py.get_default r k d.
Proof. intros. unfold Py.get_default. now rewrite lookup_set_other. Qed.

Lemma get_set_other (k k' : string) (v : Py.value) (r : Py.record) :
  k <> k' -> Py.get (Py.set k' v r) k = Py.get r k.
Proof. intros. now apply get_default_set_other. Qed.

Section CalculatorProperties.
Context {rt : Py.PyRuntime}.

Lemma flag_set_other (k k' : string) (v : Py.value) (r : Py.record) :
  k <> k' ->
  q3_calculator.flag (Py.set k' v r) k = q3_calculator.flag r k.
Proof.
  intros. unfold q3_calculator.flag, q2_calculator.text.
  now rewrite get_set_other, get_default_set_other.
Qed.

(** The score that closes [calculate_rpi], as a function of the weighted
    sum. *)
Lemma override_floor (r : Py.record) (rpi : Q) :
  q3_calculator.flag r "violates_sla" = true ->
  85 <= Py.max 0.0 (Py.min 100.0 (calculators.penalties_and_override r rpi)).
Proof.
  intros F. unfold calculators.penalties_and_override. rewrite F.
  set (x := if q3_calculator.flag r "false_p" then _ else _).
  assert (H1 : 85 <= Py.max x 85.0)
    by (eapply Qle_trans; [|apply max_ge_r]; lra).
  assert (H2 : 85 <= Py.min 100.0 (Py.max x 85.0))
    by (apply min_glb; lra).
  eapply Qle_trans; [exact H2 | apply max_ge_r].
Qed.

End CalculatorProperties.

(** Opens a successful run of [calculate_rpi]: names the Q2 score, the
    table lookups and the five weights, and identifies the metrics. *)
Ltac open_rpi H :=
  unfold calculators.calculate_rpi in H;
  let q2 := fresh "q2" in
  let Hq2 := fresh "Hq2" in
  destruct (q2_calculator.calculate_q2_exposure _) as [q2|] eqn:Hq2;
  [|discriminate H];
  let q4 := fresh "q4" in
  let Hq4 := fresh "Hq4" in
  destruct (q4_calculator.calculate_q4_fixability _) as [q4|] eqn:Hq4;
  [|discriminate H];
  cbv zeta in H;
  let kev := fresh "kev" in
  let ep := fresh "ep" in
  destruct (calculators.table_find _ (q1_calculator.kev_data _))
    as [kev|]; [|discriminate H];
  destruct (calculators.table_find _ (q1_calculator.epss_data _))
    as [ep|]; [|discriminate H];
  destruct (Py.assoc "q1" _) as [?w1|]; [|discriminate H];
  destruct (Py.assoc "q2" _) as [?w2|]; [|discriminate H];
  destruct (Py.assoc "q3" _) as [?w3|]; [|discriminate H];
  destruct (Py.assoc "q4" _) as [?w4|]; [|discriminate H];
  destruct (Py.assoc "q5" _) as [?w5|]; [|discriminate H];
  injection H as <- <-.

Section RpiProperties.
Context {rt : Py.PyRuntime}.

(** C1. For every record whose [violates_sla] flag is true, the final RPI
    that [calculate_rpi] returns is at least 85, whatever the subscores,
    the weights and the management flags ([risk_accepted],
    [is_mitigated], [false_p]): the override [max(rpi, 85)] comes after
    the penalties. *)
Theorem C1_sla_override_dominates
  (self : calculators.RiskPriorityCalculator)
  (vuln_data annotated_data : Py.record) (metrics : models.VulnerabilityMetrics) :
  calculators.calculate_rpi self vuln_data = Some (annotated_data, metrics) ->
  q3_calculator.flag vuln_data "violates_sla" = true ->
  85 <= models.rpi_score metrics.
Proof.
  intros H F. open_rpi H. cbn [models.rpi_score].
  apply override_floor.
  rewrite !flag_set_other by discriminate. exact F.
Qed.

End RpiProperties.

(** ** Ranges of the five calculators *)

Section Ranges.
Context {rt : Py.PyRuntime}.

Lemma clamp_range (lo hi x : Q) :
  lo <= hi -> lo <= Py.min hi (Py.max lo x) <= hi.
Proof.
  intros. split; [apply min_glb; [assumption | apply max_ge_l]
                 | apply min_le_l].
Qed.

Lemma poc_maturity_range (f : q1_calculator.ExternalDataFetcher)
  (cve_id : Py.value) :
  0 <= q1_calculator.poc_maturity
         (q1_calculator.check_poc_availability f cve_id) <= 100.
Proof.
  unfold q1_calculator.check_poc_availability.
  destruct (String.eqb _ ""); [split; vm_compute; discriminate|].
  cbv zeta.
  destruct (q1_calculator.has_exploit_ref _),
    (q1_calculator.has_exploitdb _), (q1_calculator.has_metasploit _),
    (q1_calculator.has_nuclei _);
    (destruct (Py.assoc _ _) as [k|];
     [destruct (q1_calculator.known_ransomware k)|]);
    split; vm_compute; discriminate.
Qed.

Lemma env_fit_range (r : Py.record) : 0 <= q1_calculator.env_fit r <= 100.
Proof.
  unfold q1_calculator.env_fit. cbv zeta.
  destruct (negb _ && _), (Py.any_in q1_calculator.platform_markers _);
    split; vm_compute; discriminate.
Qed.

Lemma class_weight_range (r : Py.record) :
  0 <= q1_calculator.class_weight r <= 100.
Proof.
  unfold q1_calculator.class_weight, q1_calculator._class_weight. cbv zeta.
  repeat match goal with
    | |- context [if existsb ?f ?l then _ else _] => destruct (existsb f l)
    end; split; vm_compute; discriminate.
Qed.

Lemma q1_range (r : Py.record) (f : q1_calculator.ExternalDataFetcher) :
  epss_percentiles_nonneg f ->
  0 <= q1_calculator.calculate_q1_exploitability r f <= 100.
Proof.
  intros W. unfold q1_calculator.calculate_q1_exploitability. cbv zeta.
  pose proof (poc_maturity_range f (Py.VStr (q1_calculator.cve_of r))) as P.
  pose proof (env_fit_range r) as E.
  pose proof (class_weight_range r) as C.
  assert (0 <= q1_calculator.epss_percentile_of f (q1_calculator.cve_of r))
    as Pc.
  { unfold q1_calculator.epss_percentile_of.
    destruct (Py.assoc _ _) eqn:A; [eapply W; eassumption | lra]. }
  split; [|apply min_le_l].
  apply min_glb; [lra|].
  destruct (Py.Qltb 0 _) eqn:S; [apply Qltb_true in S|]; lra.
Qed.

Lemma q2_range (r : Py.record) (q2 : Q) :
  q2_calculator.calculate_q2_exposure r = Some q2 -> 0 <= q2 <= 100.
Proof.
  unfold q2_calculator.calculate_q2_exposure. cbv zeta. intros H.
  destruct (_ && negb (q2_calculator.sliceable _)); [discriminate|].
  repeat match type of H with
    | context [if ?c then (_, _) else _] => destruct c
    end;
    injection H as <-; apply clamp_min_max.
Qed.

Lemma q3_range (r : Py.record) : 0 <= q3_calculator.calculate_q3_impact r <= 100.
Proof. apply clamp_min_max. Qed.

Lemma q4_range (r : Py.record) (q4 : Q) :
  q4_calculator.calculate_q4_fixability r = Some q4 -> 0 <= q4 <= 100.
Proof.
  unfold q4_calculator.calculate_q4_fixability. cbv zeta.
  destruct (_ && _ && Py.float_overflows _); [discriminate|].
  intros H. injection H as <-. apply clamp_max_min.
Qed.

Lemma q5_range (r : Py.record) (f : q1_calculator.ExternalDataFetcher) :
  0 <= q5_calculator.calculate_q5_urgency r f <= 100.
Proof.
  unfold q5_calculator.calculate_q5_urgency. cbv zeta.
  destruct (q5_calculator.tb_tier _); cbn [q5_calculator.tier_in_none_low];
    cbv iota beta;
    match goal with
    | |- _ <= Py.min _ (Py.max _ ?x) <= _ =>
        pose proof (@clamp_range 0.0 100.0 x ltac:(lra)); lra
    end.
Qed.

Lemma g_exploit_pos (k p : bool) (e : Q) : 1 <= calculators.g_exploit k p e.
Proof. unfold calculators.g_exploit. destruct k, p; qcases; lra. Qed.

Lemma g_surface_pos (q : Q) : 0.95 <= calculators.g_surface q.
Proof. unfold calculators.g_surface. qcases; lra. Qed.

Lemma env_factor_pos (r : Py.record) : 0.85 <= calculators._env_factor r.
Proof.
  unfold calculators._env_factor. cbv zeta.
  repeat match goal with
    | |- context [if ?c then _ else _] => destruct c
    end; lra.
Qed.

Lemma occurrence_boost_range (r : Py.record) (x : Q) :
  0 <= x <= 100 -> 0 <= calculators.occurrence_boost r x <= 100.
Proof.
  intros X. unfold calculators.occurrence_boost. cbv zeta.
  destruct (negb _); [|exact X].
  destruct (Py.float _) as [occ|]; [|exact X].
  destruct (Py.Qltb 100 occ);
    [|destruct (Py.Qltb 50 occ); [|destruct (Py.Qltb 10 occ); [|exact X]]];
    (split; [apply min_glb; [lra | nra] | eapply Qle_trans; [apply min_le_l|lra]]).
Qed.

End Ranges.

(** ** The coupling stage *)

Section Coupling.
Context {rt : Py.PyRuntime}.

Lemma min_proper (a a' b b' : Q) :
  a == a' -> b == b' -> Py.min a b == Py.min a' b'.
Proof. intros. unfold Py.min. qcases; lra. Qed.



Lemma text_set_other (k k' : string) (v : Py.value) (r : Py.record) :
  k <> k' -> q2_calculator.text (Py.set k' v r) k = q2_calculator.text r k.
Proof. intros. unfold q2_calculator.text. now rewrite get_default_set_other. Qed.

(** C2. For every record that [calculate_rpi] scores, the five coupled
    subscores stored in the metrics and the final RPI lie in [0, 100];
    the EPSS percentiles supplied by the signal provider are taken not to
    be negative. *)
Theorem C2_scores_within_0_100
  (self : calculators.RiskPriorityCalculator)
  (vuln_data annotated_data : Py.record) (metrics : models.VulnerabilityMetrics) :
  epss_percentiles_nonneg (calculators.external_fetcher self) ->
  calculators.calculate_rpi self vuln_data = Some (annotated_data, metrics) ->
  0 <= models.q1_exploitability metrics <= 100
  /\ 0 <= models.q2_exposure metrics <= 100
  /\ 0 <= models.q3_impact metrics <= 100
  /\ 0 <= models.q4_fixability metrics <= 100
  /\ 0 <= models.q5_urgency metrics <= 100
  /\ 0 <= models.rpi_score metrics <= 100.
Proof.
  intros W H. open_rpi H.
  cbn [models.q1_exploitability models.q2_exposure models.q3_impact
       models.q4_fixability models.q5_urgency models.rpi_score].
  pose proof (q1_range vuln_data W) as R1.
  pose proof (q2_range _ Hq2) as R2.
  pose proof (q3_range vuln_data) as R3.
  pose proof (@q4_range _ _ _ Hq4) as R4.
  match goal with
  | |- context [q5_calculator.calculate_q5_urgency ?r ?f] =>
      pose proof (q5_range r f) as R5;
      set (q5 := q5_calculator.calculate_q5_urgency r f) in *
  end.
  match goal with
  | |- context [calculators.g_exploit ?k ?p ?e] =>
      pose proof (g_exploit_pos k p e) as Ge;
      set (ge := calculators.g_exploit k p e) in *
  end.
  pose proof (g_surface_pos q2) as Gs.
  set (gs := calculators.g_surface q2) in *.
  match goal with
  | |- context [calculators._env_factor ?r] =>
      pose proof (env_factor_pos r) as Fe;
      set (fe := calculators._env_factor r) in *
  end.
  set (q1 := q1_calculator.calculate_q1_exploitability _ _) in *.
  set (q3 := q3_calculator.calculate_q3_impact _) in *.
  repeat split.
  - apply min_glb; [lra | nra].
  - eapply Qle_trans; [apply min_le_l | lra].
  - apply min_glb; [lra | nra].
  - eapply Qle_trans; [apply min_le_l | lra].
  - apply occurrence_boost_range.
    split; [apply min_glb; [lra | nra] | eapply Qle_trans; [apply min_le_l | lra]].
  - apply occurrence_boost_range.
    split; [apply min_glb; [lra | nra] | eapply Qle_trans; [apply min_le_l | lra]].
  - lra.
  - lra.
  - apply min_glb; [lra|].
    assert (0 <= q5 * (0.7 + 0.3 * ge)) by nra.
    assert (0 <= q5 * (0.7 + 0.3 * ge) * (0.8 + 0.2 * gs)) by nra.
    nra.
  - eapply Qle_trans; [apply min_le_l | lra].
  - eapply Qle_trans; [|apply max_ge_l]; lra.
  - apply max_lub; [lra | eapply Qle_trans; [apply min_le_l | lra]].
Qed.


(** C10. When the EPSS score of the record's CVE is exactly 0, Q1 is
    min(100, 0.5 poc_maturity + 0.3 environment_fit + 0.2 class_weight):
    the EPSS percentile, whatever its value, contributes nothing, because
    the bonus 20 score + 0.1 percentile is only added when the score is
    strictly positive. *)
Theorem C10_q1_without_epss_score
  (vuln_data : Py.record) (fetcher : q1_calculator.ExternalDataFetcher) :
  let cve := q1_calculator.cve_of vuln_data in
  let poc_maturity :=
    q1_calculator.poc_maturity
      (q1_calculator.check_poc_availability fetcher (Py.VStr cve)) in
  q1_calculator.epss_score_of fetcher cve == 0 ->
  q1_calculator.calculate_q1_exploitability vuln_data fetcher
  == Py.min 100
       (0.5 * poc_maturity + 0.3 * q1_calculator.env_fit vuln_data
        + 0.2 * q1_calculator.class_weight vuln_data).
Proof.
  intros cve poc_maturity Z.
  unfold q1_calculator.calculate_q1_exploitability. cbv zeta.
  fold cve. fold poc_maturity.
  destruct (Py.Qltb 0 _) eqn:S; [|reflexivity].
  apply Qltb_true in S. lra.
Qed.

End Coupling.

(** ** The order of Python values and of tuples *)

Section ValueOrder.

Lemma string_compare_refl (s : string) : String.compare s s = Eq.
Proof.
  pose proof (String.compare_antisym s s) as A.
  destruct (String.compare s s); simpl in A; congruence.
Qed.

(** Exactly one of [a < b], [a == b], [b < a] on two strings. *)
Lemma string_trichotomy (s t : string) :
  if String.eqb s t
  then String.ltb s t = false /\ String.ltb t s = false
  else String.ltb t s = negb (String.ltb s t).
Proof.
  unfold String.ltb. destruct (String.eqb_spec s t) as [->|N].
  - now rewrite string_compare_refl.
  - rewrite (String.compare_antisym t s).
    destruct (String.compare s t) eqn:C; simpl; auto.
    apply String.compare_eq_iff in C. contradiction.
Qed.

Lemma list_eqb_eq (l m : list string) : Py.list_eqb l m = true <-> l = m.
Proof.
  revert m. induction l as [|x l IH]; intros [|y m]; simpl;
    try (split; congruence).
  rewrite andb_true_iff, String.eqb_eq, IH. split.
  - now intros [-> ->].
  - intros E. injection E. auto.
Qed.

Lemma list_trichotomy (l m : list string) :
  if Py.list_eqb l m
  then Py.list_ltb l m = false /\ Py.list_ltb m l = false
  else Py.list_ltb m l = negb (Py.list_ltb l m).
Proof.
  revert m. induction l as [|x l IH]; intros [|y m]; simpl; auto.
  pose proof (string_trichotomy x y) as T. specialize (IH m).
  rewrite (String.eqb_sym y x).
  destruct (String.eqb x y); simpl; auto.
Qed.

(** [==] is an equivalence. *)
Lemma eqb_refl (v : Py.value) : Py.eqb v v = true.
Proof.
  destruct v as [|b|z|q|s|l]; unfold Py.eqb; cbn [Py.num_of];
    try apply Qeq_bool_refl; auto using String.eqb_refl.
  now apply list_eqb_eq.
Qed.

Lemma eqb_sym (a b : Py.value) : Py.eqb a b = Py.eqb b a.
Proof.
  destruct a as [|b1|z1|q1|s1|l1], b as [|b2|z2|q2|s2|l2];
    unfold Py.eqb; cbn [Py.num_of];
    try apply Qeq_bool_comm; auto using String.eqb_sym.
  destruct (Py.list_eqb l1 l2) eqn:E1, (Py.list_eqb l2 l1) eqn:E2; auto.
  - apply list_eqb_eq in E1. subst.
    rewrite (proj2 (list_eqb_eq l2 l2) eq_refl) in E2. discriminate.
  - apply list_eqb_eq in E2. subst.
    rewrite (proj2 (list_eqb_eq l1 l1) eq_refl) in E1. discriminate.
Qed.

(** What [==] means: the same number, or the same text, list or [None]. *)
Lemma eqb_true_cases (a b : Py.value) :
  Py.eqb a b = true ->
  (exists x y, Py.num_of a = Some x /\ Py.num_of b = Some y /\ x == y)
  \/ (Py.num_of a = None /\ a = b).
Proof.
  destruct a as [|b1|z1|q1|s1|l1], b as [|b2|z2|q2|s2|l2];
    unfold Py.eqb; cbn [Py.num_of];
    try discriminate; intros H;
    try (left; do 2 eexists; repeat split; now apply Qeq_bool_eq);
    right; split; auto.
  - apply String.eqb_eq in H. now subst.
  - apply list_eqb_eq in H. now subst.
Qed.

Lemma eqb_num (a b : Py.value) (x y : Q) :
  Py.num_of a = Some x -> Py.num_of b = Some y ->
  Py.eqb a b = Qeq_bool x y.
Proof. unfold Py.eqb. now intros -> ->. Qed.

Lemma eqb_trans (a b c : Py.value) :
  Py.eqb a b = true -> Py.eqb b c = true -> Py.eqb a c = true.
Proof.
  intros H1 H2.
  destruct (eqb_true_cases _ _ H1) as [(x & y & A & B & E)|[A ->]];
    [|exact H2].
  destruct (eqb_true_cases _ _ H2) as [(y' & z & B' & C & E')|[B' <-]];
    [|exact H1].
  rewrite (eqb_num _ _ A C). apply Qeq_eq_bool.
  assert (y = y') by congruence. subst. now rewrite E.
Qed.

(** When [a < b] is defined so is [b < a], and exactly one of [a < b],
    [a == b], [b < a] holds. *)
Lemma ltb_trichotomy (a b : Py.value) (x : bool) :
  Py.ltb a b = Some x ->
  exists y, Py.ltb b a = Some y
            /\ if Py.eqb a b then x = false /\ y = false else y = negb x.
Proof.
  unfold Py.ltb, Py.eqb.
  destruct (Py.num_of a) as [p|] eqn:A, (Py.num_of b) as [q|] eqn:B;
    try discriminate.
  - intros H. injection H as <-. eexists. split; [reflexivity|].
    unfold Py.Qltb.
    destruct (Qeq_bool p q) eqn:E.
    + apply Qeq_bool_eq in E.
      rewrite (proj2 (Qle_bool_iff q p)), (proj2 (Qle_bool_iff p q)); auto;
        lra.
    + apply Qeq_bool_neq in E.
      destruct (Qle_bool q p) eqn:L1, (Qle_bool p q) eqn:L2; simpl; auto.
      * apply Qle_bool_iff in L1, L2. exfalso. apply E. lra.
      * apply Qle_bool_false in L1, L2. lra.
  - destruct a as [|b1|z1|q1|s1|l1], b as [|b2|z2|q2|s2|l2];
      try discriminate; intros H; injection H as <-;
      eexists; (split; [reflexivity|]).
    + apply string_trichotomy.
    + apply list_trichotomy.
Qed.

(** Tuples. *)

Lemma tuple_trichotomy (s t : list Py.value) (x : bool) :
  Py.tuple_ltb s t = Some x ->
  exists y, Py.tuple_ltb t s = Some y
            /\ if Py.tuple_eqb s t then x = false /\ y = false
               else y = negb x.
Proof.
  revert t x. induction s as [|a s IH]; intros [|b t] x; simpl;
    try (intros H; injection H as <-; eexists; split; [reflexivity|]; auto).
  rewrite (eqb_sym b a). destruct (Py.eqb a b) eqn:E; simpl.
  - apply IH.
  - intros H. destruct (ltb_trichotomy _ _ H) as (y & Hy & T).
    rewrite E in T. eauto.
Qed.

(** Two tuples that are equal are equal at every position. *)
Lemma tuple_eqb_nth (s t : list Py.value) (i : nat) (d : Py.value) :
  Py.tuple_eqb s t = true -> Py.eqb (nth i s d) (nth i t d) = true.
Proof.
  revert t i. induction s as [|a s IH]; intros [|b t] i; simpl;
    try discriminate.
  - intros _. destruct i; apply eqb_refl.
  - intros H. apply andb_true_iff in H as [H1 H2].
    destruct i; auto.
Qed.

End ValueOrder.

(** ** The tie-breaker key and the primary sort *)

Section TieBreaker.
Context {rt : Py.PyRuntime}.

Lemma key_ends_with_unique_id (r : Py.record)
  (m : models.VulnerabilityMetrics) :
  nth 18 (calculators.get_tie_breaker_key r m) Py.VNone
  = calculators.unique_id r.
Proof. reflexivity. Qed.

Lemma distinct_ids_distinct_keys (r1 r2 : Py.record)
  (m1 m2 : models.VulnerabilityMetrics) :
  Py.eqb (calculators.unique_id r1) (calculators.unique_id r2) = false ->
  Py.tuple_eqb (calculators.get_tie_breaker_key r1 m1)
    (calculators.get_tie_breaker_key r2 m2) = false.
Proof.
  intros D.
  destruct (Py.tuple_eqb _ _) eqn:E; [|reflexivity].
  apply (@tuple_eqb_nth _ _ 18%nat Py.VNone) in E.
  rewrite !key_ends_with_unique_id in E. congruence.
Qed.

Lemma sort_key_trichotomy (a b : Q * list Py.value) (x : bool) :
  prioritizer.sort_key_ltb a b = Some x ->
  exists y, prioritizer.sort_key_ltb b a = Some y
            /\ if prioritizer.sort_key_eqb a b then x = false /\ y = false
               else y = negb x.
Proof.
  unfold prioritizer.sort_key_ltb, prioritizer.sort_key_eqb.
  rewrite (Qeq_bool_comm (fst b) (fst a)).
  destruct (Qeq_bool (fst a) (fst b)) eqn:E; simpl.
  - apply tuple_trichotomy.
  - intros H. injection H as <-. eexists. split; [reflexivity|].
    apply Qeq_bool_neq in E. unfold Py.Qltb.
    destruct (Qle_bool (fst a) (fst b)) eqn:L1,
      (Qle_bool (fst b) (fst a)) eqn:L2; simpl; auto.
    + apply Qle_bool_iff in L1, L2. exfalso. apply E. lra.
    + apply Qle_bool_false in L1, L2. lra.
Qed.

End TieBreaker.

(** ** [sorted] returns a permutation *)

Section SortedProperties.
Variable A : Type.
Variable lt : A -> A -> option bool.

Lemma insert_perm (x : A) (l r : list A) :
  Py.insert lt x l = Some r -> Permutation (x :: l) r.
Proof.
  revert r. induction l as [|y l IH]; simpl; intros r H.
  - injection H as <-. apply Permutation_refl.
  - destruct (lt y x) as [[|]|]; try discriminate.
    + destruct (Py.insert lt x l) as [r'|]; [|discriminate].
      injection H as <-.
      eapply Permutation_trans; [apply perm_swap|].
      apply perm_skip. now apply IH.
    + injection H as <-. apply Permutation_refl.
Qed.

Lemma sorted_perm (l r : list A) :
  Py.sorted lt l = Some r -> Permutation l r.
Proof.
  revert r. induction l as [|x l IH]; simpl; intros r H.
  - injection H as <-. apply perm_nil.
  - destruct (Py.sorted lt l) as [r'|]; [|discriminate].
    eapply Permutation_trans; [|eapply insert_perm; eassumption].
    apply perm_skip. now apply IH.
Qed.

End SortedProperties.

(** Sorting the images of a list under a map whose order is the order
    of the arguments. *)
Section SortedMap.
Variables A B : Type.
Variable g : A -> B.
Variable ltA : A -> A -> option bool.
Variable ltB : B -> B -> option bool.
Hypothesis lt_map : forall x y, ltB (g x) (g y) = ltA x y.

Lemma insert_map (x : A) (l : list A) :
  Py.insert ltB (g x) (map g l) = option_map (map g) (Py.insert ltA x l).
Proof.
  induction l as [|y l IH]; simpl; [reflexivity|].
  rewrite lt_map. destruct (ltA y x) as [[|]|]; try reflexivity.
  rewrite IH. now destruct (Py.insert ltA x l).
Qed.

Lemma sorted_map (l : list A) :
  Py.sorted ltB (map g l) = option_map (map g) (Py.sorted ltA l).
Proof.
  induction l as [|x l IH]; simpl; [reflexivity|].
  rewrite IH. destruct (Py.sorted ltA l) as [r|]; simpl; [|reflexivity].
  apply insert_map.
Qed.

End SortedMap.

(** ** The local re-ranking of the funnel *)

Section Reorder.
Context {rt : Py.PyRuntime}.
Import prioritizer.

Lemma reorder_tuples_spec (cfg : models.ProcessingConfig)
  (block : list item) (tuples : list (Z * Q * list Py.value * item)) :
  reorder_tuples cfg block = Some tuples ->
  tuples = map (reorder_tuple_of cfg) block.
Proof.
  revert tuples. induction block as [|v rest IH]; simpl; intros tuples H.
  - now injection H as <-.
  - unfold reorder_tuple_of at 1, topsis_of.
    destruct (_local_topsis_score cfg v) as [t|]; [|discriminate].
    destruct (reorder_tuples cfg rest) as [ts|]; [|discriminate].
    injection H as <-. now rewrite (IH ts).
Qed.

Lemma map_snd_tuples (cfg : models.ProcessingConfig) (l : list item) :
  map snd (map (reorder_tuple_of cfg) l) = l.
Proof. induction l; simpl; congruence. Qed.

(** The local re-ranking, when it returns, is the sort of the block by
    the keys of its records. *)
Lemma reorder_group_sorted (cfg : models.ProcessingConfig)
  (block out : list item) :
  _reorder_equal_group cfg block = Some out ->
  Py.sorted
    (fun x y => reorder_key_ltb (reorder_key_of cfg x) (reorder_key_of cfg y))
    block = Some out.
Proof.
  unfold _reorder_equal_group.
  destruct (reorder_tuples cfg block) as [tuples|] eqn:T; [|discriminate].
  apply reorder_tuples_spec in T. subst tuples.
  rewrite (@sorted_map _ _ (reorder_tuple_of cfg)
             (fun x y => reorder_key_ltb (reorder_key_of cfg x)
                           (reorder_key_of cfg y))
             (fun x y => reorder_key_ltb (reorder_key x) (reorder_key y)))
    by reflexivity.
  destruct (Py.sorted _ block) as [r|]; simpl; [|discriminate].
  intros H. injection H as <-. now rewrite map_snd_tuples.
Qed.

(** The local re-ranking raises as soon as the TOPSIS score of one
    record of the block raises. *)
Lemma reorder_group_raises (cfg : models.ProcessingConfig)
  (block : list item) (v : item) :
  In v block -> _local_topsis_score cfg v = None ->
  _reorder_equal_group cfg block = None.
Proof.
  intros Hin N. unfold _reorder_equal_group.
  assert (T : reorder_tuples cfg block = None).
  { induction block as [|x rest IH]; [destruct Hin|]. simpl.
    destruct Hin as [->|Hin]; [now rewrite N|].
    destruct (_local_topsis_score cfg x); [|reflexivity].
    now rewrite (IH Hin). }
  now rewrite T.
Qed.

End Reorder.

(** ** Lists updated in place *)

Section Splice.
Import prioritizer.

Lemma update_length {A : Type} (i : nat) (x : A) (l : list A) :
  List.length (update i x l) = List.length l.
Proof.
  revert i. induction l as [|y l IH]; intros [|i]; simpl; auto.
Qed.

Lemma nth_error_update_other {A : Type} (i p : nat) (x : A) (l : list A) :
  i <> p -> nth_error (update i x l) p = nth_error l p.
Proof.
  revert i p. induction l as [|y l IH]; intros [|i] [|p] N; simpl; auto.
  congruence.
Qed.

Lemma nth_error_update_same {A : Type} (i : nat) (x : A) (l : list A) :
  (i < List.length l)%nat -> nth_error (update i x l) i = Some x.
Proof.
  revert i. induction l as [|y l IH]; intros [|i] L; simpl in *;
    try lia; auto.
  apply IH. lia.
Qed.

Lemma splice_length (head : list item) (idxs : list nat) (xs : list item) :
  List.length (splice head idxs xs) = List.length head.
Proof.
  revert head xs. induction idxs as [|i idxs IH]; intros head [|x xs];
    simpl; auto.
  now rewrite IH, update_length.
Qed.

Lemma splice_other (head : list item) (idxs : list nat) (xs : list item)
  (p : nat) :
  ~ In p idxs -> nth_error (splice head idxs xs) p = nth_error head p.
Proof.
  revert head xs. induction idxs as [|i idxs IH]; intros head [|x xs] N;
    simpl; auto.
  rewrite IH by (intros ?; apply N; now right).
  apply nth_error_update_other. intros ->. apply N. now left.
Qed.

Lemma splice_at (head : list item) (idxs : list nat) (xs : list item) :
  NoDup idxs ->
  (forall i, In i idxs -> (i < List.length head)%nat) ->
  List.length xs = List.length idxs ->
  map (nth_error (splice head idxs xs)) idxs = map Some xs.
Proof.
  revert head xs. induction idxs as [|i idxs IH]; intros head [|x xs] D R L;
    simpl in *; try discriminate; auto.
  inversion D as [|? ? Ni D']; subst.
  rewrite splice_other by assumption.
  rewrite nth_error_update_same by auto.
  f_equal. apply IH; auto.
  intros j Hj. rewrite update_length. auto.
Qed.

Lemma slice_parts {A : Type} (l : list A) (k : Z) :
  (slice_to l k ++ slice_from l k)%list = l.
Proof. apply firstn_skipn. Qed.

Lemma nth_error_slice_to {A : Type} (l : list A) (k : Z) (p : nat) :
  (p < List.length (slice_to l k))%nat ->
  nth_error (slice_to l k) p = nth_error l p.
Proof.
  intros L. rewrite <- (slice_parts l k) at 2.
  now rewrite nth_error_app1.
Qed.

End Splice.

(** ** The groups of the funnel *)



Section Groups.
Import prioritizer FunnelSpec.

Lemma Qeq_bool_false_trans (a b c : Q) :
  Qeq_bool a b = true -> Qeq_bool b c = false -> Qeq_bool a c = false.
Proof.
  intros E N. destruct (Qeq_bool a c) eqn:E'; auto.
  rewrite Qeq_bool_comm in E.
  now rewrite (Qeq_bool_trans _ _ _ E E') in N.
Qed.

Lemma group_add_keys (key : Q) (i : nat) (g : list (Q * list nat)) k' l :
  In (k', l) (group_add key i g) ->
  k' = key \/ exists l', In (k', l') g.
Proof.
  induction g as [|[k idxs] rest IH]; simpl.
  - intros [E|[]]. injection E as <- <-. now left.
  - destruct (Qeq_bool key k); simpl.
    + intros [E|H]; right; [injection E as <- <-|]; eauto.
    + intros [E|H]; [right; eauto|].
      destruct (IH H) as [->|[l' H']]; eauto.
Qed.

Lemma group_add_distinct (key : Q) (i : nat) (g : list (Q * list nat)) :
  keys_distinct g -> keys_distinct (group_add key i g).
Proof.
  induction g as [|[k idxs] rest IH]; simpl.
  - intros _. split; [intros ? ? []|exact I].
  - intros [D1 D2]. destruct (Qeq_bool key k) eqn:E; simpl.
    + split; assumption.
    + split; [|auto].
      intros k' l H. destruct (group_add_keys _ _ _ _ _ H) as [->|[l' H']].
      * now rewrite Qeq_bool_comm.
      * eauto.
Qed.

Lemma group_of_add (k key : Q) (i : nat) (g : list (Q * list nat)) :
  group_of k (group_add key i g)
  = (group_of k g ++ (if Qeq_bool k key then [i] else []))%list.
Proof.
  induction g as [|[k0 idxs] rest IH]; simpl.
  - reflexivity.
  - destruct (Qeq_bool key k0) eqn:E; simpl.
    + destruct (Qeq_bool k k0) eqn:E0.
      * rewrite Qeq_bool_comm in E.
        now rewrite (Qeq_bool_trans _ _ _ E0 E).
      * rewrite Qeq_bool_comm in E0.
        rewrite (Qeq_bool_comm k key), (Qeq_bool_false_trans _ _ _ E E0).
        now rewrite app_nil_r.
    + destruct (Qeq_bool k k0) eqn:E0; [|exact IH].
      rewrite Qeq_bool_comm in E.
      rewrite (Qeq_bool_false_trans _ _ _ E0 E).
      now rewrite app_nil_r.
Qed.

Lemma group_of_build (k : Q) (head : list item) (start : nat)
  (g : list (Q * list nat)) :
  group_of k (build_groups start head g)
  = (group_of k g ++ positions_with k start head)%list.
Proof.
  revert start g. induction head as [|v t IH]; intros start g; simpl.
  - now rewrite app_nil_r.
  - rewrite IH, group_of_add, <- app_assoc.
    now destruct (Qeq_bool k (Py.round2 (score_of v))).
Qed.

Lemma build_distinct (head : list item) (start : nat)
  (g : list (Q * list nat)) :
  keys_distinct g -> keys_distinct (build_groups start head g).
Proof.
  revert start g. induction head as [|v t IH]; intros start g D; simpl; auto.
  apply IH. now apply group_add_distinct.
Qed.

Lemma in_group_of (g : list (Q * list nat)) (k : Q) (l : list nat) :
  keys_distinct g -> In (k, l) g -> group_of k g = l.
Proof.
  induction g as [|[k0 l0] rest IH]; simpl; [intros _ []|].
  intros [D1 D2] [E|H].
  - injection E as -> ->. now rewrite Qeq_bool_refl.
  - rewrite Qeq_bool_comm, (D1 _ _ H). auto.
Qed.

(** Every group that the loop builds is the list of the positions of the
    head that carry its key. *)
Lemma groups_are_positions (head : list item) (k : Q) (idxs : list nat) :
  In (k, idxs) (build_groups 0 head []) -> idxs = positions_with k 0 head.
Proof.
  intros H.
  rewrite <- (in_group_of _ _ _ (build_distinct head 0 [] I) H).
  apply group_of_build.
Qed.

Lemma positions_range (k : Q) (head : list item) (start p : nat) :
  In p (positions_with k start head) ->
  (start <= p < start + List.length head)%nat.
Proof.
  revert start. induction head as [|v t IH]; intros start; simpl; [intros []|].
  destruct (Qeq_bool _ _); simpl.
  - intros [<-|H]; [lia|]. apply IH in H. lia.
  - intros H. apply IH in H. lia.
Qed.

Lemma positions_NoDup (k : Q) (head : list item) (start : nat) :
  NoDup (positions_with k start head).
Proof.
  revert start. induction head as [|v t IH]; intros start; simpl;
    [constructor|].
  destruct (Qeq_bool _ _); auto.
  constructor; auto. intros H. apply positions_range in H. lia.
Qed.

Lemma positions_key (k : Q) (head : list item) (start p : nat) :
  In p (positions_with k start head) ->
  exists v, nth_error head (p - start) = Some v
            /\ Py.round2 (score_of v) == k.
Proof.
  revert start. induction head as [|v t IH]; intros start; simpl; [intros []|].
  destruct (Qeq_bool _ _) eqn:E; simpl.
  - intros [<-|H].
    + rewrite Nat.sub_diag. exists v. split; auto.
      symmetry. now apply Qeq_bool_eq.
    + pose proof (positions_range _ _ _ _ H) as R.
      destruct (IH _ H) as (w & Hw & Kw). exists w. split; auto.
      replace (p - start)%nat with (S (p - S start)) by lia. exact Hw.
  - intros H. pose proof (positions_range _ _ _ _ H) as R.
    destruct (IH _ H) as (w & Hw & Kw). exists w. split; auto.
    replace (p - start)%nat with (S (p - S start)) by lia. exact Hw.
Qed.

(** The candidate that the loop keeps is one of the groups, and it
    qualifies. *)
Lemma pick_candidate_sound (thr : Z) (eps : Q) (head : list item)
  (groups : list (Q * list nat)) (c : list nat) :
  pick_candidate thr eps head groups = Some c ->
  exists k, In (k, c) groups /\ qualifies thr eps head c = true.
Proof.
  unfold pick_candidate.
  assert (G : forall init,
             fold_left
               (fun candidate g =>
                  let idxs := snd g in
                  if qualifies thr eps head idxs then
                    match candidate with
                    | None => Some idxs
                    | Some c0 =>
                        if (List.length c0 <? List.length idxs)%nat
                        then Some idxs else candidate
                    end
                  else candidate) groups init = Some c ->
             init = Some c
             \/ exists k, In (k, c) groups /\ qualifies thr eps head c = true).
  { induction groups as [|[k idxs] rest IH]; simpl; intros init H; auto.
    destruct (IH _ H) as [E|(k' & I' & Q')]; [|right; eauto].
    destruct (qualifies thr eps head idxs) eqn:Qi; auto.
    destruct init as [c0|].
    - destruct (List.length c0 <? List.length idxs)%nat; auto.
      injection E as <-. right. eauto.
    - injection E as <-. right. eauto. }
  intros H. destruct (G None H) as [E|E]; [discriminate | exact E].
Qed.

End Groups.

(** ** The funnel re-ranker *)

Section Funnel.
Context {rt : Py.PyRuntime}.
Import prioritizer FunnelSpec.

Lemma funnel_candidate_positions (cfg : models.ProcessingConfig)
  (prioritized : list item) (idxs : list nat) :
  funnel_candidate cfg prioritized = Some idxs ->
  exists key,
    idxs = positions_with key 0 (head_of cfg prioritized)
    /\ idxs <> []
    /\ qualifies (funnel_thr cfg) (funnel_eps cfg) (head_of cfg prioritized)
         idxs = true.
Proof.
  unfold funnel_candidate, head_of.
  destruct (pick_candidate _ _ _ _) as [[|i c]|] eqn:P; try discriminate.
  intros H. injection H as <-.
  destruct (pick_candidate_sound _ _ _ _ P) as (k & Hin & Q).
  exists k. repeat split; auto.
  - now apply groups_are_positions.
  - discriminate.
Qed.

Lemma no_group_no_candidate (cfg : models.ProcessingConfig)
  (prioritized : list item) :
  no_qualifying_group cfg prioritized ->
  funnel_candidate cfg prioritized = None.
Proof.
  intros N. destruct (funnel_candidate cfg prioritized) as [idxs|] eqn:C;
    [|reflexivity].
  destruct (funnel_candidate_positions _ _ C) as (k & E & NE & Q).
  specialize (N k). cbv zeta in N. rewrite <- E in N.
  rewrite (N NE) in Q. discriminate.
Qed.

Lemma block_of_positions (head : list item) (idxs : list nat) :
  (forall i, In i idxs -> (i < List.length head)%nat) ->
  map Some
    (flat_map (fun i => match nth_error head i with
                        | Some v => [v]
                        | None => []
                        end) idxs)
  = map (nth_error head) idxs.
Proof.
  induction idxs as [|i idxs IH]; simpl; intros R; auto.
  destruct (nth_error head i) as [v|] eqn:E.
  - simpl. f_equal. apply IH. auto.
  - apply nth_error_None in E. specialize (R i (or_introl eq_refl)). lia.
Qed.

(** C7. Whatever the input list, a run of the funnel that returns changes
    at most the internal order of one group: the positions of the head
    whose RPI rounds to one same value.  Every position outside that
    group (outside the head, or in the head and not in the group) holds
    the record it held, and the records at the positions of the group are
    a permutation of those that were there; the group is the candidate
    that the funnel selects, or empty.  When no group of equal
    rounded RPI within the head has at least [funnel_threshold] members
    and a spread within the epsilon, the funnel returns its input. *)
Theorem C7_funnel_frame (cfg : models.ProcessingConfig)
  (prioritized : list item) :
  (forall out,
     _apply_funneling_if_needed cfg prioritized = Some out ->
     exists (key : Q) (group : list nat),
       List.length out = List.length prioritized
       /\ (group = [] \/ funnel_candidate cfg prioritized = Some group)
       /\ (forall p, In p group ->
             In p (positions_with key 0 (head_of cfg prioritized)))
       /\ (forall p, ~ In p group ->
             nth_error out p = nth_error prioritized p)
       /\ Permutation (map (nth_error out) group)
            (map (nth_error prioritized) group))
  /\ (no_qualifying_group cfg prioritized ->
      _apply_funneling_if_needed cfg prioritized = Some prioritized).
Proof.
  split.
  - intros out H.
    assert (Same : _apply_funneling_if_needed cfg prioritized
                   = Some prioritized ->
                   exists (key : Q) (group : list nat),
                     List.length out = List.length prioritized
                     /\ (group = []
                         \/ funnel_candidate cfg prioritized = Some group)
                     /\ (forall p, In p group ->
                           In p (positions_with key 0
                                   (head_of cfg prioritized)))
                     /\ (forall p, ~ In p group ->
                           nth_error out p = nth_error prioritized p)
                     /\ Permutation (map (nth_error out) group)
                          (map (nth_error prioritized) group)).
    { intros S. rewrite S in H. injection H as <-.
      exists 0, []. repeat split; auto. intros p []. }
    unfold _apply_funneling_if_needed in *.
    destruct (negb _); [now apply Same|].
    destruct prioritized as [|v0 rest] eqn:EP; [now apply Same|].
    rewrite <- EP in *. clear EP v0 rest.
    destruct (funnel_candidate cfg prioritized) as [idxs|] eqn:C;
      [|now apply Same].
    clear Same. cbv zeta in H.
    fold (head_of cfg prioritized) in H.
    set (head := head_of cfg prioritized) in *.
    destruct (funnel_candidate_positions _ _ C) as (key & E & _ & _).
    fold head in E.
    destruct (_reorder_equal_group cfg _) as [re_sorted|] eqn:R;
      [|discriminate].
    injection H as <-.
    assert (Rg : forall i, In i idxs -> (i < List.length head)%nat).
    { intros i Hi. rewrite E in Hi. apply positions_range in Hi. lia. }
    assert (Nd : NoDup idxs) by (rewrite E; apply positions_NoDup).
    pose proof (sorted_perm _ _ (reorder_group_sorted _ _ R)) as P.
    assert (Lb : List.length re_sorted = List.length idxs).
    { rewrite <- (Permutation_length P).
      rewrite <- (length_map Some), block_of_positions by assumption.
      apply length_map. }
    assert (Hd : forall p, (p < List.length head)%nat ->
                           nth_error head p = nth_error prioritized p).
    { intros p L. apply nth_error_slice_to. exact L. }
    exists key, idxs. repeat split.
    + rewrite length_app, splice_length, <- length_app.
      unfold head, head_of. now rewrite slice_parts.
    + now right.
    + intros p Hp. now rewrite <- E.
    + intros p Np.
      transitivity
        (nth_error
           (head ++ slice_from prioritized (funnel_top_k cfg prioritized))%list
           p);
        [|unfold head, head_of; now rewrite slice_parts].
      destruct (Nat.lt_ge_cases p (List.length head)) as [L|G].
      * rewrite !nth_error_app1 by (rewrite ?splice_length; exact L).
        now apply splice_other.
      * rewrite !nth_error_app2 by (rewrite ?splice_length; exact G).
        now rewrite splice_length.
    + assert (M1 : map (nth_error (splice head idxs re_sorted
                                   ++ slice_from prioritized
                                        (funnel_top_k cfg prioritized))%list)
                     idxs = map Some re_sorted).
      { rewrite <- (splice_at head re_sorted Nd Rg Lb).
        apply map_ext_in. intros i Hi.
        apply nth_error_app1. rewrite splice_length. auto. }
      assert (M2 : map (nth_error prioritized) idxs
                   = map Some
                       (flat_map (fun i => match nth_error head i with
                                           | Some v => [v]
                                           | None => []
                                           end) idxs)).
      { rewrite block_of_positions by assumption.
        apply map_ext_in. intros i Hi. symmetry. auto. }
      rewrite M1, M2. apply Permutation_map, Permutation_sym. exact P.
  - intros N. unfold _apply_funneling_if_needed.
    destruct (negb _); [reflexivity|].
    destruct prioritized as [|v0 rest] eqn:EP; [reflexivity|].
    rewrite <- EP in *.
    now rewrite (no_group_no_candidate N).
Qed.

End Funnel.

(** ** Deduplication *)



Section Dedup.
Context {rt : Py.PyRuntime}.
Import prioritizer DedupSpec.

Lemma eqb_false_trans (a b c : Py.value) :
  Py.eqb a b = true -> Py.eqb b c = false -> Py.eqb a c = false.
Proof.
  intros E N. destruct (Py.eqb a c) eqn:E'; auto.
  rewrite eqb_sym in E. now rewrite (eqb_trans _ _ _ E E') in N.
Qed.

Lemma dict_get_compat {B : Type} (k k2 : Py.value) (d : list (Py.value * B)) :
  Py.eqb k k2 = true -> dict_get k d = dict_get k2 d.
Proof.
  intros E. induction d as [|[k' b] t IH]; simpl; auto.
  destruct (Py.eqb k k') eqn:E1.
  - rewrite eqb_sym in E. now rewrite (eqb_trans _ _ _ E E1).
  - assert (Py.eqb k2 k' = false) as ->; [|exact IH].
    apply eqb_false_trans with k; [now rewrite eqb_sym | exact E1].
Qed.

Lemma dict_get_set {B : Type} (k id : Py.value) (c : B)
  (d : list (Py.value * B)) :
  dict_get k (dict_set id c d)
  = if Py.eqb k id then Some c else dict_get k d.
Proof.
  induction d as [|[k' b'] t IH]; simpl; auto.
  destruct (Py.eqb id k') eqn:E; simpl.
  - destruct (Py.eqb k k') eqn:E1.
    + rewrite eqb_sym in E. now rewrite (eqb_trans _ _ _ E1 E).
    + rewrite eqb_sym in E1.
      now rewrite (eqb_sym k id), (eqb_false_trans _ _ _ E E1).
  - destruct (Py.eqb k k') eqn:E1; [|exact IH].
    rewrite eqb_sym in E. now rewrite (eqb_false_trans _ _ _ E1 E).
Qed.

Lemma dict_get_app_none {B : Type} (k id : Py.value) (b : B)
  (d : list (Py.value * B)) :
  dict_get k (d ++ [(id, b)])
  = match dict_get k d with
    | Some x => Some x
    | None => if Py.eqb k id then Some b else None
    end.
Proof.
  induction d as [|[k' b'] t IH]; simpl; auto.
  now destruct (Py.eqb k k').
Qed.

Lemma dict_get_seen {B : Type} (k : Py.value) (d : list (Py.value * B)) :
  existsb (Py.eqb k) (map fst d)
  = match dict_get k d with Some _ => true | None => false end.
Proof.
  induction d as [|[k' b'] t IH]; simpl; auto.
  now destruct (Py.eqb k k').
Qed.

Lemma occurrences_cons (k id : Py.value) (ids : list Py.value) :
  occurrences k (id :: ids)
  = ((if Py.eqb k id then 1 else 0) + occurrences k ids)%Z.
Proof.
  unfold occurrences. cbn [filter].
  destruct (Py.eqb k id); cbn [List.length]; lia.
Qed.

(** The first loop builds the first occurrences and the counts. *)
Lemma dedup_loop_spec (l : list Py.record) :
  forall pos unique_map counts,
    (forall k, In k (identifiers pos l) -> Py.hashable k = true) ->
    exists counts',
      dedup_loop pos l unique_map counts
      = Some ((unique_map
               ++ first_occurrences pos l (map fst unique_map))%list,
              counts')
      /\ forall k, dict_count k counts'
                   = (dict_count k counts
                      + occurrences k (identifiers pos l))%Z.
Proof.
  induction l as [|r t IH]; intros pos unique_map counts Hh; simpl.
  - exists counts. split; [now rewrite app_nil_r|].
    intros k. unfold occurrences. simpl. lia.
  - rewrite (Hh (identifier_of pos r)) by (simpl; auto). simpl.
    set (id := identifier_of pos r).
    set (counts1 := dict_set id _ counts).
    assert (Ht : forall k, In k (identifiers (S pos) t) ->
                           Py.hashable k = true)
      by (intros; apply Hh; simpl; auto).
    assert (C1 : forall k, dict_count k counts1
                           = (dict_count k counts
                              + (if Py.eqb k id then 1 else 0))%Z).
    { intros k. unfold dict_count, counts1. rewrite dict_get_set.
      destruct (Py.eqb k id) eqn:E; [|lia].
      rewrite (@dict_get_compat _ k id counts E). reflexivity. }
    rewrite dict_get_seen.
    destruct (dict_get id unique_map) as [r0|] eqn:G.
    + destruct (IH (S pos) unique_map counts1 Ht) as (c' & -> & Hc).
      exists c'. split; [reflexivity|].
      intros k. rewrite Hc, C1, occurrences_cons. lia.
    + destruct (IH (S pos) (unique_map ++ [(id, r)])%list counts1 Ht)
        as (c' & -> & Hc).
      exists c'. split.
      * now rewrite map_app, <- app_assoc.
      * intros k. rewrite Hc, C1, occurrences_cons. lia.
Qed.

Lemma first_occurrence_counted (l : list Py.record) :
  forall pos seen k r,
    In (k, r) (first_occurrences pos l seen) ->
    (1 <= occurrences k (identifiers pos l))%Z.
Proof.
  induction l as [|r0 t IH]; intros pos seen k r; simpl; [intros []|].
  rewrite occurrences_cons.
  assert (P : (0 <= occurrences k (identifiers (S pos) t))%Z)
    by (unfold occurrences; lia).
  destruct (existsb _ seen).
  - intros H. apply IH in H. destruct (Py.eqb k _); lia.
  - intros [E|H].
    + injection E as <- <-. rewrite eqb_refl. lia.
    + apply IH in H. destruct (Py.eqb k _); lia.
Qed.

(** On a batch whose identities are hashable, deduplication returns one
    record per identity: the first record of that identity, with
    [nb_occurences] set to the number of records that share it. *)
Lemma dedup_correct (l : list Py.record) :
  (forall k, In k (identifiers 0 l) -> Py.hashable k = true) ->
  _deduplicate_vulnerabilities l = Some (deduplicated l).
Proof.
  intros Hh. unfold _deduplicate_vulnerabilities, deduplicated.
  destruct (dedup_loop_spec l 0 [] [] Hh) as (c' & -> & Hc).
  simpl. f_equal. apply map_ext_in. intros [k r] Hin. simpl.
  pose proof (first_occurrence_counted _ _ _ _ _ Hin) as One.
  specialize (Hc k). unfold dict_count in Hc. simpl in Hc.
  destruct (dict_get k c'); [now rewrite Hc|lia].
Qed.

Lemma dedup_empty : _deduplicate_vulnerabilities [] = Some [].
Proof. reflexivity. Qed.

End Dedup.



(** ** The scenario of the specification *)

Section Scenario.
Context {rt : Py.PyRuntime}.
Import Examples.

Lemma max_proper (a a' b b' : Q) :
  a == a' -> b == b' -> Py.max a b == Py.max a' b'.
Proof. intros. unfold Py.max. qcases; lra. Qed.

(** C5 (amended). In the scenario (CVSS 9.8, 150 occurrences submitted, a
    database component, the record submitted twice) deduplication yields
    one record and overwrites its [nb_occurences] with 2; Q3 of that
    record applies the amplifier of the small counts,
    1 + 0.2 log10(2), and the database multiplier 1.4, that is
    min(100, 98 (1 + 0.2 log10 2) 1.4), which is 100.  The runtime is taken
    to print the float 9.8 as a number and to give a logarithm of 2 that
    is not negative. *)
Theorem C5_scenario_counts_two :
  Py.str_in (Py.lower (Py.repr_float 9.8)) ["nan"; "none"; ""] = false ->
  0 <= Py.math_log10 2 ->
  let deduplicated := Py.set "nb_occurences" (Py.VInt 2) scenario_A in
  prioritizer._deduplicate_vulnerabilities [scenario_A; scenario_A]
  = Some [deduplicated]
  /\ q3_calculator.occurrence_multiplier
       (q3_calculator.safe_float (Py.get deduplicated "nb_occurences") 1)
     = 1.0 + Py.math_log10 2 * 0.2
  /\ q3_calculator.domain_multiplier deduplicated = 1.4
  /\ q3_calculator.calculate_q3_impact deduplicated
     == Py.min 100 (9.8 * 10 * (1.0 + Py.math_log10 2 * 0.2) * 1.4)
  /\ q3_calculator.calculate_q3_impact deduplicated == 100.
Proof.
  intros Hrepr Hlog deduplicated.
  assert (M : q3_calculator.occurrence_multiplier
                (q3_calculator.safe_float
                   (Py.get deduplicated "nb_occurences") 1)
              = 1.0 + Py.math_log10 2 * 0.2) by reflexivity.
  assert (D : q3_calculator.domain_multiplier deduplicated = 1.4)
    by reflexivity.
  assert (B : q3_calculator.base_impact deduplicated = 9.8 * 10).
  { unfold q3_calculator.base_impact, q3_calculator.safe_float.
    replace (Py.get deduplicated "cvssv3_score") with (Py.VFloat 9.8)
      by reflexivity.
    cbn [Py.is_None Py.str orb Py.float]. rewrite Hrepr. reflexivity. }
  assert (Q3 : q3_calculator.calculate_q3_impact deduplicated
               == Py.min 100
                    (Py.max 0 (9.8 * 10 * (1.0 + Py.math_log10 2 * 0.2) * 1.4))).
  { unfold q3_calculator.calculate_q3_impact. rewrite M, D, B.
    assert (C : q3_calculator.criticality_multiplier deduplicated = 1)
      by reflexivity.
    assert (S : q3_calculator.sensitivity_multiplier deduplicated = 1)
      by reflexivity.
    assert (V : q3_calculator.verified_multiplier deduplicated = 1)
      by reflexivity.
    rewrite C, S, V.
    apply min_proper; [reflexivity|]. apply max_proper; [reflexivity|].
    lra. }
  split; [reflexivity|]. split; [exact M|]. split; [exact D|]. split.
  - rewrite Q3. apply min_proper; [reflexivity|].
    unfold Py.max. qcases; lra.
  - rewrite Q3. unfold Py.min, Py.max. qcases; lra.
Qed.

End Scenario.

(* ================================================================== *)
(** * The theorems at concrete inputs *)

Section Concrete.
Import Examples.
#[local] Existing Instance ModelRuntime.model_runtime.

Lemma epss_zero_score_nonneg : epss_percentiles_nonneg epss_zero_score.
Proof.
  intros cve e H. simpl in H.
  destruct (String.eqb cve "CVE-2022-1111"); [|discriminate].
  injection H as <-. simpl. lra.
Defined.

(** C1 at a record with [risk_accepted] and [violates_sla]: the RPI is
    85. *)
Lemma C1_witness :
  match accepted_past_sla_scored with
  | Some (_, metrics) => 85 <= models.rpi_score metrics
  | None => False
  end.
Proof.
  assert (E : calculators.calculate_rpi default_calculator accepted_past_sla
              = accepted_past_sla_scored) by (vm_compute; reflexivity).
  destruct accepted_past_sla_scored as [[r m]|] eqn:S; [|discriminate S].
  apply (C1_sla_override_dominates default_calculator accepted_past_sla E).
  vm_compute. reflexivity.
Defined.

(** C2 at the same record. *)
Lemma C2_witness :
  match accepted_past_sla_scored with
  | Some (_, metrics) =>
      0 <= models.q1_exploitability metrics <= 100
      /\ 0 <= models.q2_exposure metrics <= 100
      /\ 0 <= models.q3_impact metrics <= 100
      /\ 0 <= models.q4_fixability metrics <= 100
      /\ 0 <= models.q5_urgency metrics <= 100
      /\ 0 <= models.rpi_score metrics <= 100
  | None => False
  end.
Proof.
  assert (E : calculators.calculate_rpi default_calculator accepted_past_sla
              = accepted_past_sla_scored) by (vm_compute; reflexivity).
  destruct accepted_past_sla_scored as [[r m]|] eqn:S; [|discriminate S].
  exact (C2_scores_within_0_100 default_calculator accepted_past_sla
           epss_zero_score_nonneg E).
Defined.


(** C10 at a CVE whose EPSS score is 0 and percentile 99: Q1 is the base
    score 0.3 * 30 + 0.2 * 50 = 19. *)
Lemma C10_witness :
  q1_calculator.epss_score_of epss_zero_score
    (q1_calculator.cve_of accepted_past_sla) == 0
  /\ q1_calculator.epss_percentile_of epss_zero_score
       (q1_calculator.cve_of accepted_past_sla) == 99
  /\ q1_calculator.calculate_q1_exploitability accepted_past_sla
       epss_zero_score == 19.
Proof.
  assert (Z : q1_calculator.epss_score_of epss_zero_score
                (q1_calculator.cve_of accepted_past_sla) == 0)
    by (vm_compute; reflexivity).
  split; [exact Z|]. split; [vm_compute; reflexivity|].
  rewrite (C10_q1_without_epss_score accepted_past_sla epss_zero_score Z).
  vm_compute. reflexivity.
Defined.

(** C3 fails on two findings whose tool identifiers are the number 1
    and the text "a".  The identifiers differ and so do the keys, the
    two records score the same and agree on every other field of the
    key, so the comparison of the sort reaches the identifiers; Python
    does not order a number and a text, the [TypeError] escapes
    [sorted] and the whole run aborts, in whichever order the pool
    completes the two tasks. *)
Theorem C3_mixed_identifiers_raise :
  Py.eqb (calculators.unique_id tool_id_1) (calculators.unique_id tool_id_a)
  = false
  /\ Py.tuple_eqb
       (calculators.get_tie_breaker_key tool_id_1 (metrics_of tool_id_1))
       (calculators.get_tie_breaker_key tool_id_a (metrics_of tool_id_a))
     = false
  /\ prioritizer.score_of (scored tool_id_1)
     == prioritizer.score_of (scored tool_id_a)
  /\ prioritizer.sort_key_ltb
       (prioritizer.sort_key (scored tool_id_1))
       (prioritizer.sort_key (scored tool_id_a)) = None
  /\ prioritizer.sort_key_ltb
       (prioritizer.sort_key (scored tool_id_a))
       (prioritizer.sort_key (scored tool_id_1)) = None
  /\ prioritizer.primary_sort [scored tool_id_1; scored tool_id_a] = None
  /\ prioritizer.process_vulnerabilities
       (with_config models.default_config no_signals) [0%nat; 1%nat]
       [tool_id_1; tool_id_a] = None
  /\ prioritizer.process_vulnerabilities
       (with_config models.default_config no_signals) [1%nat; 0%nat]
       [tool_id_1; tool_id_a] = None.
Proof. repeat split; vm_compute; reflexivity. Qed.

(** C4 fails on a record whose [vulnerability_ids] is a JSON array, the
    form that [extract_cve_id] normalises: the array is the identity, it
    cannot key the dictionaries of the deduplicator, and the [TypeError]
    aborts deduplication and with it the whole run. *)
Theorem C4_list_identifier_raises :
  q1_calculator.extract_cve_id (Py.get list_identifier "vulnerability_ids")
  = "CVE-2021-44228"
  /\ prioritizer.identifier_of 0 list_identifier
     = Py.VList ["CVE-2021-44228"]
  /\ prioritizer._deduplicate_vulnerabilities [list_identifier] = None
  /\ prioritizer.process_vulnerabilities
       (with_config models.default_config no_signals) [0%nat]
       [list_identifier] = None.
Proof. repeat split; vm_compute; reflexivity. Qed.

(** C5 as stated fails in its scenario: after deduplication the record
    counts 2 occurrences, the test [nb_occurences >= 100] of Q3 is false
    and the amplifier that Q3 applies is not 2.0. *)
Lemma C5_counterexample :
  let deduplicated := Py.set "nb_occurences" (Py.VInt 2) scenario_A in
  prioritizer._deduplicate_vulnerabilities [scenario_A; scenario_A]
  = Some [deduplicated]
  /\ Qle_bool 100
       (q3_calculator.safe_float (Py.get deduplicated "nb_occurences") 1)
     = false
  /\ ~ q3_calculator.occurrence_multiplier
         (q3_calculator.safe_float (Py.get deduplicated "nb_occurences") 1)
       == 2.0.
Proof.
  cbv zeta. split; [vm_compute; reflexivity|].
  split; [vm_compute; reflexivity|].
  intros H. vm_compute in H. discriminate H.
Qed.

(** C5 (amended) on the model runtime. *)
Lemma C5_witness :
  prioritizer._deduplicate_vulnerabilities [scenario_A; scenario_A]
  = Some [Py.set "nb_occurences" (Py.VInt 2) scenario_A]
  /\ q3_calculator.calculate_q3_impact
       (Py.set "nb_occurences" (Py.VInt 2) scenario_A) == 100.
Proof.
  assert (R : Py.str_in (Py.lower (Py.repr_float 9.8)) ["nan"; "none"; ""]
              = false) by (vm_compute; reflexivity).
  assert (L : 0 <= Py.math_log10 2) by (vm_compute; discriminate).
  destruct (C5_scenario_counts_two R L) as (D & _ & _ & _ & Q3).
  split; [exact D | exact Q3].
Defined.

(** C6 fails on weights that sum to 2.5: [validate] would raise, but the
    constructor of the prioritizer does not call it, returns, and the
    batch is scored with those weights (here an RPI of 97.07 where the
    default weights give 35.33). *)
Theorem C6_bad_weights_accepted :
  models.validate bad_weights = models.Raises "ValueError"
  /\ prioritizer.__init__ (Some bad_weights) no_signals
     = models.Returns (with_config bad_weights no_signals)
  /\ option_map (map (fun x => Py.round2 (prioritizer.score_of x)))
       (prioritizer.process_vulnerabilities
          (with_config bad_weights no_signals) [0%nat] [tls_1])
     = Some [97.07]
  /\ option_map (map (fun x => Py.round2 (prioritizer.score_of x)))
       (prioritizer.process_vulnerabilities
          (with_config models.default_config no_signals) [0%nat] [tls_1])
     = Some [35.33].
Proof. repeat split; vm_compute; reflexivity. Qed.

Lemma small_batch_no_group (cfg : models.ProcessingConfig)
  (prioritized : list prioritizer.item) :
  (Z.of_nat (List.length prioritized) < prioritizer.funnel_thr cfg)%Z ->
  FunnelSpec.no_qualifying_group cfg prioritized.
Proof.
  intros Small key head idxs _. unfold prioritizer.qualifies.
  apply andb_false_iff. left. apply Z.leb_gt.
  assert (Ln : forall k s h,
             (List.length (FunnelSpec.positions_with k s h)
              <= List.length h)%nat).
  { intros k s h. revert s. induction h as [|v t IH]; intros s; simpl; auto.
    destruct (Qeq_bool _ _); simpl; [apply le_n_S|apply Nat.le_le_succ_r];
      apply IH. }
  pose proof (Ln key 0%nat head) as L1.
  assert (L2 : (List.length head <= List.length prioritized)%nat).
  { unfold head, FunnelSpec.head_of, prioritizer.slice_to.
    rewrite length_firstn. apply Nat.le_min_r. }
  fold idxs in L1. lia.
Qed.

(** C7 at three sorted records, two of them with the RPI 85.  With a
    threshold of two the funnel swaps the two and leaves the third in
    place; with the default threshold of fifty it returns its input. *)
Lemma C7_witness :
  prioritizer._apply_funneling_if_needed funnel_of_two sorted_three
  = Some funneled_three
  /\ nth_error funneled_three 2 = nth_error sorted_three 2
  /\ nth_error funneled_three 0 = nth_error sorted_three 1
  /\ prioritizer._apply_funneling_if_needed
       (prioritizer._ensure_config_defaults models.default_config)
       sorted_three = Some sorted_three.
Proof.
  assert (E : prioritizer._apply_funneling_if_needed funnel_of_two
                sorted_three = Some funneled_three)
    by (vm_compute; reflexivity).
  assert (C : prioritizer.funnel_candidate funnel_of_two sorted_three
              = Some [0%nat; 1%nat]) by (vm_compute; reflexivity).
  split; [exact E|].
  destruct (proj1 (C7_funnel_frame funnel_of_two sorted_three) _ E)
    as (key & group & _ & G & _ & F & _).
  split.
  - apply F. destruct G as [->|G]; [intros []|].
    rewrite C in G. injection G as <-.
    intros [H|[H|[]]]; discriminate H.
  - split; [vm_compute; reflexivity|].
    apply (proj2 (C7_funnel_frame
                    (prioritizer._ensure_config_defaults models.default_config)
                    sorted_three)).
    apply small_batch_no_group. vm_compute. reflexivity.
Defined.

(** C8 fails on two findings that differ by their CVE only: they score
    the same and get the same tie-breaker key, so the stable sort keeps
    the order in which the pool completed them, and two runs on the same
    input and the same signals return different orders. *)
Theorem C8_order_follows_completion :
  let run completion :=
    option_map
      (map (fun x => Py.get (prioritizer.fields x) "vulnerability_ids"))
      (prioritizer.process_vulnerabilities
         (with_config models.default_config no_signals) completion
         [tls_1; tls_2]) in
  run [0%nat; 1%nat] = Some [Py.VStr "CVE-2023-0001"; Py.VStr "CVE-2023-0002"]
  /\ run [1%nat; 0%nat]
     = Some [Py.VStr "CVE-2023-0002"; Py.VStr "CVE-2023-0001"]
  /\ prioritizer.sort_key_eqb (prioritizer.sort_key (scored tls_1))
       (prioritizer.sort_key (scored tls_2)) = true.
Proof. cbv zeta. repeat split; vm_compute; reflexivity. Qed.

End Concrete.

(* ================================================================== *)
(** * Further properties of the engine *)

(** ** Deduplication *)

Section DedupMore.
Context {rt : Py.PyRuntime}.
Import prioritizer DedupSpec.

(** The first loop raises exactly on an identity that cannot key a
    dictionary. *)
Lemma dedup_loop_raises (l : list Py.record) :
  forall pos unique_map counts,
    dedup_loop pos l unique_map counts = None <->
    exists k, In k (identifiers pos l) /\ Py.hashable k = false.
Proof.
  induction l as [|r t IH]; intros pos unique_map counts; simpl.
  - split; [discriminate | intros (k & [] & _)].
  - destruct (Py.hashable (identifier_of pos r)) eqn:H; simpl.
    + rewrite IH. split; intros (k & Hin & Hk); exists k; split; auto.
      destruct Hin as [<-|Hin]; [congruence | exact Hin].
    + split; [|reflexivity]. intros _. exists (identifier_of pos r). auto.
Qed.

(** X1. On a batch whose identities are all hashable (a text, a number,
    a boolean), [_deduplicate_vulnerabilities] returns one record per
    identity, in the order of first appearance: the first record of
    that identity, with [nb_occurences] overwritten by the number of
    records of the batch that share the identity. *)
Theorem X1_dedup_first_record_per_identity (l : list Py.record) :
  (forall k, In k (identifiers 0 l) -> Py.hashable k = true) ->
  _deduplicate_vulnerabilities l = Some (deduplicated l).
Proof. apply dedup_correct. Qed.

(** X2. [_deduplicate_vulnerabilities] raises if and only if the
    identity of some record of the batch is unhashable, that is a list:
    the identity keys two dictionaries. *)
Theorem X2_dedup_raises_iff_unhashable (l : list Py.record) :
  _deduplicate_vulnerabilities l = None <->
  exists k, In k (identifiers 0 l) /\ Py.hashable k = false.
Proof.
  rewrite <- (dedup_loop_raises l 0 [] []).
  unfold _deduplicate_vulnerabilities.
  destruct (dedup_loop 0 l [] []) as [[u c]|]; split; auto; discriminate.
Qed.

Lemma existsb_eqb_compat (a b : Py.value) (seen : list Py.value) :
  Py.eqb a b = true ->
  existsb (Py.eqb a) seen = existsb (Py.eqb b) seen.
Proof.
  intros E. induction seen as [|s t IH]; simpl; auto.
  rewrite IH. f_equal.
  destruct (Py.eqb a s) eqn:E1.
  - rewrite eqb_sym in E. now rewrite (eqb_trans _ _ _ E E1).
  - symmetry. apply eqb_false_trans with a; [now rewrite eqb_sym | exact E1].
Qed.

Lemma first_occurrences_unseen (l : list Py.record) :
  forall pos seen k r,
    In (k, r) (first_occurrences pos l seen) ->
    existsb (Py.eqb k) seen = false.
Proof.
  induction l as [|r0 t IH]; intros pos seen k r; simpl; [intros []|].
  destruct (existsb (Py.eqb (identifier_of pos r0)) seen) eqn:Hs.
  - apply IH.
  - intros [E|H].
    + injection E as <- <-. exact Hs.
    + apply IH in H. rewrite existsb_app in H.
      now apply orb_false_iff in H.
Qed.

Lemma total_occurrences_cons (kept : list (Py.value * Py.record))
  (id : Py.value) (ids : list Py.value) :
  (forall k r, In (k, r) kept -> Py.eqb k id = false) ->
  total_occurrences kept (id :: ids) = total_occurrences kept ids.
Proof.
  induction kept as [|[k r] t IH]; simpl; intros H; auto.
  rewrite occurrences_cons, (H k r) by auto.
  rewrite IH by (intros; eapply H; eauto). lia.
Qed.

(** The records of an identity not yet seen are those of that identity
    and those of the identities that stay unseen. *)
Lemma split_unseen (id0 : Py.value) (seen ids : list Py.value) :
  existsb (Py.eqb id0) seen = false ->
  (List.length (filter (Py.eqb id0) ids)
   + List.length
       (filter (fun x => negb (existsb (Py.eqb x) (seen ++ [id0]))) ids)
   = List.length (filter (fun x => negb (existsb (Py.eqb x) seen)) ids))%nat.
Proof.
  intros Hs. induction ids as [|x t IH]; simpl; auto.
  rewrite existsb_app. simpl. rewrite orb_false_r.
  destruct (Py.eqb id0 x) eqn:E.
  - rewrite <- (existsb_eqb_compat _ _ seen E), Hs. simpl.
    rewrite eqb_sym, E. simpl. lia.
  - rewrite (eqb_sym x id0), E, orb_false_r.
    destruct (existsb (Py.eqb x) seen); simpl; lia.
Qed.

Lemma total_first_occurrences (l : list Py.record) :
  forall pos seen,
    total_occurrences (first_occurrences pos l seen) (identifiers pos l)
    = Z.of_nat
        (List.length
           (filter (fun x => negb (existsb (Py.eqb x) seen))
              (identifiers pos l))).
Proof.
  induction l as [|r0 t IH]; intros pos seen; simpl; auto.
  set (id0 := identifier_of pos r0).
  destruct (existsb (Py.eqb id0) seen) eqn:Hs; simpl.
  - rewrite total_occurrences_cons; [apply IH|].
    intros k r H. apply first_occurrences_unseen in H.
    destruct (Py.eqb k id0) eqn:E; auto.
    rewrite (existsb_eqb_compat _ _ seen E) in H. congruence.
  - rewrite occurrences_cons, eqb_refl.
    rewrite total_occurrences_cons.
    + rewrite IH. unfold occurrences.
      pose proof (@split_unseen id0 seen (identifiers (S pos) t) Hs). lia.
    + intros k r H. apply first_occurrences_unseen in H.
      rewrite existsb_app in H. apply orb_false_iff in H as [_ H].
      simpl in H. now rewrite orb_false_r in H.
Qed.

Lemma identifiers_length (l : list Py.record) (pos : nat) :
  List.length (identifiers pos l) = List.length l.
Proof. revert pos. induction l; intros; simpl; auto. Qed.

(** X3. Whenever [_deduplicate_vulnerabilities] returns, the
    [nb_occurences] counts of the records it returns add up to the
    number of records of the batch: no record is lost or counted
    twice. *)
Theorem X3_dedup_counts_add_up (l out : list Py.record) :
  _deduplicate_vulnerabilities l = Some out ->
  nb_occurences_total out = Z.of_nat (List.length l).
Proof.
  intros H.
  assert (Hh : forall k, In k (identifiers 0 l) -> Py.hashable k = true).
  { intros k Hin. destruct (Py.hashable k) eqn:E; auto.
    assert (N : dedup_loop 0 l [] [] = None)
      by (apply dedup_loop_raises; eauto).
    unfold _deduplicate_vulnerabilities in H. rewrite N in H. discriminate. }
  rewrite (dedup_correct l Hh) in H. injection H as <-.
  unfold deduplicated.
  transitivity (total_occurrences (first_occurrences 0 l [])
                  (identifiers 0 l)).
  - generalize (identifiers 0 l) as ids.
    induction (first_occurrences 0 l []) as [|[k r] t IH]; intros ids;
      simpl; auto.
    unfold Py.get, Py.get_default. rewrite lookup_set_same.
    now rewrite IH.
  - rewrite total_first_occurrences, <- (identifiers_length l 0).
    f_equal. f_equal.
    generalize (identifiers 0 l) as ids.
    induction ids as [|x t IH]; [reflexivity|].
    simpl in *. now f_equal.
Qed.

End DedupMore.

(** ** The order that [sorted] establishes *)

Section SortedOrder.
Variable A : Type.
Variable lt : A -> A -> option bool.
Variable R : A -> A -> Prop.
Hypothesis R_lt : forall y x, lt y x = Some true -> R y x.
Hypothesis R_ge : forall y x, lt y x = Some false -> R x y.

Lemma insert_hd (x : A) (l r : list A) (a : A) :
  Py.insert lt x l = Some r -> R a x -> HdRel R a l -> HdRel R a r.
Proof.
  destruct l as [|y ys]; simpl; intros H Rx Hd.
  - injection H as <-. now constructor.
  - destruct (lt y x) as [[|]|]; try discriminate.
    + destruct (Py.insert lt x ys); [|discriminate].
      injection H as <-. constructor. now inversion Hd.
    + injection H as <-. now constructor.
Qed.

Lemma insert_sorted (x : A) (l r : list A) :
  Py.insert lt x l = Some r -> Sorted R l -> Sorted R r.
Proof.
  revert r. induction l as [|y ys IH]; simpl; intros r H So.
  - injection H as <-. repeat constructor.
  - destruct (lt y x) as [[|]|] eqn:E; try discriminate.
    + destruct (Py.insert lt x ys) as [r'|] eqn:I; [|discriminate].
      injection H as <-. inversion So as [|? ? So' Hd]; subst.
      constructor; [now apply IH|].
      eapply insert_hd; eauto.
    + injection H as <-. constructor; [exact So|].
      constructor. now apply R_ge.
Qed.

Lemma sorted_sorted (l r : list A) :
  Py.sorted lt l = Some r -> Sorted R r.
Proof.
  revert r. induction l as [|x l IH]; simpl; intros r H.
  - injection H as <-. constructor.
  - destruct (Py.sorted lt l) as [r'|]; [|discriminate].
    eapply insert_sorted; eauto.
Qed.

End SortedOrder.

Lemma Sorted_adjacent {A : Type} (R : A -> A -> Prop) (l : list A) :
  Sorted R l ->
  forall i a b, nth_error l i = Some a -> nth_error l (S i) = Some b -> R a b.
Proof.
  induction 1 as [|x l So IH Hd]; intros i a b Ha Hb.
  - destruct i; discriminate.
  - destruct i as [|i]; simpl in *.
    + injection Ha as <-. destruct l as [|y l]; [discriminate|].
      simpl in Hb. injection Hb as <-. now inversion Hd.
    + eapply IH; eauto.
Qed.

Lemma StronglySorted_nth {A : Type} (R : A -> A -> Prop) (l : list A) :
  StronglySorted R l ->
  forall i j a b, (i < j)%nat ->
    nth_error l i = Some a -> nth_error l j = Some b -> R a b.
Proof.
  induction 1 as [|x l So IH Fa]; intros i j a b L Ha Hb.
  - destruct i; discriminate.
  - destruct j as [|j]; [lia|]. simpl in Hb.
    destruct i as [|i]; simpl in Ha.
    + injection Ha as <-. rewrite Forall_forall in Fa.
      apply Fa. eapply nth_error_In; eauto.
    + eapply IH; [|eassumption|eassumption]. lia.
Qed.

(** ** The primary sort *)

Section PrimarySort.
Import prioritizer.

Lemma sort_key_score_lt (a b : item) :
  sort_key_ltb (sort_key a) (sort_key b) = Some true ->
  score_of b <= score_of a.
Proof.
  unfold sort_key_ltb, sort_key. cbn [fst snd].
  destruct (Qeq_bool _ _) eqn:E; simpl.
  - intros _. apply Qeq_bool_eq in E. lra.
  - intros H. injection H as H. apply Qltb_true in H. lra.
Qed.

Lemma sort_key_score_ge (a b : item) :
  sort_key_ltb (sort_key a) (sort_key b) = Some false ->
  score_of a <= score_of b.
Proof.
  unfold sort_key_ltb, sort_key. cbn [fst snd].
  destruct (Qeq_bool _ _) eqn:E; simpl.
  - intros _. apply Qeq_bool_eq in E. lra.
  - intros H. injection H as H. apply Qltb_false in H. lra.
Qed.

Lemma sort_key_asym (a b : Q * list Py.value) :
  sort_key_ltb a b = Some true -> sort_key_ltb b a = Some false.
Proof.
  intros H. destruct (sort_key_trichotomy _ _ H) as (y & Hy & T).
  destruct (sort_key_eqb a b); [destruct T; discriminate|].
  now subst y.
Qed.

(** The primary sort leaves the scores in non-increasing order. *)
Lemma primary_sort_by_score (results out : list item) :
  primary_sort results = Some out ->
  forall i j a b, (i < j)%nat ->
    nth_error out i = Some a -> nth_error out j = Some b ->
    score_of b <= score_of a.
Proof.
  intros H. unfold primary_sort in H.
  apply StronglySorted_nth. apply Sorted_StronglySorted.
  - intros a b c. simpl. lra.
  - eapply (@sorted_sorted item _ (fun a b => score_of b <= score_of a));
      [| |exact H]; simpl.
    + intros y x. apply sort_key_score_lt.
    + intros y x. apply sort_key_score_ge.
Qed.

(** X4. Whenever the primary sort of [process_vulnerabilities] returns,
    its result is a permutation of the scored records, the RPI never
    increases along it, and no record is strictly before its
    predecessor in the order of the sort key (RPI descending, then
    tie-breaker key ascending). *)
Theorem X4_primary_sort_orders_by_score (results out : list item) :
  primary_sort results = Some out ->
  Permutation results out
  /\ (forall i j a b, (i < j)%nat ->
        nth_error out i = Some a -> nth_error out j = Some b ->
        score_of b <= score_of a)
  /\ (forall i a b,
        nth_error out i = Some a -> nth_error out (S i) = Some b ->
        sort_key_ltb (sort_key b) (sort_key a) = Some false).
Proof.
  intros H. split; [|split].
  - eapply sorted_perm; exact H.
  - now apply primary_sort_by_score with results.
  - apply (@Sorted_adjacent item
             (fun a b => sort_key_ltb (sort_key b) (sort_key a) = Some false)).
    eapply sorted_sorted; [| |exact H]; simpl.
    + intros y x. apply sort_key_asym.
    + intros y x E. exact E.
Qed.

End PrimarySort.

(** ** The funnel: which group, in which order *)

Section Spread.
Import prioritizer.

Lemma fold_max_ge (t : list Q) :
  forall x, x <= fold_left Py.max t x
            /\ forall y, In y t -> y <= fold_left Py.max t x.
Proof.
  induction t as [|z t IH]; intros x; simpl.
  - split; [lra | intros y []].
  - destruct (IH (Py.max x z)) as [I1 I2]. split.
    + eapply Qle_trans; [apply max_ge_l | exact I1].
    + intros y [<-|Hy]; [|auto].
      eapply Qle_trans; [apply max_ge_r | exact I1].
Qed.

Lemma fold_min_le (t : list Q) :
  forall x, fold_left Py.min t x <= x
            /\ forall y, In y t -> fold_left Py.min t x <= y.
Proof.
  induction t as [|z t IH]; intros x; simpl.
  - split; [lra | intros y []].
  - destruct (IH (Py.min x z)) as [I1 I2]. split.
    + eapply Qle_trans; [exact I1 | apply min_le_l].
    + intros y [<-|Hy]; [|auto].
      eapply Qle_trans; [exact I1 | apply min_le_r].
Qed.

Lemma list_max_ge (vals : list Q) (y : Q) :
  In y vals -> y <= list_max vals.
Proof.
  destruct vals as [|x t]; simpl; [intros []|].
  destruct (fold_max_ge t x) as [I1 I2].
  intros [<-|H]; auto.
Qed.

Lemma list_min_le (vals : list Q) (y : Q) :
  In y vals -> list_min vals <= y.
Proof.
  destruct vals as [|x t]; simpl; [intros []|].
  destruct (fold_min_le t x) as [I1 I2].
  intros [<-|H]; auto.
Qed.

(** Two records of a group that qualifies differ by at most the
    epsilon. *)
Lemma qualifies_spread (thr : Z) (eps : Q) (head : list item)
  (idxs : list nat) (p q : nat) (a b : item) :
  qualifies thr eps head idxs = true ->
  In p idxs -> In q idxs ->
  nth_error head p = Some a -> nth_error head q = Some b ->
  score_of a - score_of b <= eps.
Proof.
  unfold qualifies, spread. intros Q Hp Hq Ha Hb.
  apply andb_true_iff in Q as [_ Q]. apply Qle_bool_iff in Q.
  set (f := fun i => match nth_error head i with
                     | Some v => score_of v
                     | None => 0.0
                     end) in *.
  assert (A : score_of a <= list_max (map f idxs)).
  { apply list_max_ge. apply in_map_iff. exists p. split; auto.
    unfold f. now rewrite Ha. }
  assert (B : list_min (map f idxs) <= score_of b).
  { apply list_min_le. apply in_map_iff. exists q. split; auto.
    unfold f. now rewrite Hb. }
  lra.
Qed.

End Spread.

Section FunnelMore.
Context {rt : Py.PyRuntime}.
Import prioritizer FunnelSpec.

Lemma group_of_in (key : Q) (g : list (Q * list nat)) :
  group_of key g <> [] -> exists k, In (k, group_of key g) g.
Proof.
  induction g as [|[k idxs] rest IH]; simpl; [congruence|].
  destruct (Qeq_bool key k).
  - intros _. exists k. now left.
  - intros N. destruct (IH N) as [k' H]. exists k'. now right.
Qed.

Lemma positions_in_groups (key : Q) (head : list item) :
  positions_with key 0 head <> [] ->
  exists k, In (k, positions_with key 0 head) (build_groups 0 head []).
Proof.
  intros N.
  pose proof (group_of_build key head 0 []) as G. simpl in G.
  rewrite <- G in N |- *. now apply group_of_in.
Qed.

(** The loop of [pick_candidate], from any candidate: it ends on a
    group at least as large as the candidate it started from and as
    every qualifying group it went through. *)
Lemma pick_candidate_fold (thr : Z) (eps : Q) (head : list item)
  (groups : list (Q * list nat)) :
  forall init,
    let r :=
      fold_left
        (fun candidate g =>
           let idxs := snd g in
           if qualifies thr eps head idxs then
             match candidate with
             | None => Some idxs
             | Some c0 =>
                 if (List.length c0 <? List.length idxs)%nat
                 then Some idxs else candidate
             end
           else candidate) groups init in
    (forall c0, init = Some c0 ->
       exists c, r = Some c /\ (List.length c0 <= List.length c)%nat)
    /\ (forall k g, In (k, g) groups -> qualifies thr eps head g = true ->
          exists c, r = Some c /\ (List.length g <= List.length c)%nat).
Proof.
  induction groups as [|[k0 g0] rest IH]; intros init; simpl.
  - split; [intros c0 ->; eauto | intros k g []].
  - match goal with
    | |- context [fold_left _ rest ?i] =>
        destruct (IH i) as [I1 I2]; set (ini := i) in *
    end.
    split.
    + intros c0 ->. subst ini. simpl in *.
      destruct (qualifies thr eps head g0).
      * destruct (List.length c0 <? List.length g0)%nat eqn:L.
        -- destruct (I1 _ eq_refl) as (c & -> & Hc). exists c. split; auto.
           apply Nat.ltb_lt in L. lia.
        -- apply I1. reflexivity.
      * apply I1. reflexivity.
    + intros k g [E|Hin] Q.
      * injection E as <- <-. subst ini. simpl in *. rewrite Q in *.
        destruct init as [c0|].
        -- destruct (List.length c0 <? List.length g0)%nat eqn:L.
           ++ apply I1. reflexivity.
           ++ destruct (I1 _ eq_refl) as (c & -> & Hc). exists c. split; auto.
              apply Nat.ltb_ge in L. lia.
        -- apply I1. reflexivity.
      * eapply I2; eauto.
Qed.

(** X5. The group that the funnel re-ranks qualifies (at least
    [funnel_threshold] records of the head with one same rounded RPI, a
    spread within the epsilon) and no qualifying group of the head is
    larger; and when the funnel selects no group, no group of the head
    qualifies. *)
Theorem X5_funnel_picks_largest_group (cfg : models.ProcessingConfig)
  (prioritized : list item) :
  let head := head_of cfg prioritized in
  let qualifying idxs :=
    qualifies (funnel_thr cfg) (funnel_eps cfg) head idxs = true in
  match funnel_candidate cfg prioritized with
  | Some group =>
      qualifying group
      /\ forall key, qualifying (positions_with key 0 head) ->
           (List.length (positions_with key 0 head) <= List.length group)%nat
  | None =>
      forall key, positions_with key 0 head <> [] ->
        ~ qualifying (positions_with key 0 head)
  end.
Proof.
  intros head qualifying.
  assert (Max : forall key,
             positions_with key 0 head <> [] ->
             qualifying (positions_with key 0 head) ->
             exists c,
               pick_candidate (funnel_thr cfg) (funnel_eps cfg) head
                 (build_groups 0 head []) = Some c
               /\ (List.length (positions_with key 0 head)
                   <= List.length c)%nat).
  { intros key N Q. destruct (positions_in_groups key head N) as [k Hin].
    destruct (pick_candidate_fold (funnel_thr cfg) (funnel_eps cfg) head
                (build_groups 0 head []) None) as [_ I2].
    exact (I2 _ _ Hin Q). }
  destruct (funnel_candidate cfg prioritized) as [group|] eqn:C.
  - destruct (funnel_candidate_positions _ _ C) as (k & E & N & Q).
    split; [exact Q|].
    intros key Qk.
    destruct (positions_with key 0 head) as [|p ps] eqn:Ep; [simpl; lia|].
    rewrite <- Ep in *.
    destruct (Max key) as (c & Pc & Lc); [rewrite Ep; discriminate|exact Qk|].
    unfold funnel_candidate in C. fold (head_of cfg prioritized) in C.
    fold head in C. rewrite Pc in C.
    destruct c; [discriminate|]. injection C as <-. exact Lc.
  - intros key N Qk.
    destruct (Max key N Qk) as (c & Pc & Lc).
    unfold funnel_candidate in C. fold (head_of cfg prioritized) in C.
    fold head in C. rewrite Pc in C.
    destruct c as [|i c]; [|discriminate].
    destruct (positions_with key 0 head); [congruence | simpl in Lc; lia].
Qed.



(** What a run of the funnel that returns has done: nothing, or the
    local sort of the candidate group written back to its positions. *)
Lemma funnel_shape (cfg : models.ProcessingConfig)
  (prioritized out : list item) :
  _apply_funneling_if_needed cfg prioritized = Some out ->
  out = prioritized
  \/ exists group re_sorted,
       funnel_candidate cfg prioritized = Some group
       /\ Py.sorted
            (fun x y => reorder_key_ltb (reorder_key_of cfg x) (reorder_key_of cfg y))
            (flat_map (fun i => match nth_error (head_of cfg prioritized) i with
                                | Some v => [v]
                                | None => []
                                end) group) = Some re_sorted
       /\ map (nth_error out) group = map Some re_sorted
       /\ Permutation (map (nth_error prioritized) group) (map Some re_sorted)
       /\ (forall p, ~ In p group ->
             nth_error out p = nth_error prioritized p).
Proof.
  intros H. unfold _apply_funneling_if_needed in H.
  destruct (negb _); [left; congruence|].
  destruct prioritized as [|v0 rest] eqn:EP; [left; congruence|].
  rewrite <- EP in *. clear EP v0 rest.
  destruct (funnel_candidate cfg prioritized) as [idxs|] eqn:C;
    [|left; congruence].
  cbv zeta in H. fold (head_of cfg prioritized) in H.
  set (head := head_of cfg prioritized) in *.
  destruct (funnel_candidate_positions _ _ C) as (key & E & _ & _).
  fold head in E.
  destruct (_reorder_equal_group cfg _) as [re_sorted|] eqn:R;
    [|discriminate].
  injection H as <-.
  apply reorder_group_sorted in R. right. exists idxs, re_sorted.
  assert (Rg : forall i, In i idxs -> (i < List.length head)%nat).
  { intros i Hi. rewrite E in Hi. apply positions_range in Hi. lia. }
  assert (Nd : NoDup idxs) by (rewrite E; apply positions_NoDup).
  pose proof (sorted_perm _ _ R) as P.
  assert (Lb : List.length re_sorted = List.length idxs).
  { rewrite <- (Permutation_length P).
    rewrite <- (length_map Some), block_of_positions by assumption.
    apply length_map. }
  assert (Hd : forall p, (p < List.length head)%nat ->
                         nth_error head p = nth_error prioritized p).
  { intros p L. apply nth_error_slice_to. exact L. }
  split; [reflexivity|]. split; [exact R|]. split; [|split].
  - rewrite <- (splice_at head re_sorted Nd Rg Lb).
    apply map_ext_in. intros i Hi.
    apply nth_error_app1. rewrite splice_length. auto.
  - replace (map (nth_error prioritized) idxs)
      with (map Some
              (flat_map (fun i => match nth_error head i with
                                  | Some v => [v]
                                  | None => []
                                  end) idxs)).
    + now apply Permutation_map.
    + rewrite block_of_positions by assumption.
      apply map_ext_in. intros i Hi. auto.
  - intros p Np.
    transitivity
      (nth_error
         (head ++ slice_from prioritized (funnel_top_k cfg prioritized))%list
         p);
      [|unfold head, head_of; now rewrite slice_parts].
    destruct (Nat.lt_ge_cases p (List.length head)) as [L|G].
    + rewrite !nth_error_app1 by (rewrite ?splice_length; exact L).
      now apply splice_other.
    + rewrite !nth_error_app2 by (rewrite ?splice_length; exact G).
      now rewrite splice_length.
Qed.


Lemma in_map_nth {A : Type} (l : list A) (idxs : list nat) (p : nat) :
  In p idxs -> In (nth_error l p) (map (nth_error l) idxs).
Proof. intros H. apply in_map_iff. eauto. Qed.

(** On a list in non-increasing order of RPI, the funnel leaves an
    order that is non-increasing up to the epsilon. *)
Lemma funnel_order_eps (cfg : models.ProcessingConfig)
  (prioritized out : list item) :
  0 <= funnel_eps cfg ->
  (forall i j a b, (i < j)%nat ->
     nth_error prioritized i = Some a -> nth_error prioritized j = Some b ->
     score_of b <= score_of a) ->
  _apply_funneling_if_needed cfg prioritized = Some out ->
  forall i j a b, (i < j)%nat ->
    nth_error out i = Some a -> nth_error out j = Some b ->
    score_of b <= score_of a + funnel_eps cfg.
Proof.
  intros Eps So H i j a b L Ha Hb.
  destruct (funnel_shape _ _ H) as [->|(group & re & C & _ & M & P & F)].
  { pose proof (So i j a b L Ha Hb). lra. }
  destruct (funnel_candidate_positions _ _ C) as (key & E & _ & Q).
  set (head := head_of cfg prioritized) in *.
  assert (Hd : forall p, In p group ->
                         nth_error head p = nth_error prioritized p).
  { intros p Hp. apply nth_error_slice_to.
    rewrite E in Hp. apply positions_range in Hp.
    unfold head, head_of in Hp. lia. }
  assert (Back : forall p x, In p group -> nth_error out p = Some x ->
                             exists p', In p' group
                                        /\ nth_error prioritized p' = Some x).
  { intros p x Hp Hx.
    assert (I : In (Some x) (map (nth_error prioritized) group)).
    { eapply Permutation_in; [apply Permutation_sym, P|].
      rewrite <- M, <- Hx. now apply in_map_nth. }
    apply in_map_iff in I as (p' & Hx' & Hp'). eauto. }
  assert (Was : forall p, In p group ->
                          exists x, nth_error prioritized p = Some x).
  { intros p Hp. rewrite <- (Hd p Hp).
    rewrite E in Hp. apply positions_key in Hp as (v & Hv & _).
    rewrite Nat.sub_0_r in Hv. eauto. }
  assert (Sp : forall p q x y, In p group -> In q group ->
                 nth_error prioritized p = Some x ->
                 nth_error prioritized q = Some y ->
                 score_of x - score_of y <= funnel_eps cfg).
  { intros p q x y Hp Hq Hx Hy.
    apply (qualifies_spread _ _ _ _ p q Q); auto;
      rewrite Hd; auto. }
  destruct (in_dec Nat.eq_dec i group) as [Gi|Ni],
      (in_dec Nat.eq_dec j group) as [Gj|Nj].
  - destruct (Back i a Gi Ha) as (i' & Gi' & Ha').
    destruct (Back j b Gj Hb) as (j' & Gj' & Hb').
    pose proof (Sp j' i' b a Gj' Gi' Hb' Ha'). lra.
  - destruct (Back i a Gi Ha) as (i' & Gi' & Ha').
    rewrite (F j Nj) in Hb.
    destruct (Was i Gi) as (x & Hx).
    pose proof (So i j x b L Hx Hb).
    pose proof (Sp i i' x a Gi Gi' Hx Ha'). lra.
  - destruct (Back j b Gj Hb) as (j' & Gj' & Hb').
    rewrite (F i Ni) in Ha.
    destruct (Was j Gj) as (y & Hy).
    pose proof (So i j a y L Ha Hy).
    pose proof (Sp j' j b y Gj' Gj Hb' Hy). lra.
  - rewrite (F i Ni) in Ha. rewrite (F j Nj) in Hb.
    pose proof (So i j a b L Ha Hb). lra.
Qed.

(** X7. On a list in non-increasing order of RPI and with an epsilon
    that is not negative, the funnel returns a list whose RPI is
    non-increasing up to the epsilon: a record never stands before one
    whose RPI exceeds its own by more than [funnel_equal_epsilon]. *)
Theorem X7_funnel_keeps_order_within_epsilon (cfg : models.ProcessingConfig)
  (prioritized out : list item) :
  0 <= funnel_eps cfg ->
  (forall i j a b, (i < j)%nat ->
     nth_error prioritized i = Some a -> nth_error prioritized j = Some b ->
     score_of b <= score_of a) ->
  _apply_funneling_if_needed cfg prioritized = Some out ->
  forall i j a b, (i < j)%nat ->
    nth_error out i = Some a -> nth_error out j = Some b ->
    score_of b <= score_of a + funnel_eps cfg.
Proof. apply funnel_order_eps. Qed.

(** X8. One record whose effort cannot be read aborts the funnel.  When
    the group that an enabled funnel re-ranks holds a scored record
    whose [effort_for_fixing] reads, once stripped, as a text that
    [isdigit] accepts and [float] rejects (a superscript digit), and the
    TOPSIS score is in use, the funnel raises: [_parse_effort] calls
    [float] outside its [try]. *)
Theorem X8_funnel_aborts_on_unreadable_effort (cfg : models.ProcessingConfig)
  (prioritized : list item) (group : list nat) (p : nat) (v : item) :
  match models.funnel_enabled cfg with Some b => b | None => true end = true ->
  match models.mcdm_use_topsis cfg with Some b => b | None => true end = true ->
  funnel_candidate cfg prioritized = Some group ->
  In p group -> nth_error prioritized p = Some v ->
  rpi_metrics v <> None ->
  let effort := Py.get (fields v) "effort_for_fixing" in
  effort <> Py.VNone ->
  Py.isdigit (Py.lower (Py.strip (Py.str effort))) = true ->
  Py.float_of_string (Py.lower (Py.strip (Py.str effort))) = None ->
  _apply_funneling_if_needed cfg prioritized = None.
Proof.
  intros En Tp C Hp Hv Hm effort Ne Dg Fl.
  assert (Pe : _parse_effort effort = None).
  { unfold _parse_effort. rewrite Dg, Fl. now destruct effort. }
  assert (N : _local_topsis_score cfg v = None).
  { unfold _local_topsis_score. rewrite Tp. simpl.
    destruct (rpi_metrics v) as [m|]; [|now elim Hm].
    fold effort. now rewrite Pe. }
  unfold _apply_funneling_if_needed. rewrite En. simpl.
  destruct prioritized as [|v0 rest] eqn:EP; [now destruct p|].
  rewrite <- EP in *. clear EP v0 rest.
  rewrite C. cbv zeta.
  fold (head_of cfg prioritized).
  set (head := head_of cfg prioritized) in *.
  destruct (funnel_candidate_positions _ _ C) as (key & E & _ & _).
  fold head in E.
  assert (L : (p < List.length head)%nat).
  { rewrite E in Hp. apply positions_range in Hp. lia. }
  assert (Hh : nth_error head p = Some v).
  { unfold head, head_of. rewrite nth_error_slice_to; [exact Hv | exact L]. }
  rewrite (@reorder_group_raises _ cfg _ v); [reflexivity| |exact N].
  apply in_flat_map. exists p. split; [exact Hp|].
  rewrite Hh. now left.
Qed.

Lemma update_middle {A : Type} (pre : list A) (v x : A) (t : list A) :
  update (List.length pre) x (pre ++ v :: t) = (pre ++ x :: t)%list.
Proof. induction pre as [|p pre IH]; simpl; [reflexivity | now rewrite IH]. Qed.

Lemma splice_refill (key : Q) (h : list item) :
  forall pre xs,
    splice (pre ++ h) (positions_with key (List.length pre) h) xs
    = (pre ++ refill key h xs)%list.
Proof.
  induction h as [|v t IH]; intros pre xs; simpl.
  - now destruct xs.
  - destruct xs as [|x xs'].
    + now destruct (if Qeq_bool _ _ then _ else _).
    + destruct (Qeq_bool key (Py.round2 (score_of v))); simpl.
      * rewrite update_middle.
        replace (pre ++ x :: t)%list with ((pre ++ [x]) ++ t)%list
          by (now rewrite <- app_assoc).
        replace (S (List.length pre)) with (List.length (pre ++ [x]))
          by (rewrite length_app; simpl; lia).
        rewrite IH. now rewrite <- app_assoc.
      * replace (pre ++ v :: t)%list with ((pre ++ [v]) ++ t)%list
          by (now rewrite <- app_assoc).
        replace (S (List.length pre)) with (List.length (pre ++ [v]))
          by (rewrite length_app; simpl; lia).
        rewrite IH. now rewrite <- app_assoc.
Qed.

Lemma block_is_filter (key : Q) (h : list item) :
  forall pre,
    flat_map (fun i => match nth_error (pre ++ h) i with
                       | Some v => [v]
                       | None => []
                       end) (positions_with key (List.length pre) h)
    = filter (fun v => Qeq_bool key (Py.round2 (score_of v))) h.
Proof.
  induction h as [|v t IH]; intros pre; simpl; auto.
  specialize (IH (pre ++ [v])%list).
  rewrite <- app_assoc, length_app in IH. simpl in IH.
  rewrite Nat.add_1_r in IH.
  destruct (Qeq_bool key (Py.round2 (score_of v))); simpl.
  - rewrite nth_error_app2, Nat.sub_diag by lia. simpl. now f_equal.
  - exact IH.
Qed.

Lemma refill_perm (key : Q) (h : list item) :
  forall xs,
    List.length xs
    = List.length (filter (fun v => Qeq_bool key (Py.round2 (score_of v))) h) ->
    Permutation (refill key h xs)
      (xs ++ filter (fun v => negb (Qeq_bool key (Py.round2 (score_of v)))) h).
Proof.
  induction h as [|v t IH]; intros xs L; simpl in *.
  - destruct xs; [constructor | discriminate].
  - destruct (Qeq_bool key (Py.round2 (score_of v))) eqn:E; simpl in *.
    + destruct xs as [|x xs']; [discriminate|]. simpl.
      apply perm_skip. apply IH. now injection L.
    + destruct xs as [|x xs'].
      * simpl. apply perm_skip.
        replace t with (refill key t []) at 1 by (now destruct t).
        apply (IH []). exact L.
      * eapply Permutation_trans; [apply perm_skip, (IH (x :: xs') L)|].
        apply (Permutation_middle (x :: xs')).
Qed.

Lemma partition_perm {A : Type} (p : A -> bool) (l : list A) :
  Permutation l (filter p l ++ filter (fun v => negb (p v)) l).
Proof.
  induction l as [|v t IH]; simpl; [constructor|].
  destruct (p v); simpl.
  - now apply perm_skip.
  - eapply Permutation_trans; [apply perm_skip, IH|].
    apply Permutation_middle.
Qed.

(** The funnel returns a permutation of its input. *)
Lemma funnel_perm (cfg : models.ProcessingConfig)
  (prioritized out : list item) :
  _apply_funneling_if_needed cfg prioritized = Some out ->
  Permutation prioritized out.
Proof.
  unfold _apply_funneling_if_needed.
  destruct (negb _); [intros H; injection H as <-; apply Permutation_refl|].
  destruct prioritized as [|v0 rest] eqn:EP;
    [intros H; injection H as <-; apply Permutation_refl|].
  rewrite <- EP. clear EP v0 rest.
  destruct (funnel_candidate cfg prioritized) as [idxs|] eqn:C;
    [|intros H; injection H as <-; apply Permutation_refl].
  cbv zeta. fold (head_of cfg prioritized).
  set (head := head_of cfg prioritized).
  destruct (funnel_candidate_positions _ _ C) as (key & E & _ & _).
  fold head in E.
  destruct (_reorder_equal_group cfg _) as [re_sorted|] eqn:R;
    [|discriminate].
  apply reorder_group_sorted in R.
  intros H. injection H as <-.
  rewrite <- (slice_parts prioritized (funnel_top_k cfg prioritized)) at 1.
  fold (head_of cfg prioritized). fold head.
  apply Permutation_app_tail.
  pose proof (sorted_perm _ _ R) as P.
  rewrite E in P |- *.
  pose proof (block_is_filter key head []) as B. simpl in B.
  rewrite B in P.
  pose proof (splice_refill key head [] re_sorted) as Sp. simpl in Sp.
  rewrite Sp.
  eapply Permutation_trans; [apply (partition_perm
    (fun v => Qeq_bool key (Py.round2 (score_of v))))|].
  eapply Permutation_trans; [apply Permutation_app_tail, P|].
  apply Permutation_sym, refill_perm.
  symmetry. now apply Permutation_length.
Qed.

End FunnelMore.

(** ** The pipeline *)

Section Pipeline.
Context {rt : Py.PyRuntime}.
Import prioritizer.

(** The stages of a run of [process_vulnerabilities] that returns. *)
Lemma pipeline_stages (self : VulnerabilityPrioritizer)
  (completion : list nat) (vuln_list : list Py.record) (out : list item) :
  process_vulnerabilities self completion vuln_list = Some out ->
  exists unique_vulns,
    _deduplicate_vulnerabilities vuln_list = Some unique_vulns
    /\ ((collected self completion unique_vulns = [] /\ out = [])
        \/ exists sorted_results,
             primary_sort (collected self completion unique_vulns)
             = Some sorted_results
             /\ _apply_funneling_if_needed (config self) sorted_results
                = Some out).
Proof.
  unfold process_vulnerabilities.
  destruct (_deduplicate_vulnerabilities vuln_list) as [unique|];
    [|discriminate].
  destruct unique as [|u0 us] eqn:EU; [discriminate|].
  rewrite <- EU. clear EU u0 us.
  fold (collected self completion unique).
  destruct (collected self completion unique) as [|x0 xs] eqn:ER.
  - intros H. injection H as <-. exists unique. split; auto.
  - rewrite <- ER. clear ER x0 xs.
    destruct (primary_sort _) as [sorted_results|] eqn:So; [|discriminate].
    destruct (_apply_funneling_if_needed _ _) as [funneled|] eqn:F;
      [|discriminate].
    destruct funneled as [|top rest] eqn:EF; [discriminate|].
    rewrite <- EF in *. clear EF.
    destruct (q2_calculator.sliceable _); [|discriminate].
    intros H. injection H as <-. exists unique. split; auto.
    right. eauto.
Qed.

Lemma collected_scored (self : VulnerabilityPrioritizer)
  (completion : list nat) (unique_vulns : list Py.record) (x : item) :
  In x (collected self completion unique_vulns) ->
  exists r res,
    In r unique_vulns
    /\ process_vulnerability_worker self r = Some res
    /\ x = annotate res.
Proof.
  unfold collected. intros H. apply in_flat_map in H as (i & _ & H).
  destruct (nth_error _ i) as [[res|]|] eqn:E;
    [|contradiction|contradiction].
  destruct H as [<-|[]].
  rewrite nth_error_map in E.
  destruct (nth_error unique_vulns i) as [r|] eqn:Er; [|discriminate].
  simpl in E. injection E as E.
  exists r, res. repeat split; auto. eapply nth_error_In; eauto.
Qed.

Lemma collected_length (self : VulnerabilityPrioritizer)
  (completion : list nat) (unique_vulns : list Py.record) :
  (List.length (collected self completion unique_vulns)
   <= List.length completion)%nat.
Proof.
  unfold collected. induction completion as [|i t IH]; simpl; auto.
  rewrite length_app.
  destruct (nth_error _ i) as [[res|]|]; simpl; lia.
Qed.

Lemma worker_score_range (self : VulnerabilityPrioritizer)
  (r : Py.record) (res : Py.record * models.VulnerabilityMetrics) :
  process_vulnerability_worker self r = Some res ->
  0 <= score_of (annotate res) <= 100.
Proof.
  unfold process_vulnerability_worker.
  destruct (_ && _); [discriminate|].
  intros H. destruct res as [r' m]. open_rpi H.
  unfold score_of. simpl. split.
  - eapply Qle_trans; [|apply max_ge_l]; lra.
  - apply max_lub; [lra | eapply Qle_trans; [apply min_le_l | lra]].
Qed.

(** What [process_vulnerabilities] returns: a permutation of the
    records that the workers scored. *)
Lemma pipeline_scored (self : VulnerabilityPrioritizer)
  (completion : list nat) (vuln_list : list Py.record) (out : list item) :
  process_vulnerabilities self completion vuln_list = Some out ->
  exists unique_vulns,
    _deduplicate_vulnerabilities vuln_list = Some unique_vulns
    /\ Permutation (collected self completion unique_vulns) out
    /\ (List.length out <= List.length completion)%nat
    /\ forall x, In x out ->
         exists r res,
           In r unique_vulns
           /\ process_vulnerability_worker self r = Some res
           /\ x = annotate res
           /\ 0 <= score_of x <= 100.
Proof.
  intros H. destruct (pipeline_stages _ _ _ H) as (unique & D & S).
  exists unique. split; [exact D|].
  assert (P : Permutation (collected self completion unique) out).
  { destruct S as [[-> ->]|(sorted_results & So & F)]; [constructor|].
    eapply Permutation_trans;
      [eapply sorted_perm; exact So | eapply funnel_perm; exact F]. }
  split; [exact P|]. split.
  - rewrite <- (Permutation_length P). apply collected_length.
  - intros x Hx.
    apply (Permutation_in _ (Permutation_sym P)) in Hx.
    destruct (collected_scored _ _ _ _ Hx) as (r & res & Hr & W & ->).
    exists r, res. repeat split; auto; eapply worker_score_range; eauto.
Qed.

(** X9. Whenever [process_vulnerabilities] returns, deduplication
    returned, and the result is a permutation of the records that the
    workers scored on the deduplicated batch, in the order of
    completion: it has at most one record per completed task, and each
    of its records is a deduplicated record that a worker accepted and
    annotated, with an RPI in [0, 100].  Nothing is invented and
    nothing scored is dropped. *)
Theorem X9_pipeline_returns_scored_records (self : VulnerabilityPrioritizer)
  (completion : list nat) (vuln_list : list Py.record) (out : list item) :
  process_vulnerabilities self completion vuln_list = Some out ->
  exists unique_vulns,
    _deduplicate_vulnerabilities vuln_list = Some unique_vulns
    /\ Permutation (collected self completion unique_vulns) out
    /\ (List.length out <= List.length completion)%nat
    /\ forall x, In x out ->
         exists r res,
           In r unique_vulns
           /\ process_vulnerability_worker self r = Some res
           /\ x = annotate res
           /\ 0 <= score_of x <= 100.
Proof. apply pipeline_scored. Qed.

(** X10. Whenever [process_vulnerabilities] returns under an epsilon
    that is not negative, the RPI of the records it returns is
    non-increasing up to [funnel_equal_epsilon]: the primary sort
    orders by RPI and the funnel only moves records within a group
    whose RPI differ by at most the epsilon. *)
Theorem X10_pipeline_order_within_epsilon (self : VulnerabilityPrioritizer)
  (completion : list nat) (vuln_list : list Py.record) (out : list item) :
  0 <= funnel_eps (config self) ->
  process_vulnerabilities self completion vuln_list = Some out ->
  forall i j a b, (i < j)%nat ->
    nth_error out i = Some a -> nth_error out j = Some b ->
    score_of b <= score_of a + funnel_eps (config self).
Proof.
  intros Eps H. destruct (pipeline_stages _ _ _ H) as (unique & D & S).
  destruct S as [[_ ->]|(sorted_results & So & F)].
  - intros [|i] j a b _ Ha; discriminate Ha.
  - eapply funnel_order_eps; [exact Eps| |exact F].
    now apply primary_sort_by_score with (collected self completion unique).
Qed.

End Pipeline.

(** ** The score of a record *)

Section Scores.
Context {rt : Py.PyRuntime}.

Lemma str_of_Z_not_NaN (z : Z) : String.eqb (Py.str_of_Z z) "NaN" = false.
Proof.
  unfold Py.str_of_Z.
  destruct (Z.to_int z) as [d|d]; destruct d; reflexivity.
Qed.

(** X11. Four ways in which [calculate_rpi] raises, each on its own:
    the [url] of the record enters the URL block of Q2 and is not a
    text (the log message slices it); [effort_for_fixing] is an integer
    beyond the range of a float ([OverflowError], which the [except] of
    Q4 does not catch); the [vulnerability_ids] of the record is
    unhashable (it is looked up in the KEV and EPSS tables); the
    configuration lacks one of the five weights. *)
Theorem X11_calculate_rpi_raises
  (self : calculators.RiskPriorityCalculator) (vuln_data : Py.record) :
  unsliceable_url vuln_data = true
  \/ Py.float_overflows
       (Py.get_default vuln_data "effort_for_fixing" (Py.VStr "")) = true
  \/ Py.hashable (Py.get_default vuln_data "vulnerability_ids" (Py.VStr ""))
     = false
  \/ (exists k, In k ["q1"; "q2"; "q3"; "q4"; "q5"]
                /\ Py.assoc k (models.weights (calculators.config self))
                   = None) ->
  calculators.calculate_rpi self vuln_data = None.
Proof.
  intros [U|[Ov|[Hh|(k & Hk & W)]]].
  - unfold calculators.calculate_rpi, q2_calculator.calculate_q2_exposure.
    cbv zeta. unfold unsliceable_url in U. now rewrite U.
  - unfold calculators.calculate_rpi.
    destruct (q2_calculator.calculate_q2_exposure _); [|reflexivity].
    unfold q4_calculator.calculate_q4_fixability. cbv zeta.
    rewrite Ov.
    destruct (Py.get_default vuln_data "effort_for_fixing" (Py.VStr ""))
      as [| | z | | |]; try discriminate Ov.
    cbn [Py.truthy Py.str].
    rewrite str_of_Z_not_NaN.
    destruct (z =? 0)%Z eqn:Z0; [|reflexivity].
    apply Z.eqb_eq in Z0. subst z. vm_compute in Ov. discriminate Ov.
  - unfold calculators.calculate_rpi.
    destruct (q2_calculator.calculate_q2_exposure _); [|reflexivity].
    destruct (q4_calculator.calculate_q4_fixability _); [|reflexivity].
    cbv zeta. rewrite !get_default_set_other by discriminate.
    unfold calculators.table_find. now rewrite Hh.
  - unfold calculators.calculate_rpi.
    destruct (q2_calculator.calculate_q2_exposure _); [|reflexivity].
    destruct (q4_calculator.calculate_q4_fixability _); [|reflexivity].
    cbv zeta.
    destruct (calculators.table_find _ (q1_calculator.kev_data _));
      [|reflexivity].
    destruct (calculators.table_find _ (q1_calculator.epss_data _));
      [|reflexivity].
    destruct Hk as [<-|[<-|[<-|[<-|[<-|[]]]]]]; rewrite W;
      repeat match goal with
        | |- context [match Py.assoc ?k ?w with _ => _ end] =>
            destruct (Py.assoc k w)
        end; reflexivity.
Qed.

Lemma env_fit_ge_30 (r : Py.record) : 30 <= q1_calculator.env_fit r.
Proof.
  unfold q1_calculator.env_fit. cbv zeta.
  destruct (negb _ && _), (Py.any_in q1_calculator.platform_markers _);
    vm_compute; discriminate.
Qed.

Lemma class_weight_ge_40 (r : Py.record) : 40 <= q1_calculator.class_weight r.
Proof.
  unfold q1_calculator.class_weight, q1_calculator._class_weight. cbv zeta.
  repeat match goal with
    | |- context [if existsb ?f ?l then _ else _] => destruct (existsb f l)
    end; vm_compute; discriminate.
Qed.

Lemma q1_lower_bound (r : Py.record) (f : q1_calculator.ExternalDataFetcher) :
  epss_percentiles_nonneg f ->
  17 <= q1_calculator.calculate_q1_exploitability r f.
Proof.
  intros W. unfold q1_calculator.calculate_q1_exploitability. cbv zeta.
  pose proof (poc_maturity_range f (Py.VStr (q1_calculator.cve_of r))) as P.
  pose proof (env_fit_ge_30 r) as E.
  pose proof (class_weight_ge_40 r) as C.
  assert (0 <= q1_calculator.epss_percentile_of f (q1_calculator.cve_of r))
    as Pc.
  { unfold q1_calculator.epss_percentile_of.
    destruct (Py.assoc _ _) eqn:A; [eapply W; eassumption | lra]. }
  apply min_glb; [lra|].
  destruct (Py.Qltb 0 _) eqn:S0; [apply Qltb_true in S0|]; lra.
Qed.

Lemma validation_boost_range (r : Py.record) :
  0.7 <= calculators.validation_boost r <= 1.265.
Proof.
  unfold calculators.validation_boost. cbv zeta.
  destruct (q3_calculator.flag r "verified"),
    (q3_calculator.flag r "dynamic_finding");
    (destruct (negb _); [destruct (Py.float _) as [c|];
                         [destruct (Py.Qltb c 0.5)|]|]); lra.
Qed.

Lemma penalties_positive (r : Py.record) (x : Q) :
  0 < x -> 0 < calculators.penalties_and_override r x.
Proof.
  intros X. unfold calculators.penalties_and_override.
  destruct (q3_calculator.flag r "risk_accepted"),
    (q3_calculator.flag r "is_mitigated"),
    (q3_calculator.flag r "false_p"),
    (q3_calculator.flag r "violates_sla");
    try lra;
    (eapply Qlt_le_trans; [|apply max_ge_l]; lra).
Qed.

Lemma penalties_accepted (r : Py.record) (x B : Q) :
  q3_calculator.flag r "risk_accepted" = true ->
  q3_calculator.flag r "violates_sla" = false ->
  0 <= B -> x <= B ->
  calculators.penalties_and_override r x <= 0.05 * B.
Proof.
  intros A V HB X. unfold calculators.penalties_and_override.
  rewrite A, V.
  destruct (q3_calculator.flag r "is_mitigated"),
    (q3_calculator.flag r "false_p"); lra.
Qed.

(** The weighted sum of step 8 and its bounds. *)
Lemma weighted_sum_le (w1 w2 w3 w4 w5 a1 a2 a3 a4 a5 : Q) :
  0 <= w1 -> 0 <= w2 -> 0 <= w3 -> 0 <= w4 -> 0 <= w5 ->
  a1 <= 100 -> a2 <= 100 -> a3 <= 100 -> a4 <= 100 -> a5 <= 100 ->
  w1 * a1 + w2 * a2 + w3 * a3 + w4 * a4 + w5 * a5
  <= 100 * (w1 + w2 + w3 + w4 + w5).
Proof. intros. nra. Qed.

Lemma weighted_sum_ge (w1 w2 w3 w4 w5 a1 a2 a3 a4 a5 : Q) :
  0 <= w1 -> 0 <= w2 -> 0 <= w3 -> 0 <= w4 -> 0 <= w5 ->
  16 <= a1 -> 0 <= a2 -> 0 <= a3 -> 0 <= a4 -> 0 <= a5 ->
  16 * w1 <= w1 * a1 + w2 * a2 + w3 * a3 + w4 * a4 + w5 * a5.
Proof. intros. nra. Qed.

End Scores.

(** The facts on the coupled subscores of an opened run of
    [calculate_rpi]: the gates, the validation factor and the range of
    every coupled subscore. *)
Ltac coupled_facts vuln_data W Hq2 Hq4 :=
  pose proof (q1_lower_bound vuln_data W) as R1;
  pose proof (q1_range vuln_data W) as R1';
  pose proof (q2_range _ Hq2) as R2;
  pose proof (q3_range vuln_data) as R3;
  pose proof (@q4_range _ _ _ Hq4) as R4;
  match goal with
  | |- context [q5_calculator.calculate_q5_urgency ?r ?f] =>
      pose proof (q5_range r f) as R5;
      set (q5 := q5_calculator.calculate_q5_urgency r f) in *
  end;
  match goal with
  | |- context [calculators.g_exploit ?k ?p ?e] =>
      pose proof (g_exploit_pos k p e) as Ge;
      set (ge := calculators.g_exploit k p e) in *
  end;
  match goal with
  | |- context [calculators.g_surface ?q] =>
      pose proof (g_surface_pos q) as Gs;
      set (gs := calculators.g_surface q) in *
  end;
  match goal with
  | |- context [calculators._env_factor ?r] =>
      pose proof (env_factor_pos r) as Fe;
      set (fe := calculators._env_factor r) in *
  end;
  match goal with
  | |- context [calculators.validation_boost ?r] =>
      pose proof (validation_boost_range r) as Vb;
      set (vb := calculators.validation_boost r) in *
  end;
  set (q1 := q1_calculator.calculate_q1_exploitability _ _) in *;
  set (q3 := q3_calculator.calculate_q3_impact _) in *;
  match goal with
  | |- context [calculators.occurrence_boost ?r ?x] =>
      assert (R3c : 0 <= calculators.occurrence_boost r x <= 100)
        by (apply occurrence_boost_range;
            split; [apply min_glb; [lra | nra]
                   | eapply Qle_trans; [apply min_le_l | lra]]);
      set (q3c := calculators.occurrence_boost r x) in *
  end;
  match goal with
  | |- context [(_ * ?a1 + _ * ?a2 + _ * _ + _ * _ + _ * ?a5) * _] =>
      assert (R1c : 16 <= a1 <= 100)
        by (split; [apply min_glb; [lra | nra]
                   | eapply Qle_trans; [apply min_le_l | lra]]);
      set (q1c := a1) in *;
      assert (R2c : 0 <= a2 <= 100)
        by (split; [apply min_glb; [lra | nra]
                   | eapply Qle_trans; [apply min_le_l | lra]]);
      set (q2c := a2) in *;
      match a5 with
      | Py.min _ (?q * ?a * ?b * _) =>
          assert (R5c : 0 <= a5 <= 100)
            by (split; [apply min_glb; [lra|];
                        assert (0 <= q * a) by nra;
                        assert (0 <= q * a * b) by nra; nra
                       | eapply Qle_trans; [apply min_le_l | lra]])
      end;
      set (q5c := a5) in *
  end.

Section ScoreBounds.
Context {rt : Py.PyRuntime}.

(** The RPI of a scored record is positive when the weight of Q1 is
    positive and no weight is negative. *)
Lemma rpi_score_positive
  (self : calculators.RiskPriorityCalculator)
  (vuln_data annotated_data : Py.record) (metrics : models.VulnerabilityMetrics) :
  epss_percentiles_nonneg (calculators.external_fetcher self) ->
  0 < weight_of (calculators.config self) "q1" ->
  0 <= weight_of (calculators.config self) "q2" ->
  0 <= weight_of (calculators.config self) "q3" ->
  0 <= weight_of (calculators.config self) "q4" ->
  0 <= weight_of (calculators.config self) "q5" ->
  calculators.calculate_rpi self vuln_data = Some (annotated_data, metrics) ->
  0 < models.rpi_score metrics.
Proof.
  unfold weight_of. intros W P1 P2 P3 P4 P5 H. open_rpi H.
  cbn [models.rpi_score].
  coupled_facts vuln_data W Hq2 Hq4.
  pose proof (@weighted_sum_ge w1 w2 w3 w4 w5 q1c q2c q3c q4 q5c) as S.
  match goal with
  | |- 0 < Py.max _ (Py.min _ (calculators.penalties_and_override ?r ?x)) =>
      assert (X : 0 < x) by nra;
      pose proof (penalties_positive r X) as Pp;
      set (y := calculators.penalties_and_override r x) in *
  end.
  eapply Qlt_le_trans; [|apply max_ge_r].
  unfold Py.min. qcases; lra.
Qed.

(** X12. Under weights that are not negative, with a positive weight
    of Q1, every record that [calculate_rpi] scores gets a strictly
    positive RPI, whatever its penalties: Q1 is at least 17 and every
    factor of the formula is positive.  The EPSS percentiles of the
    provider are taken not to be negative. *)
Theorem X12_rpi_positive
  (self : calculators.RiskPriorityCalculator)
  (vuln_data annotated_data : Py.record) (metrics : models.VulnerabilityMetrics) :
  epss_percentiles_nonneg (calculators.external_fetcher self) ->
  0 < weight_of (calculators.config self) "q1" ->
  0 <= weight_of (calculators.config self) "q2" ->
  0 <= weight_of (calculators.config self) "q3" ->
  0 <= weight_of (calculators.config self) "q4" ->
  0 <= weight_of (calculators.config self) "q5" ->
  calculators.calculate_rpi self vuln_data = Some (annotated_data, metrics) ->
  0 < models.rpi_score metrics.
Proof. apply rpi_score_positive. Qed.

(** X13. Under weights that are not negative and sum to at most 1.01
    (what [validate] accepts), a record whose risk was accepted and
    that does not violate its SLA gets an RPI of at most 6.4: the
    weighted sum is at most 101, the validation factor at most 1.265,
    and the penalty multiplies by 0.05.  The EPSS percentiles of the
    provider are taken not to be negative. *)
Theorem X13_accepted_risk_scores_low
  (self : calculators.RiskPriorityCalculator)
  (vuln_data annotated_data : Py.record) (metrics : models.VulnerabilityMetrics) :
  epss_percentiles_nonneg (calculators.external_fetcher self) ->
  0 <= weight_of (calculators.config self) "q1" ->
  0 <= weight_of (calculators.config self) "q2" ->
  0 <= weight_of (calculators.config self) "q3" ->
  0 <= weight_of (calculators.config self) "q4" ->
  0 <= weight_of (calculators.config self) "q5" ->
  weight_of (calculators.config self) "q1"
  + weight_of (calculators.config self) "q2"
  + weight_of (calculators.config self) "q3"
  + weight_of (calculators.config self) "q4"
  + weight_of (calculators.config self) "q5" <= 1.01 ->
  q3_calculator.flag vuln_data "risk_accepted" = true ->
  q3_calculator.flag vuln_data "violates_sla" = false ->
  calculators.calculate_rpi self vuln_data = Some (annotated_data, metrics) ->
  models.rpi_score metrics <= 6.4.
Proof.
  unfold weight_of. intros W P1 P2 P3 P4 P5 Sw A V H. open_rpi H.
  cbn [models.rpi_score].
  coupled_facts vuln_data W Hq2 Hq4.
  pose proof (@weighted_sum_le w1 w2 w3 w4 w5 q1c q2c q3c q4 q5c) as S.
  pose proof (@weighted_sum_ge w1 w2 w3 w4 w5 q1c q2c q3c q4 q5c) as S'.
  match goal with
  | |- Py.max _ (Py.min _ (calculators.penalties_and_override ?r ?x)) <= _ =>
      assert (X : x <= 127.765) by nra;
      assert (Pp : calculators.penalties_and_override r x <= 0.05 * 127.765)
        by (apply penalties_accepted; try lra;
            rewrite !flag_set_other by discriminate; assumption);
      set (y := calculators.penalties_and_override r x) in *
  end.
  apply max_lub; [lra|].
  eapply Qle_trans; [apply min_le_r | lra].
Qed.

(** X14. A record that violates its SLA is categorised [critical] by
    [categorize_rpi] under the default limits, whatever else it
    carries: its RPI is at least 85 and the limit is 80. *)
Theorem X14_sla_violation_is_critical
  (self : calculators.RiskPriorityCalculator)
  (vuln_data annotated_data : Py.record) (metrics : models.VulnerabilityMetrics) :
  calculators.calculate_rpi self vuln_data = Some (annotated_data, metrics) ->
  q3_calculator.flag vuln_data "violates_sla" = true ->
  models.VulnerabilityData.categorize_rpi
    (with_metrics annotated_data metrics) models.default_thresholds
  = Some "critical".
Proof.
  intros H F.
  assert (R : 85 <= models.rpi_score metrics).
  { open_rpi H. cbn [models.rpi_score]. apply override_floor.
    rewrite !flag_set_other by discriminate. exact F. }
  unfold models.VulnerabilityData.categorize_rpi,
    models.VulnerabilityData.rpi_score, with_metrics. simpl.
  destruct (Qle_bool 80.0 (models.rpi_score metrics)) eqn:E; auto.
  apply Qle_bool_false in E. lra.
Qed.

End ScoreBounds.

Section Categories.
Import models.VulnerabilityData.

Lemma category_rank_le_4 (c : string) : (category_rank c <= 4)%nat.
Proof.
  unfold category_rank.
  repeat match goal with
    | |- context [if ?c then _ else _] => destruct c
    end; lia.
Qed.

(** X15. [categorize_rpi] is monotone whatever the limits are: of two
    records that it categorises, the one with the larger RPI never gets
    the lower category (minimal, low, medium, high, critical). *)
Theorem X15_categorize_rpi_monotone (a b : t) (thresholds : list (string * Q))
  (ca cb : string) :
  rpi_score a <= rpi_score b ->
  categorize_rpi a thresholds = Some ca ->
  categorize_rpi b thresholds = Some cb ->
  (category_rank ca <= category_rank cb)%nat.
Proof.
  unfold categorize_rpi. intros L.
  destruct (Py.assoc "critical_rpi" thresholds) as [c|]; [|discriminate].
  destruct (Qle_bool c (rpi_score b)) eqn:Cb;
    [intros _ H; injection H as <-; apply category_rank_le_4|].
  destruct (Qle_bool c (rpi_score a)) eqn:Ca.
  { apply Qle_bool_iff in Ca. apply Qle_bool_false in Cb. lra. }
  destruct (Py.assoc "high_rpi" thresholds) as [h|]; [|discriminate].
  destruct (Qle_bool h (rpi_score b)) eqn:Hb.
  { destruct (Qle_bool h (rpi_score a)).
    - intros H1 H2. injection H1 as <-. injection H2 as <-. vm_compute; lia.
    - destruct (Py.assoc "medium_rpi" thresholds) as [m|]; [|discriminate].
      destruct (Qle_bool m (rpi_score a)).
      + intros H1 H2. injection H1 as <-. injection H2 as <-.
        vm_compute; lia.
      + destruct (Py.assoc "low_rpi" thresholds) as [l|]; [|discriminate].
        destruct (Qle_bool l (rpi_score a));
          intros H1 H2; injection H1 as <-; injection H2 as <-;
          vm_compute; lia. }
  destruct (Qle_bool h (rpi_score a)) eqn:Ha.
  { apply Qle_bool_iff in Ha. apply Qle_bool_false in Hb. lra. }
  destruct (Py.assoc "medium_rpi" thresholds) as [m|]; [|discriminate].
  destruct (Qle_bool m (rpi_score b)) eqn:Mb.
  { destruct (Qle_bool m (rpi_score a)).
    - intros H1 H2. injection H1 as <-. injection H2 as <-. vm_compute; lia.
    - destruct (Py.assoc "low_rpi" thresholds) as [l|]; [|discriminate].
      destruct (Qle_bool l (rpi_score a));
        intros H1 H2; injection H1 as <-; injection H2 as <-;
        vm_compute; lia. }
  destruct (Qle_bool m (rpi_score a)) eqn:Ma.
  { apply Qle_bool_iff in Ma. apply Qle_bool_false in Mb. lra. }
  destruct (Py.assoc "low_rpi" thresholds) as [l|]; [|discriminate].
  destruct (Qle_bool l (rpi_score b)) eqn:Lb.
  { destruct (Qle_bool l (rpi_score a));
      intros H1 H2; injection H1 as <-; injection H2 as <-;
      vm_compute; lia. }
  destruct (Qle_bool l (rpi_score a)) eqn:La.
  { apply Qle_bool_iff in La. apply Qle_bool_false in Lb. lra. }
  intros H1 H2; injection H1 as <-; injection H2 as <-; vm_compute; lia.
Qed.

End Categories.

Section Calculators.
Context {rt : Py.PyRuntime}.

(** X16. Q1 is at least 17 on every record: the environment fit is at
    least 30 and the class weight at least 40, weighted 0.3 and 0.2.
    The EPSS percentiles of the provider are taken not to be
    negative. *)
Theorem X16_q1_at_least_17 (r : Py.record)
  (f : q1_calculator.ExternalDataFetcher) :
  epss_percentiles_nonneg f ->
  17 <= q1_calculator.calculate_q1_exploitability r f.
Proof. apply q1_lower_bound. Qed.

(** X17. What [check_poc_availability] reports is coherent: a
    weaponised exploit is a PoC of maturity 90 or more; without a PoC
    the maturity is 0, or 95 when the KEV catalogue links the CVE to
    ransomware; and an identifier without a CVE gives the default
    answer. *)
Theorem X17_weaponized_poc_is_mature (f : q1_calculator.ExternalDataFetcher)
  (cve_id : Py.value) :
  let poc := q1_calculator.check_poc_availability f cve_id in
  (q1_calculator.weaponized poc = true ->
   q1_calculator.has_poc poc = true /\ 90 <= q1_calculator.poc_maturity poc)
  /\ (q1_calculator.has_poc poc = false ->
      q1_calculator.poc_maturity poc == 0
      \/ q1_calculator.poc_maturity poc == 95)
  /\ (q1_calculator.extract_cve_id cve_id = "" ->
      poc = q1_calculator.poc_default).
Proof.
  cbv zeta. unfold q1_calculator.check_poc_availability.
  destruct (String.eqb (q1_calculator.extract_cve_id cve_id) "") eqn:E.
  - repeat split; try discriminate. intros _. left. reflexivity.
  - apply String.eqb_neq in E. cbv zeta.
    destruct (q1_calculator.has_exploit_ref _),
      (q1_calculator.has_exploitdb _), (q1_calculator.has_metasploit _),
      (q1_calculator.has_nuclei _);
      (destruct (Py.assoc _ _) as [k|];
       [destruct (q1_calculator.known_ransomware k)|]);
      cbn [q1_calculator.weaponized q1_calculator.has_poc
           q1_calculator.poc_maturity q1_calculator.poc_default];
      (split; [|split]);
      try (intros; discriminate); try (intros; congruence);
      try (intros _; split; [reflexivity | vm_compute; discriminate]);
      try (intros _; left; vm_compute; reflexivity);
      try (intros _; right; vm_compute; reflexivity).
Qed.

(** X18. Q5 is exactly 100 on every record that is past its SLA (the
    flag [violates_sla], or a negative [sla_days_remaining]), whatever
    the threat, the age, the confidence and the penalties of accepted,
    mitigated or false-positive findings. *)
Theorem X18_q5_is_100_when_sla_urgent (vuln_data : Py.record)
  (f : q1_calculator.ExternalDataFetcher) :
  sla_urgent vuln_data = true ->
  q5_calculator.calculate_q5_urgency vuln_data f == 100.
Proof.
  unfold sla_urgent, q5_calculator.calculate_q5_urgency. cbv zeta.
  intros U. rewrite U.
  destruct (q5_calculator.tb_tier _); cbn [q5_calculator.tier_in_none_low];
    cbv iota beta;
    match goal with
    | |- Py.min _ (Py.max _ (Py.max ?x _)) == _ =>
        generalize x; intros y
    end;
    (assert (A : 100 <= Py.max y 100.0)
       by (eapply Qle_trans; [|apply max_ge_r]; lra);
     assert (B : 100 <= Py.max 0.0 (Py.max y 100.0))
       by (eapply Qle_trans; [exact A | apply max_ge_r]);
     apply Qle_antisym;
     [eapply Qle_trans; [apply min_le_l | lra] | apply min_glb; lra]).
Qed.

(** X19. The SLA component of Q5 never grows with the days that
    remain: of two records within their SLA, the one with fewer days
    left gets the larger or equal component. *)
Theorem X19_sla_component_monotone (r1 r2 : Py.record) (d1 d2 : Q) :
  q5_calculator._safe_bool (Py.get r1 "violates_sla") = false ->
  q5_calculator._safe_bool (Py.get r2 "violates_sla") = false ->
  q5_calculator._safe_float (Py.get r1 "sla_days_remaining") None = Some d1 ->
  q5_calculator._safe_float (Py.get r2 "sla_days_remaining") None = Some d2 ->
  d1 <= d2 ->
  q5_calculator._sla_component r2 <= q5_calculator._sla_component r1.
Proof.
  intros V1 V2 D1 D2 L. unfold q5_calculator._sla_component.
  rewrite V1, V2, D1, D2. qcases; lra.
Qed.

(** X21. Among records of equal RPI, one whose [violates_sla] flag is
    set sorts before one whose flag is not: the flag is the first
    field of the tie-breaker key. *)
Theorem X21_sla_violators_first_among_ties
  (ra rb : Py.record) (ma mb : models.VulnerabilityMetrics) :
  calculators.safe_bool (Py.get ra "violates_sla") = 1%Z ->
  calculators.safe_bool (Py.get rb "violates_sla") = 0%Z ->
  models.rpi_score ma == models.rpi_score mb ->
  prioritizer.sort_key_ltb
    (prioritizer.sort_key (prioritizer.annotate (ra, ma)))
    (prioritizer.sort_key (prioritizer.annotate (rb, mb)))
  = Some true.
Proof.
  intros Va Vb E.
  unfold prioritizer.sort_key_ltb, prioritizer.sort_key,
    prioritizer.annotate, prioritizer.score_of.
  cbn [fst snd prioritizer.fields prioritizer.rpi_metrics
       prioritizer.rpi_score prioritizer.domain prioritizer.tie_breaker_key].
  assert (Q : Qeq_bool (- models.rpi_score ma) (- models.rpi_score mb) = true)
    by (apply Qeq_bool_iff; lra).
  rewrite Q. cbn [negb].
  unfold calculators.get_tie_breaker_key. cbv zeta.
  rewrite Va, Vb. reflexivity.
Qed.

(** X22. The worker scores exactly the records that
    [validate_vulnerability_data] accepts (a title, an identifier or a
    component name that is not empty): on the others it returns no
    metrics, on those it returns what [calculate_rpi] returns. *)
Theorem X22_worker_scores_what_validates
  (self : prioritizer.VulnerabilityPrioritizer) (vuln_data : Py.record) :
  prioritizer.process_vulnerability_worker self vuln_data
  = if utils.validate_vulnerability_data vuln_data
    then calculators.calculate_rpi
           {| calculators.external_fetcher :=
                prioritizer.external_fetcher self;
              calculators.config := prioritizer.config self |} vuln_data
    else None.
Proof.
  unfold prioritizer.process_vulnerability_worker,
    utils.validate_vulnerability_data. cbn [existsb andb].
  destruct (Py.truthy (Py.get vuln_data "title")),
    (Py.truthy (Py.get vuln_data "vulnerability_ids")),
    (Py.truthy (Py.get vuln_data "component_name")); reflexivity.
Qed.

End Calculators.

(** ** [pareto_cut] *)

Section Pareto.
Import prioritizer.

Lemma fold_plus_acc (l : list Q) (a : Q) :
  fold_left Qplus l a == a + fold_left Qplus l 0.
Proof.
  revert a. induction l as [|x t IH]; intros a; simpl; [lra|].
  rewrite (IH (a + x)), (IH (0 + x)). lra.
Qed.

Lemma sum_floats_cons (x : Q) (l : list Q) :
  sum_floats (x :: l) == x + sum_floats l.
Proof. unfold sum_floats. simpl. rewrite fold_plus_acc. lra. Qed.

(** The loop stops on the first prefix whose share reaches the
    target, or at the end of the list. *)
Lemma pareto_loop_spec (target total : Q) (scores : list Q) :
  forall cum k,
    exists n,
      snd (pareto_loop target total scores cum k) = (k + n)%nat
      /\ fst (pareto_loop target total scores cum k)
         == cum + sum_floats (firstn n scores)
      /\ (n <= List.length scores)%nat
      /\ (scores <> [] -> (1 <= n)%nat)
      /\ ((1 <= n)%nat /\
          target <= (cum + sum_floats (firstn n scores)) / total
          \/ n = List.length scores)
      /\ forall j, (1 <= j < n)%nat ->
           (cum + sum_floats (firstn j scores)) / total < target.
Proof.
  induction scores as [|s rest IH]; intros cum k; simpl.
  - exists 0%nat. split; [lia|]. split; [unfold sum_floats; simpl; lra|].
    split; [lia|]. split; [congruence|]. split; [now right | lia].
  - destruct (Qle_bool target ((cum + s) / total)) eqn:E.
    + exists 1%nat. simpl.
      assert (C : cum + sum_floats [s] == cum + s)
        by (unfold sum_floats; simpl; lra).
      split; [lia|]. split; [now rewrite C|].
      split; [lia|]. split; [lia|]. split; [|lia].
      left. split; [lia|]. apply Qle_bool_iff in E. now rewrite C.
    + destruct (IH (cum + s) (S k)) as (n & Hk & Hc & Hn & _ & Ht & Hm).
      assert (C : forall j,
                 cum + sum_floats (firstn (S j) (s :: rest))
                 == cum + s + sum_floats (firstn j rest)).
      { intros j. simpl. rewrite sum_floats_cons. lra. }
      exists (S n).
      split; [rewrite Hk; lia|]. split; [now rewrite Hc, C|].
      split; [lia|]. split; [lia|]. split.
      * destruct Ht as [[N1 Ht]|Ht]; [left|right; lia].
        split; [lia|]. now rewrite C.
      * intros j [J1 J2]. destruct j as [|j]; [lia|].
        rewrite C. destruct j as [|j'].
        -- simpl. unfold sum_floats. simpl.
           setoid_replace (cum + s + 0) with (cum + s) by lra.
           now apply Qle_bool_false.
        -- apply Hm. lia.
Qed.

(** X23. When [pareto_cut] returns on a list with at least one scored
    record, [k] is the size of the smallest non-empty prefix of the
    scored records whose share of the total RPI reaches the target,
    or the number of scored records if no prefix does; the share
    returned is the share of that prefix and the fraction is [k] over
    the number of scored records. *)
Theorem X23_pareto_cut_smallest_prefix (prioritized : list item)
  (target_share : Q) (k : nat) (share frac : Q) :
  pareto_cut prioritized target_share = Some (k, share, frac) ->
  pareto_scores prioritized <> [] ->
  let scores := pareto_scores prioritized in
  (1 <= k <= List.length scores)%nat
  /\ share == prefix_share scores k
  /\ frac == inject_Z (Z.of_nat k) / inject_Z (Z.of_nat (List.length scores))
  /\ (target_share <= share \/ k = List.length scores)
  /\ forall j, (1 <= j < k)%nat -> prefix_share scores j < target_share.
Proof.
  intros H N. cbv zeta. unfold pareto_cut in H.
  fold (pareto_scores prioritized) in H. cbv zeta in H.
  set (scores := pareto_scores prioritized) in *.
  destruct scores as [|s0 rest] eqn:ES; [congruence|].
  rewrite <- ES in *. clear ES s0 rest.
  destruct (Qeq_bool (sum_floats scores) 0) eqn:Z; [discriminate|].
  destruct (pareto_loop_spec target_share (sum_floats scores) scores 0.0 0)
    as (n & Hk & Hc & Hn & H1 & Ht & Hm).
  destruct (pareto_loop _ _ _ _ _) as [cum k']. simpl in Hk, Hc.
  injection H as <- <- <-. subst k'.
  assert (C : forall j, 0.0 + sum_floats (firstn j scores)
                        == sum_floats (firstn j scores)) by (intros; lra).
  split; [split; [auto | exact Hn]|].
  split; [unfold prefix_share; rewrite Hc, C; reflexivity|].
  split; [reflexivity|]. split.
  - destruct Ht as [[_ Ht]|Ht]; [left|right; exact Ht].
    rewrite Hc. exact Ht.
  - intros j J. unfold prefix_share. rewrite <- C. now apply Hm.
Qed.

(** [pareto_cut] raises exactly on scored records whose RPI add up to
    zero. *)
Lemma pareto_cut_none (prioritized : list item) (target_share : Q) :
  pareto_cut prioritized target_share = None <->
  pareto_scores prioritized <> []
  /\ sum_floats (pareto_scores prioritized) == 0.
Proof.
  unfold pareto_cut. fold (pareto_scores prioritized).
  destruct (pareto_scores prioritized) as [|s0 rest] eqn:ES.
  - split; [discriminate | intros [N _]; congruence].
  - set (scores := s0 :: rest).
    assert (N : scores <> []) by discriminate.
    destruct (Qeq_bool (sum_floats scores) 0) eqn:Z.
    + apply Qeq_bool_eq in Z. split; auto.
    + apply Qeq_bool_neq in Z.
      destruct (pareto_loop _ _ _ _ _) as [cum k].
      split; [discriminate | intros [_ E]; contradiction].
Qed.

(** X24. [pareto_cut] raises (a division by zero) if and only if the
    list has at least one scored record and the RPI of the scored
    records add up to zero; on a list without scored records it
    returns [(0, 0.0, 0.0)]. *)
Theorem X24_pareto_cut_raises_iff_zero_total (prioritized : list item)
  (target_share : Q) :
  (pareto_cut prioritized target_share = None <->
   pareto_scores prioritized <> []
   /\ sum_floats (pareto_scores prioritized) == 0)
  /\ (pareto_scores prioritized = [] ->
      pareto_cut prioritized target_share = Some (O, 0.0, 0.0)).
Proof.
  split; [apply pareto_cut_none|].
  unfold pareto_cut. fold (pareto_scores prioritized).
  now intros ->.
Qed.

Lemma sum_floats_positive (l : list Q) :
  l <> [] -> (forall x, In x l -> 0 < x) -> 0 < sum_floats l.
Proof.
  induction l as [|x t IH]; [congruence|]. intros _ P.
  rewrite sum_floats_cons.
  assert (0 < x) by (apply P; now left).
  destruct t as [|y t'].
  - unfold sum_floats. simpl. lra.
  - assert (0 < sum_floats (y :: t')).
    { apply IH; [discriminate|]. intros z Hz. apply P. now right. }
    lra.
Qed.

End Pareto.

Section ParetoPipeline.
Context {rt : Py.PyRuntime}.
Import prioritizer.

(** X25. Under weights that are not negative, with a positive weight
    of Q1, [pareto_cut] returns on everything that
    [process_vulnerabilities] returns, as [main] chains them: the total
    RPI of a batch that was scored is never zero.  The EPSS
    percentiles of the provider are taken not to be negative. *)
Theorem X25_pareto_cut_defined_after_pipeline
  (self : VulnerabilityPrioritizer)
  (completion : list nat) (vuln_list : list Py.record) (out : list item)
  (target_share : Q) :
  epss_percentiles_nonneg (external_fetcher self) ->
  0 < weight_of (config self) "q1" ->
  0 <= weight_of (config self) "q2" ->
  0 <= weight_of (config self) "q3" ->
  0 <= weight_of (config self) "q4" ->
  0 <= weight_of (config self) "q5" ->
  process_vulnerabilities self completion vuln_list = Some out ->
  exists k share frac,
    pareto_cut out target_share = Some (k, share, frac).
Proof.
  intros W P1 P2 P3 P4 P5 H.
  destruct (pareto_cut out target_share) as [[[k share] frac]|] eqn:E;
    [eauto|exfalso].
  apply pareto_cut_none in E as [N Z].
  destruct (pipeline_scored _ _ _ H) as (unique & _ & _ & _ & Sc).
  assert (Pos : forall x, In x (pareto_scores out) -> 0 < x).
  { intros x Hx. unfold pareto_scores in Hx.
    apply in_flat_map in Hx as (v & Hv & Hx).
    destruct (Sc v Hv) as (r & [r' m] & _ & Wk & -> & _).
    simpl in Hx. destruct Hx as [<-|[]].
    unfold score_of. simpl.
    unfold process_vulnerability_worker in Wk.
    destruct (_ && _); [discriminate|].
    eapply (@rpi_score_positive _
              {| calculators.external_fetcher := external_fetcher self;
                 calculators.config := config self |} r r' m);
      simpl; eassumption. }
  pose proof (sum_floats_positive N Pos). lra.
Qed.

End ParetoPipeline.

(** ** The wording of the report *)

Section Report.
Context {rt : Py.PyRuntime}.
Import prioritizer.

Lemma ltb_int_defined (v : Py.value) (z : Z) :
  Py.ltb v (Py.VInt z) = None <-> Py.num_of v = None.
Proof.
  unfold Py.ltb. cbn [Py.num_of].
  destruct (Py.num_of v); split; auto; discriminate.
Qed.

(** X26. The two sentences that the report writes about a record
    ([_generate_priority_reason], [_estimate_risk_increase]) raise
    exactly on a [sla_days_remaining] that is not a number (a text, a
    list, [None]); the first only when the record does not violate its
    SLA, since the test of [violates_sla] comes first.  A record without
    the field never raises: the default is 999. *)
Theorem X26_report_wording_raises_on_sla_days (vuln : item)
  (metrics : models.VulnerabilityMetrics) :
  let sla_days :=
    Py.get_default (fields vuln) "sla_days_remaining" (Py.VInt 999) in
  (_generate_priority_reason vuln metrics = None <->
   Py.truthy (Py.get (fields vuln) "violates_sla") = false
   /\ Py.num_of sla_days = None)
  /\ (_estimate_risk_increase vuln metrics = None <->
      Py.num_of sla_days = None).
Proof.
  cbv zeta. split.
  - unfold _generate_priority_reason. cbv zeta.
    destruct (Py.truthy (Py.get (fields vuln) "violates_sla")).
    + split; [discriminate | intros [H _]; discriminate H].
    + rewrite <- (ltb_int_defined _ 7).
      destruct (Py.ltb _ (Py.VInt 7)) as [[|]|];
        split; auto; try discriminate; intros [_ H]; discriminate H.
  - unfold _estimate_risk_increase. cbv zeta.
    rewrite <- (ltb_int_defined _ 30).
    destruct (Py.ltb _ (Py.VInt 30)) as [b|]; split; auto; discriminate.
Qed.

End Report.

(** ** Fixability *)

Section Q4.
Context {rt : Py.PyRuntime}.

Lemma clamp_mono (x y : Q) :
  x <= y -> Py.max 0 (Py.min 100 x) <= Py.max 0 (Py.min 100 y).
Proof.
  intros L. apply max_lub; [apply max_ge_l|].
  eapply Qle_trans; [|apply max_ge_r].
  apply min_glb; [apply min_le_l|].
  eapply Qle_trans; [apply min_le_r | exact L].
Qed.

Lemma classify_domain_set_other (k : string) (v : Py.value) (r : Py.record) :
  k <> "component_name" -> k <> "file_path" -> k <> "service" ->
  k <> "test" ->
  q2_calculator.classify_domain (Py.set k v r)
  = q2_calculator.classify_domain r.
Proof.
  intros. unfold q2_calculator.classify_domain.
  now rewrite !text_set_other by congruence.
Qed.

(** X27. An open ticket never lowers the fixability: setting
    [has_jira_issue] to [True] on any record gives a Q4 at least as
    large, and does not change whether Q4 is computed at all. *)
Theorem X27_q4_ticket_never_lowers (r : Py.record) :
  match q4_calculator.calculate_q4_fixability r,
        q4_calculator.calculate_q4_fixability
          (Py.set "has_jira_issue" (Py.VBool true) r) with
  | Some without, Some with_ticket => without <= with_ticket
  | None, None => True
  | _, _ => False
  end.
Proof.
  set (r' := Py.set "has_jira_issue" (Py.VBool true) r).
  assert (D : q2_calculator.classify_domain r'
              = q2_calculator.classify_domain r)
    by (apply classify_domain_set_other; discriminate).
  assert (T : q2_calculator.text r' "mitigation"
              = q2_calculator.text r "mitigation")
    by (apply text_set_other; discriminate).
  assert (E : Py.get_default r' "effort_for_fixing" (Py.VStr "")
              = Py.get_default r "effort_for_fixing" (Py.VStr ""))
    by (apply get_default_set_other; discriminate).
  assert (J : Py.get_default r' "has_jira_issue" (Py.VBool false)
              = Py.VBool true)
    by (unfold Py.get_default, r'; now rewrite lookup_set_same).
  unfold q4_calculator.calculate_q4_fixability. cbv zeta.
  rewrite D, T, E, J.
  destruct (_ && _ && Py.float_overflows _); [exact I|].
  cbn [Py.truthy Py.str Py.eqb Py.num_of].
  change (String.eqb "True" "NaN") with false.
  change (Qeq_bool 1 1) with true. cbn [negb andb orb].
  apply clamp_mono.
  match goal with
  | |- 100 - (if ?dom then ?b + 20 else ?b)
       <= 100 - (if ?dom then ?a + 20 else ?a) =>
      assert (L : a <= b);
      [|destruct dom; lra]
  end.
  match goal with
  | |- ?f - 20 <= (if ?c then (if ?d then _ else _) else _) =>
      destruct c; [destruct d|]; lra
  end.
Qed.

End Q4.

(** ** The normal form of a CVE identifier *)

Section CveNormalForm.
Import q1_calculator.

Lemma lower_upper_char (c : ascii) :
  Py.lower_char (Py.upper_char c) = Py.lower_char c.
Proof. destruct c as [[] [] [] [] [] [] [] []]; reflexivity. Qed.

Lemma upper_upper_char (c : ascii) :
  Py.upper_char (Py.upper_char c) = Py.upper_char c.
Proof. destruct c as [[] [] [] [] [] [] [] []]; reflexivity. Qed.

Lemma digit_upper_char (c : ascii) :
  Py.is_digit c = true -> Py.upper_char c = c.
Proof. destruct c as [[] [] [] [] [] [] [] []]; intros H; try reflexivity;
  discriminate H. Qed.

Lemma upper_upper (s : string) : Py.upper (Py.upper s) = Py.upper s.
Proof.
  induction s as [|c t IH]; simpl; [reflexivity|].
  unfold Py.upper in *. simpl. now rewrite upper_upper_char, IH.
Qed.

Lemma upper_digits (s : string) :
  Py.all_digits s = true -> Py.upper s = s.
Proof.
  unfold Py.upper. induction s as [|c t IH]; simpl; [reflexivity|].
  intros H. apply andb_true_iff in H as [H1 H2].
  now rewrite (digit_upper_char _ H1), IH.
Qed.

Lemma leading_digits_all (n : nat) (s : string) :
  Py.all_digits (leading_digits n s) = true.
Proof.
  revert s. induction n as [|n IH]; intros [|c t]; simpl; auto.
  destruct (Py.is_digit c) eqn:D; simpl; auto.
  now rewrite D, IH.
Qed.

Lemma leading_digits_length (n : nat) (s : string) :
  (String.length (leading_digits n s) <= n)%nat.
Proof.
  revert s. induction n as [|n IH]; intros [|c t]; simpl; try lia.
  destruct (Py.is_digit c); simpl; [|lia].
  specialize (IH t). lia.
Qed.

Lemma leading_digits_self (n : nat) (d : string) :
  Py.all_digits d = true -> (String.length d <= n)%nat ->
  leading_digits n d = d.
Proof.
  revert d. induction n as [|n IH]; intros [|c t]; simpl; auto.
  - intros _ L. lia.
  - intros H L. apply andb_true_iff in H as [H1 H2].
    rewrite H1. f_equal. apply IH; auto. lia.
Qed.

Lemma substring_0_length (s : string) : substring 0 (String.length s) s = s.
Proof. induction s as [|c t IH]; simpl; [reflexivity | now rewrite IH]. Qed.

Lemma drop_0 (s : string) : drop 0 s = s.
Proof. unfold drop. rewrite Nat.sub_0_r. apply substring_0_length. Qed.

Lemma drop_cons (n : nat) (c : ascii) (t : string) :
  drop (S n) (String c t) = drop n t.
Proof. reflexivity. Qed.


Lemma substring_0_0 (s : string) : substring 0 0 s = "".
Proof. now destruct s. Qed.

Lemma substring_S (n m : nat) (c : ascii) (t : string) :
  substring (S n) m (String c t) = substring n m t.
Proof. reflexivity. Qed.

Lemma substring_0_S (m : nat) (c : ascii) (t : string) :
  substring 0 (S m) (String c t) = String c (substring 0 m t).
Proof. reflexivity. Qed.

(** A match of the pattern at the head of a text: the shape of the
    text. *)
Lemma match_cve_shape (s m : string) :
  match_cve_here s = Some m ->
  exists c1 c2 c3 c4 d1 d2 d3 d4 rest,
    s = String c1 (String c2 (String c3 (String c4
          (String d1 (String d2 (String d3 (String d4
             (String "-" rest))))))))
    /\ Py.lower_char c1 = "c"%char /\ Py.lower_char c2 = "v"%char
    /\ Py.lower_char c3 = "e"%char /\ Py.lower_char c4 = "-"%char
    /\ Py.is_digit d1 = true /\ Py.is_digit d2 = true
    /\ Py.is_digit d3 = true /\ Py.is_digit d4 = true
    /\ (4 <= String.length (leading_digits 7 rest))%nat
    /\ m = String c1 (String c2 (String c3 (String c4
             (String d1 (String d2 (String d3 (String d4
                (String "-" (leading_digits 7 rest))))))))).
Proof.
  unfold match_cve_here.
  destruct (String.eqb_spec (Py.lower (substring 0 4 s)) "cve-") as [E|];
    [|discriminate].
  destruct s as [|c1 [|c2 [|c3 [|c4 t]]]]; try discriminate E.
  rewrite !substring_0_S, substring_0_0 in E.
  unfold Py.lower in E. cbn [Py.map_string] in E.
  injection E as E1 E2 E3 E4.
  rewrite !drop_cons, drop_0, !substring_S.
  remember (leading_digits 7 (drop 5 t)) as num eqn:Enum.
  destruct t as [|d1 t]; [discriminate|]. cbn [leading_digits].
  destruct (Py.is_digit d1) eqn:D1; [|discriminate].
  destruct t as [|d2 t]; [discriminate|]. cbn [leading_digits].
  destruct (Py.is_digit d2) eqn:D2; [|discriminate].
  destruct t as [|d3 t]; [discriminate|]. cbn [leading_digits].
  destruct (Py.is_digit d3) eqn:D3; [|discriminate].
  destruct t as [|d4 t]; [discriminate|]. cbn [leading_digits].
  destruct (Py.is_digit d4) eqn:D4; [|discriminate].
  rewrite !substring_S.
  replace (leading_digits 0 t) with "" by now destruct t.
  cbn [String.length Nat.eqb andb].
  destruct t as [|c9 rest]; [discriminate|].
  rewrite substring_0_S, substring_0_0.
  destruct (String.eqb_spec (String c9 "") "-") as [E9|]; [|discriminate].
  assert (C9 : c9 = "-"%char) by congruence. subst c9.
  rewrite !substring_0_S, substring_0_0.
  rewrite !drop_cons, drop_0 in Enum. subst num.
  destruct (4 <=? String.length (leading_digits 7 rest))%nat eqn:L;
    [|discriminate].
  apply Nat.leb_le in L.
  intros H. injection H as <-.
  exists c1, c2, c3, c4, d1, d2, d3, d4, rest.
  repeat split; auto.
Qed.

Lemma match_cve_upper (s m : string) :
  match_cve_here s = Some m ->
  match_cve_here (Py.upper m) = Some (Py.upper m).
Proof.
  intros H. apply match_cve_shape in H
    as (c1 & c2 & c3 & c4 & d1 & d2 & d3 & d4 & rest & _ & L1 & L2 & L3 & L4
        & D1 & D2 & D3 & D4 & L & ->).
  set (num := leading_digits 7 rest) in *.
  assert (A : Py.all_digits num = true) by apply leading_digits_all.
  assert (B : (String.length num <= 7)%nat) by apply leading_digits_length.
  unfold Py.upper. cbn [Py.map_string].
  fold (Py.upper num). rewrite (upper_digits _ A).
  rewrite (digit_upper_char _ D1), (digit_upper_char _ D2),
    (digit_upper_char _ D3), (digit_upper_char _ D4).
  change (Py.upper_char "-") with "-"%char.
  unfold match_cve_here.
  rewrite !substring_0_S, substring_0_0, !substring_S.
  unfold Py.lower. cbn [Py.map_string].
  rewrite !lower_upper_char, L1, L2, L3, L4.
  change ("cve-" =? "cve-") with true. cbv iota.
  rewrite !drop_cons, !drop_0.
  rewrite (@leading_digits_self 7 num A B).
  apply Nat.leb_le in L. rewrite L.
  cbn [leading_digits]. rewrite D1, D2, D3, D4.
  cbn [String.length Nat.eqb andb].
  rewrite substring_0_S, substring_0_0.
  change ("-" =? "-") with true. cbv iota.
  reflexivity.
Qed.

Lemma search_cve_found (s m : string) :
  search_cve s = Some m -> exists t, match_cve_here t = Some m.
Proof.
  induction s as [|c t IH].
  - discriminate.
  - cbn [search_cve]. destruct (match_cve_here (String c t)) eqn:E.
    + intros H. injection H as <-. eauto.
    + exact IH.
Qed.

Lemma search_cve_head (s : string) :
  match_cve_here s = Some s -> search_cve s = Some s.
Proof.
  intros H. destruct s as [|c t]; [discriminate H|].
  cbn [search_cve]. now rewrite H.
Qed.

Section WithRuntime.
Context {rt : Py.PyRuntime}.

(** X28. [extract_cve_id] is idempotent: an identifier that it returned
    is returned unchanged when it is normalised again, as
    [check_poc_availability] does with the identifier of the record. *)
Theorem X28_extract_cve_id_idempotent (value : Py.value) :
  extract_cve_id (Py.VStr (extract_cve_id value)) = extract_cve_id value.
Proof.
  assert (K : forall s,
             extract_cve_id
               (Py.VStr match search_cve s with
                        | Some m => Py.upper m
                        | None => ""
                        end)
             = match search_cve s with
               | Some m => Py.upper m
               | None => ""
               end).
  { intros s. unfold extract_cve_id. cbn [Py.str].
    destruct (search_cve s) as [m|] eqn:E; [|reflexivity].
    apply search_cve_found in E as (t & E).
    rewrite (search_cve_head (match_cve_upper _ E)).
    apply upper_upper. }
  destruct value; try apply K. reflexivity.
Qed.

(** X29. On a value whose text has no character beyond ASCII, what
    [extract_cve_id] returns is the empty text or an identifier in
    normal form: [CVE-] in capitals, four digits, a dash, and four to
    seven digits; nothing of the text around the match is kept.  (Beyond
    ASCII the pattern of the source also takes the digits of other
    scripts, which the embedding does not read.) *)
Theorem X29_extract_cve_id_normal_form (value : Py.value) :
  Py.is_ascii (cve_text value) = true ->
  let id := extract_cve_id value in
  id = ""
  \/ exists year num,
       id = "CVE-" ++ year ++ "-" ++ num
       /\ Py.all_digits year = true /\ String.length year = 4%nat
       /\ Py.all_digits num = true
       /\ (4 <= String.length num <= 7)%nat.
Proof.
  intros _. cbv zeta.
  assert (K : forall s,
             let id := match search_cve s with
                       | Some m => Py.upper m
                       | None => ""
                       end in
             id = ""
             \/ exists year num,
                  id = "CVE-" ++ year ++ "-" ++ num
                  /\ Py.all_digits year = true /\ String.length year = 4%nat
                  /\ Py.all_digits num = true
                  /\ (4 <= String.length num <= 7)%nat).
  { intros s. cbv zeta.
    destruct (search_cve s) as [m|] eqn:E; [right | now left].
    apply search_cve_found in E as (t & E).
    apply match_cve_shape in E
      as (c1 & c2 & c3 & c4 & d1 & d2 & d3 & d4 & rest & _ & L1 & L2 & L3
          & L4 & D1 & D2 & D3 & D4 & L & ->).
    set (num := leading_digits 7 rest) in *.
    assert (A : Py.all_digits num = true) by apply leading_digits_all.
    assert (B : (String.length num <= 7)%nat) by apply leading_digits_length.
    exists (String d1 (String d2 (String d3 (String d4 "")))), num.
    split; [|repeat split; auto; simpl; now rewrite D1, D2, D3, D4].
    unfold Py.upper. cbn [Py.map_string].
    fold (Py.upper num). rewrite (upper_digits _ A).
    rewrite (digit_upper_char _ D1), (digit_upper_char _ D2),
      (digit_upper_char _ D3), (digit_upper_char _ D4).
    assert (U : forall c x, Py.lower_char c = x ->
                  Py.upper_char c = Py.upper_char x).
    { intros c x <-. clear.
      destruct c as [[] [] [] [] [] [] [] []]; reflexivity. }
    rewrite (U _ _ L1), (U _ _ L2), (U _ _ L3), (U _ _ L4).
    reflexivity. }
  destruct value; try apply K. now left.
Qed.

End WithRuntime.
End CveNormalForm.

(* ================================================================== *)
(** * The further properties at concrete inputs *)

Section ConcreteMore.
Import Examples.
#[local] Existing Instance ModelRuntime.model_runtime.

Lemma no_signals_nonneg : epss_percentiles_nonneg no_signals.
Proof. intros cve e H. discriminate H. Defined.

(** X1 at a finding reported twice around another one: two records
    come back. *)
Lemma X1_witness :
  prioritizer._deduplicate_vulnerabilities three_findings
  = Some (DedupSpec.deduplicated three_findings).
Proof.
  apply X1_dedup_first_record_per_identity.
  intros k H. vm_compute in H.
  destruct H as [<-|[<-|[<-|[]]]]; reflexivity.
Defined.

(** X3 at the scenario submitted twice: one record that counts 2. *)
Lemma X3_witness :
  nb_occurences_total [Py.set "nb_occurences" (Py.VInt 2) scenario_A] = 2%Z.
Proof.
  apply (X3_dedup_counts_add_up [scenario_A; scenario_A]).
  vm_compute. reflexivity.
Defined.

(** X4 at three scored records. *)
Lemma X4_witness :
  Permutation three_scored sorted_three
  /\ forall i j a b, (i < j)%nat ->
       nth_error sorted_three i = Some a ->
       nth_error sorted_three j = Some b ->
       prioritizer.score_of b <= prioritizer.score_of a.
Proof.
  assert (E : prioritizer.primary_sort three_scored = Some sorted_three)
    by (vm_compute; reflexivity).
  destruct (X4_primary_sort_orders_by_score three_scored E) as (P & S & _).
  split; [exact P | exact S].
Defined.

Lemma sorted_three_funneled :
  prioritizer._apply_funneling_if_needed funnel_of_two sorted_three
  = Some funneled_three.
Proof. vm_compute. reflexivity. Defined.


(** X7 at the same run: the third record, of RPI 35.33, stays behind
    the first. *)
Lemma X7_witness :
  match nth_error funneled_three 0, nth_error funneled_three 2 with
  | Some a, Some b =>
      prioritizer.score_of b
      <= prioritizer.score_of a + prioritizer.funnel_eps funnel_of_two
  | _, _ => False
  end.
Proof.
  assert (E : prioritizer.primary_sort three_scored = Some sorted_three)
    by (vm_compute; reflexivity).
  destruct (nth_error funneled_three 0) as [a|] eqn:Ha;
    [|vm_compute in Ha; discriminate Ha].
  destruct (nth_error funneled_three 2) as [b|] eqn:Hb;
    [|vm_compute in Hb; discriminate Hb].
  assert (Eps : 0 <= prioritizer.funnel_eps funnel_of_two)
    by (vm_compute; discriminate).
  apply (@X7_funnel_keeps_order_within_epsilon _ funnel_of_two sorted_three
           funneled_three Eps
           (fun i j a b => @primary_sort_by_score _ _ E i j a b)
           sorted_three_funneled 0%nat 2%nat a b);
    [lia | exact Ha | exact Hb].
Defined.

(** X8 at two findings of equal RPI, the second with the effort [²]:
    the funnel of two raises. *)
Lemma X8_witness :
  prioritizer._apply_funneling_if_needed funnel_of_two
    [scored tls_1; scored tls_superscript] = None.
Proof.
  apply (@X8_funnel_aborts_on_unreadable_effort _ funnel_of_two
           [scored tls_1; scored tls_superscript] [0%nat; 1%nat] 1%nat
           (scored tls_superscript)).
  - reflexivity.
  - reflexivity.
  - vm_compute. reflexivity.
  - simpl. auto.
  - reflexivity.
  - vm_compute. discriminate.
  - vm_compute. discriminate.
  - vm_compute. reflexivity.
  - vm_compute. reflexivity.
Defined.

Lemma pipeline_two_run :
  prioritizer.process_vulnerabilities
    (with_config models.default_config no_signals) [0%nat; 1%nat]
    [tls_1; tls_2] = Some pipeline_two.
Proof. vm_compute. reflexivity. Defined.

(** X9 at two findings under the default configuration. *)
Lemma X9_witness :
  exists unique_vulns,
    prioritizer._deduplicate_vulnerabilities [tls_1; tls_2]
    = Some unique_vulns
    /\ (List.length pipeline_two <= 2)%nat.
Proof.
  destruct (X9_pipeline_returns_scored_records _ _ _ pipeline_two_run)
    as (u & D & _ & L & _).
  exists u. split; [exact D | exact L].
Defined.

(** X10 at the same run. *)
Lemma X10_witness :
  match nth_error pipeline_two 0, nth_error pipeline_two 1 with
  | Some a, Some b =>
      prioritizer.score_of b
      <= prioritizer.score_of a
         + prioritizer.funnel_eps
             (prioritizer.config
                (with_config models.default_config no_signals))
  | _, _ => False
  end.
Proof.
  destruct (nth_error pipeline_two 0) as [a|] eqn:Ha;
    [|vm_compute in Ha; discriminate Ha].
  destruct (nth_error pipeline_two 1) as [b|] eqn:Hb;
    [|vm_compute in Hb; discriminate Hb].
  assert (Eps : 0 <= prioritizer.funnel_eps
                       (prioritizer.config
                          (with_config models.default_config no_signals)))
    by (vm_compute; discriminate).
  apply (@X10_pipeline_order_within_epsilon _
           (with_config models.default_config no_signals) [0%nat; 1%nat]
           [tls_1; tls_2] pipeline_two Eps pipeline_two_run
           0%nat 1%nat a b);
    [lia | exact Ha | exact Hb].
Defined.

(** X12 at the accepted record past its SLA. *)
Lemma X12_witness :
  match accepted_past_sla_scored with
  | Some (_, metrics) => 0 < models.rpi_score metrics
  | None => False
  end.
Proof.
  assert (E : calculators.calculate_rpi default_calculator accepted_past_sla
              = accepted_past_sla_scored) by (vm_compute; reflexivity).
  destruct accepted_past_sla_scored as [[r m]|] eqn:S; [|discriminate S].
  apply (@X12_rpi_positive _ default_calculator accepted_past_sla r m
           epss_zero_score_nonneg);
    [vm_compute; reflexivity | vm_compute; discriminate
    | vm_compute; discriminate | vm_compute; discriminate
    | vm_compute; discriminate | exact E].
Defined.

(** X13 at a record whose risk was accepted: its RPI is at most 6.4. *)
Lemma X13_witness :
  match calculators.calculate_rpi default_calculator accepted_risk with
  | Some (_, metrics) => models.rpi_score metrics <= 6.4
  | None => False
  end.
Proof.
  destruct (calculators.calculate_rpi default_calculator accepted_risk)
    as [[r m]|] eqn:E; [|vm_compute in E; discriminate E].
  apply (@X13_accepted_risk_scores_low _ default_calculator accepted_risk r m
           epss_zero_score_nonneg);
    [vm_compute; discriminate | vm_compute; discriminate
    | vm_compute; discriminate | vm_compute; discriminate
    | vm_compute; discriminate | vm_compute; discriminate
    | vm_compute; reflexivity | vm_compute; reflexivity | exact E].
Defined.

(** X14 at the accepted record past its SLA: it is critical. *)
Lemma X14_witness :
  match accepted_past_sla_scored with
  | Some (r, metrics) =>
      models.VulnerabilityData.categorize_rpi (with_metrics r metrics)
        models.default_thresholds = Some "critical"
  | None => False
  end.
Proof.
  assert (E : calculators.calculate_rpi default_calculator accepted_past_sla
              = accepted_past_sla_scored) by (vm_compute; reflexivity).
  destruct accepted_past_sla_scored as [[r m]|] eqn:S; [|discriminate S].
  apply (X14_sla_violation_is_critical default_calculator accepted_past_sla E).
  vm_compute. reflexivity.
Defined.

(** X15 at the RPI 25 and 90 under the default limits. *)
Lemma X15_witness : (category_rank "low" <= category_rank "critical")%nat.
Proof.
  apply (@X15_categorize_rpi_monotone (data_with_score 25)
           (data_with_score 90) models.default_thresholds "low" "critical");
    [vm_compute; discriminate | vm_compute; reflexivity
    | vm_compute; reflexivity].
Defined.

(** X16 at the accepted record past its SLA. *)
Lemma X16_witness :
  17 <= q1_calculator.calculate_q1_exploitability accepted_past_sla
          epss_zero_score.
Proof. apply X16_q1_at_least_17. exact epss_zero_score_nonneg. Defined.

(** X18 at the accepted record past its SLA: Q5 is 100. *)
Lemma X18_witness :
  q5_calculator.calculate_q5_urgency accepted_past_sla no_signals == 100.
Proof. apply X18_q5_is_100_when_sla_urgent. vm_compute. reflexivity. Defined.

(** X19 at records due in two and in forty-five days. *)
Lemma X19_witness :
  q5_calculator._sla_component (due_in 45)
  <= q5_calculator._sla_component (due_in 2).
Proof.
  apply (@X19_sla_component_monotone _ (due_in 2) (due_in 45) 2 45);
    [vm_compute; reflexivity | vm_compute; reflexivity
    | vm_compute; reflexivity | vm_compute; reflexivity
    | vm_compute; discriminate].
Defined.

(** X21 at a record past its SLA and one within it, for equal RPI. *)
Lemma X21_witness :
  prioritizer.sort_key_ltb
    (prioritizer.sort_key
       (prioritizer.annotate
          (past_sla "CVE-2022-0001" 0.9 3.0, metrics_of verbose_errors)))
    (prioritizer.sort_key
       (prioritizer.annotate (verbose_errors, metrics_of verbose_errors)))
  = Some true.
Proof.
  apply X21_sla_violators_first_among_ties;
    [vm_compute; reflexivity | vm_compute; reflexivity | reflexivity].
Defined.

(** X11 at a record whose effort is the integer 10^309. *)
Lemma X11_witness :
  calculators.calculate_rpi default_calculator huge_effort = None.
Proof.
  apply X11_calculate_rpi_raises. right. left. vm_compute. reflexivity.
Defined.

(** X23 at the three sorted records and a target of 80%. *)
Lemma X23_witness :
  match prioritizer.pareto_cut sorted_three 0.8 with
  | Some (k, share, _) =>
      (1 <= k <= List.length (pareto_scores sorted_three))%nat
      /\ (0.8 <= share \/ k = List.length (pareto_scores sorted_three))
  | None => False
  end.
Proof.
  destruct (prioritizer.pareto_cut sorted_three 0.8)
    as [[[k share] frac]|] eqn:E; [|vm_compute in E; discriminate E].
  assert (N : pareto_scores sorted_three <> [])
    by (vm_compute; discriminate).
  destruct (X23_pareto_cut_smallest_prefix sorted_three 0.8 E N)
    as (K & _ & _ & T & _).
  split; [exact K | exact T].
Defined.

(** X25 at the run of the default pipeline on two findings. *)
Lemma X25_witness :
  exists k share frac,
    prioritizer.pareto_cut pipeline_two 0.8 = Some (k, share, frac).
Proof.
  apply (@X25_pareto_cut_defined_after_pipeline _
           (with_config models.default_config no_signals) [0%nat; 1%nat]
           [tls_1; tls_2] pipeline_two 0.8 no_signals_nonneg);
    [vm_compute; reflexivity | vm_compute; discriminate
    | vm_compute; discriminate | vm_compute; discriminate
    | vm_compute; discriminate | exact pipeline_two_run].
Defined.

(** X29 at a sentence that names a CVE in lower case. *)
Lemma X29_witness :
  let id :=
    q1_calculator.extract_cve_id
      (Py.VStr "see cve-2021-44228 (log4j) for details") in
  id = ""
  \/ exists year num,
       id = "CVE-" ++ year ++ "-" ++ num
       /\ Py.all_digits year = true /\ String.length year = 4%nat
       /\ Py.all_digits num = true
       /\ (4 <= String.length num <= 7)%nat.
Proof.
  apply (X29_extract_cve_id_normal_form
           (Py.VStr "see cve-2021-44228 (log4j) for details")).
  vm_compute. reflexivity.
Defined.

End ConcreteMore.
